(** * Feature engineering of NOAA daily climate records

    A shallow embedding of [src/data/feature_engineering.py] and the
    properties of the table it builds.

    The Python function reads one station's CSV into a pandas data frame,
    converts the temperatures to Fahrenheit, keeps the rows from 2013 on,
    adds calendar columns, lagged copies of the four climate variables and
    a "same window last year" rolling mean, casts everything to float and
    drops the rows that have a missing value.

    Modelling choices:
    - a data frame is its index (the row labels [read_csv] hands out) and
      its columns in order, each column a name and a typed series;
    - a float is an exact rational ([Q]); the missing value NaN is [None].
      Rounding, overflow and the infinities of binary floating point are
      outside the model;
    - an integer column (numpy [int64], no missing value) holds [Z];
    - an object column holds ASCII texts and missing values; arithmetic
      and the cast to float work on it cell by cell, as pandas does, the
      cast of a text by Python's [float];
    - code that can raise returns in the [result] monad;
    - the file system is a finite map from paths to parsed tables, passed
      to [feature_engineering_noaa_climate_data] and returned by it.

    The script under [__main__] (make the output directory, skip the
    stations file, write each result) runs in a world of directories and
    files without symbolic links, in which a path is the string the
    program passes; the listing that line 9 takes of the input directory
    is the argument of [main]. *)

From Stdlib Require Import ZArith QArith Qround Lia.
From stdpp Require Import base tactics option list strings pretty gmap.

Import (notations) Stdlib.Strings.Ascii.

Open Scope string_scope.
Open Scope list_scope.
Open Scope nat_scope.

(** ** Exceptions and the result monad *)

Inductive exn :=
| FileNotFoundError
| ValueError
| KeyError (key : string)
| TypeError
| AttributeError
| DataError.

Inductive result (A : Type) :=
| Ok (a : A)
| Raise (e : exn).
Arguments Ok {A} a.
Arguments Raise {A} e.

#[global] Instance result_ret : MRet result := λ A a, Ok a.
#[global] Instance result_bind : MBind result := λ A B f m,
  match m with
  | Ok a => f a
  | Raise e => Raise e
  end.
#[global] Instance result_fmap : FMap result := λ A B f m,
  match m with
  | Ok a => Ok (f a)
  | Raise e => Raise e
  end.

(** Chained calls, [obj.f().g()]: binds to the left. *)
Notation "m >>= f" := (mbind (M:=result) f m) (at level 50, left associativity).

(** ** Calendar dates

    [DATE] is parsed by [read_csv(parse_dates=['DATE'])]; the [.dt]
    accessors below follow the proleptic Gregorian calendar, as pandas and
    Python's [datetime] do. *)

Record date := mkdate { year : Z; month : Z; day : Z }.

Definition is_leap (y : Z) : bool :=
  ((y mod 4 =? 0) && negb (y mod 100 =? 0) || (y mod 400 =? 0))%Z.

Definition days_in_month (y m : Z) : Z :=
  match m with
  | 2 => if is_leap y then 29 else 28
  | 4 | 6 | 9 | 11 => 30
  | _ => 31
  end%Z.

Definition valid_date (d : date) : bool :=
  ((1 <=? month d) && (month d <=? 12) &&
   (1 <=? day d) && (day d <=? days_in_month (year d) (month d)))%Z.

Definition days_before_year (y : Z) : Z :=
  let y' := (y - 1)%Z in (y' * 365 + y' / 4 - y' / 100 + y' / 400)%Z.

Definition days_before_month (y m : Z) : Z :=
  foldr Z.add 0%Z (map (days_in_month y) (seqZ 1 (m - 1))).

(** [.dt.dayofyear] *)
Definition dayofyear (d : date) : Z :=
  (days_before_month (year d) (month d) + day d)%Z.

Definition ymd2ord (y m d : Z) : Z :=
  (days_before_year y + days_before_month y m + d)%Z.

(** Ordinal of the Monday that starts ISO week 1 of year [y]. *)
Definition isoweek1monday (y : Z) : Z :=
  let firstday := ymd2ord y 1 1 in
  let firstweekday := ((firstday + 6) mod 7)%Z in
  let week1monday := (firstday - firstweekday)%Z in
  if (3 <? firstweekday)%Z then (week1monday + 7)%Z else week1monday.

(** [.dt.isocalendar().week] *)
Definition isoweek (d : date) : Z :=
  let today := ymd2ord (year d) (month d) (day d) in
  let week := ((today - isoweek1monday (year d)) / 7)%Z in
  if (week <? 0)%Z then
    ((today - isoweek1monday (year d - 1)) / 7 + 1)%Z
  else if (52 <=? week)%Z && (isoweek1monday (year d + 1) <=? today)%Z then
    1%Z
  else (week + 1)%Z.

(** ** Series *)

(** A float cell; [None] is NaN. *)
Abbreviation cell := (option Q).

Inductive Series :=
| SInt (zs : list Z)
| SFloat (vs : list cell)
| SDate (ds : list (option date))
| SObj (os : list (option string)).

Definition series_len (s : Series) : nat :=
  match s with
  | SInt zs => length zs
  | SFloat vs => length vs
  | SDate ds => length ds
  | SObj os => length os
  end.

Definition int_cells (zs : list Z) : list cell :=
  map (λ z, Some (inject_Z z)) zs.

(** *** Text cells

    A cell of an object column is missing or a text. NumPy casts such a
    column to [float64] cell by cell, a text by Python's [float(text)]:
    blanks around the text are dropped, an underscore may stand between two
    digits, and what is left is a signed decimal numeral with an optional
    exponent, or one of [inf], [infinity], [nan] in any case. Any other
    text is refused. (Texts are taken to be ASCII.) *)

Definition code (c : Ascii.ascii) : nat := Ascii.nat_of_ascii c.

Definition is_digit (c : Ascii.ascii) : bool := (48 <=? code c) && (code c <=? 57).

Definition is_space (c : Ascii.ascii) : bool :=
  (9 <=? code c) && (code c <=? 13) || (code c =? 32).

Definition lower (c : Ascii.ascii) : Ascii.ascii :=
  if (65 <=? code c) && (code c <=? 90) then Ascii.ascii_of_nat (code c + 32) else c.

(** The text without its underscores; refused unless each underscore
    stands between two digits. [prev] is the character before. *)
Fixpoint without_underscores (prev : option Ascii.ascii) (s : list Ascii.ascii)
    : option (list Ascii.ascii) :=
  match s with
  | [] => if bool_decide (prev = Some "_"%char) then None else Some []
  | c :: s' =>
      if bool_decide (c = "_"%char) then
        if from_option is_digit false prev then without_underscores (Some c) s'
        else None
      else if bool_decide (prev = Some "_"%char) && negb (is_digit c) then None
      else cons c <$> without_underscores (Some c) s'
  end.

(** The longest prefix of characters that satisfy [f], and the rest. *)
Fixpoint span (f : Ascii.ascii → bool) (s : list Ascii.ascii)
    : list Ascii.ascii * list Ascii.ascii :=
  match s with
  | c :: s' => if f c then let '(a, r) := span f s' in (c :: a, r) else ([], s)
  | [] => ([], [])
  end.

Definition strip_spaces (s : list Ascii.ascii) : list Ascii.ascii :=
  reverse (span is_space (reverse (span is_space s).2)).2.

(** An optional sign: whether it is a minus, and the rest. *)
Definition sign_of (s : list Ascii.ascii) : bool * list Ascii.ascii :=
  match s with
  | c :: s' =>
      if bool_decide (c = "-"%char) then (true, s')
      else if bool_decide (c = "+"%char) then (false, s')
      else (false, s)
  | [] => (false, [])
  end.

(** The rest of [s] after the word [p], whatever the case of [s]. *)
Fixpoint after_word (p s : list Ascii.ascii) : option (list Ascii.ascii) :=
  match p, s with
  | [], _ => Some s
  | a :: p', c :: s' => if bool_decide (lower c = a) then after_word p' s' else None
  | _ :: _, [] => None
  end.

(** The rest after a signed [inf], [infinity] or [nan], if [s] starts
    with one. *)
Definition inf_or_nan (s : list Ascii.ascii) : option (list Ascii.ascii) :=
  let s := (sign_of s).2 in
  match after_word (String.list_ascii_of_string "inf") s with
  | Some r => Some (default r (after_word (String.list_ascii_of_string "inity") r))
  | None => after_word (String.list_ascii_of_string "nan") s
  end.

Definition digits_value (ds : list Ascii.ascii) : Z :=
  foldl (λ a c, 10 * a + (Z.of_nat (code c) - 48))%Z 0%Z ds.

(** An exponent [e] or [E] with an optional sign and at least one digit:
    its value and the rest; without one, 0 and the whole text. *)
Definition exponent (s : list Ascii.ascii) : Z * list Ascii.ascii :=
  match s with
  | c :: s' =>
      if bool_decide (lower c = "e"%char) then
        let '(neg, s'') := sign_of s' in
        let '(ds, r) := span is_digit s'' in
        if bool_decide (ds = []) then (0%Z, s)
        else ((if neg then - digits_value ds else digits_value ds)%Z, r)
      else (0%Z, s)
  | [] => (0%Z, [])
  end.

(** A signed decimal numeral at the start of [s]: its value and the rest. *)
Definition numeral (s : list Ascii.ascii) : option (Q * list Ascii.ascii) :=
  let '(neg, s1) := sign_of s in
  let '(ip, s2) := span is_digit s1 in
  let '(fp, s3) :=
    match s2 with
    | c :: r => if bool_decide (c = "."%char) then span is_digit r else ([], s2)
    | [] => ([], [])
    end in
  if bool_decide (ip ++ fp = []) then None
  else
    let '(e, s4) := exponent s3 in
    let m := digits_value (ip ++ fp) in
    Some ((inject_Z (if neg then - m else m) * (10 ^ (e - Z.of_nat (length fp))))%Q, s4).

(** [float(text)]: [None] when Python raises [ValueError]; otherwise the
    float, which is missing for [nan]. The model has no infinity (a float
    is a rational): where Python reads one, the model reads a missing
    value. *)
Definition float_of_str (text : string) : option cell :=
  s ← without_underscores None (String.list_ascii_of_string text);
  let s := strip_spaces s in
  match inf_or_nan s with
  | Some [] => Some None
  | Some (_ :: _) => None
  | None =>
      match numeral s with
      | Some (q, []) => Some (Some q)
      | _ => None
      end
  end.

(** The cast of one cell: a missing value stays missing. *)
Definition cast_cell (o : option string) : option cell :=
  match o with
  | None => Some None
  | Some text => float_of_str text
  end.

(** The cast of the cells of an object column, refused when one of its
    texts is. *)
Definition float_cells (os : list (option string)) : option (list cell) :=
  mapM cast_cell os.

(** Does an object column hold a text? *)
Definition has_text (os : list (option string)) : bool :=
  existsb (λ o, bool_decide (is_Some o)) os.

(** The number a cell stands for; missing when it stands for none. *)
Definition text_cell (o : option string) : cell := default None (cast_cell o).

(** The numeric content of a series, as floats: the numbers of a numeric
    column, and of an object column the numbers its texts spell, a text
    that spells none counting as missing. Dates have none. *)
Definition to_numeric (s : Series) : option (list cell) :=
  match s with
  | SInt zs => Some (int_cells zs)
  | SFloat vs => Some vs
  | SDate _ => None
  | SObj os => Some (map text_cell os)
  end.

(** [values.astype(np.float64)]: refused for dates, and for an object
    column when one of its texts is. *)
Definition as_float64 (s : Series) : option (list cell) :=
  match s with
  | SInt zs => Some (int_cells zs)
  | SFloat vs => Some vs
  | SDate _ => None
  | SObj os => float_cells os
  end.

(** The cell at an integer position; missing outside the series. *)
Definition cell_at {A} (l : list (option A)) (p : Z) : option A :=
  if (p <? 0)%Z then None else default None (l !! Z.to_nat p).

(** *** Arithmetic with a scalar *)

(** On an object column the operation is done cell by cell, the missing
    cells passed over: a text raises [TypeError], and without a text the
    column comes back as it is, an object column of missing values. A
    column of dates raises [TypeError] whatever it holds. *)
Definition object_arith (os : list (option string)) : result Series :=
  if has_text os then Raise TypeError else Ok (SObj os).

(** [s / k] (true division: the result is a float column) *)
Definition truediv (k : Q) (s : Series) : result Series :=
  match s with
  | SInt zs => Ok (SFloat (map (λ z, Some (inject_Z z / k)%Q) zs))
  | SFloat vs => Ok (SFloat (map (fmap (λ q, q / k)%Q) vs))
  | SDate _ => Raise TypeError
  | SObj os => object_arith os
  end.

(** [s * k] for a float [k] *)
Definition mul (k : Q) (s : Series) : result Series :=
  match s with
  | SInt zs => Ok (SFloat (map (λ z, Some (inject_Z z * k)%Q) zs))
  | SFloat vs => Ok (SFloat (map (fmap (λ q, q * k)%Q) vs))
  | SDate _ => Raise TypeError
  | SObj os => object_arith os
  end.

(** [s + k] for an integer [k] *)
Definition add (k : Z) (s : Series) : result Series :=
  match s with
  | SInt zs => Ok (SInt (map (λ z, z + k)%Z zs))
  | SFloat vs => Ok (SFloat (map (fmap (λ q, q + inject_Z k)%Q) vs))
  | SDate _ => Raise TypeError
  | SObj os => object_arith os
  end.

Definition Qfloordiv (q : Q) (k : Z) : Q := inject_Z (Qfloor (q / inject_Z k)).
Definition Qmod (q : Q) (k : Z) : Q := (q - inject_Z k * Qfloordiv q k)%Q.

(** [s % k] for an integer [k] *)
Definition mod_ (k : Z) (s : Series) : result Series :=
  match s with
  | SInt zs => Ok (SInt (map (λ z, z mod k)%Z zs))
  | SFloat vs => Ok (SFloat (map (fmap (λ q, Qmod q k)) vs))
  | _ => Raise TypeError
  end.

(** [s // k] for an integer [k] *)
Definition floordiv (k : Z) (s : Series) : result Series :=
  match s with
  | SInt zs => Ok (SInt (map (λ z, z / k)%Z zs))
  | SFloat vs => Ok (SFloat (map (fmap (λ q, Qfloordiv q k)) vs))
  | _ => Raise TypeError
  end.

(** [s >= k]: a comparison with NaN is false. *)
Definition ge (k : Z) (s : Series) : result (list bool) :=
  match s with
  | SInt zs => Ok (map (λ z, k <=? z)%Z zs)
  | SFloat vs => Ok (map (λ c, from_option (Qle_bool (inject_Z k)) false c) vs)
  | _ => Raise TypeError
  end.

(** *** The [.dt] accessor

    A field of a datetime column is an integer column; where a date is
    missing (NaT) the field is missing and the column is a float one. *)
Definition dt (field : date → Z) (s : Series) : result Series :=
  match s with
  | SDate ds =>
      match mapM id ds with
      | Some ds' => Ok (SInt (map field ds'))
      | None => Ok (SFloat (map (fmap (λ d, inject_Z (field d))) ds))
      end
  | _ => Raise AttributeError
  end.

(** *** Shifting and rolling *)

(** [shift(periods)] moves the values [periods] positions down (up when
    negative), keeps the length and fills the hole with missing values. *)
Definition shift {A} (periods : Z) (l : list (option A)) : list (option A) :=
  let n := length l in
  if (0 <=? periods)%Z then
    take n (replicate (Z.to_nat periods) None ++ l)
  else
    drop (Z.to_nat (- periods)) l ++ replicate (Z.to_nat (- periods) `min` n) None.

Definition shift_series (periods : Z) (s : Series) : Series :=
  match s with
  | SInt zs => SFloat (shift periods (int_cells zs))
  | SFloat vs => SFloat (shift periods vs)
  | SDate ds => SDate (shift periods ds)
  | SObj os => SObj (shift periods os)
  end.

Definition Qsum (l : list Q) : Q := foldr Qplus 0%Q l.

Definition Qmean (l : list Q) : Q := (Qsum l / inject_Z (Z.of_nat (length l)))%Q.

(** The rows a trailing window of [w] rows ending at position [p] covers. *)
Definition window_at {A} (w p : nat) (l : list A) : list A :=
  drop (S p - w) (take (S p) l).

(** [rolling(window=w).mean()]: at each position the mean of the
    observations in the trailing window, missing unless the window holds
    [min_periods = w] observations. *)
Definition rolling_mean (w : nat) (l : list cell) : list cell :=
  map (λ p, let obs := omap id (window_at w p l) in
            if (w <=? length obs)%nat then Some (Qmean obs) else None)
      (seq 0 (length l)).

(** The values are cast to [float64] first; a column that cannot be cast
    (dates, or an object column with a text that is no number) raises
    [DataError]. *)
Definition rolling_mean_series (w : nat) (s : Series) : result Series :=
  match as_float64 s with
  | Some vs => Ok (SFloat (rolling_mean w vs))
  | None => Raise DataError
  end.

(** [astype(float)] on one column: a text that is no number raises
    [ValueError], a column of dates [TypeError]. *)
Definition astype_float (s : Series) : result Series :=
  match s with
  | SDate _ => Raise TypeError
  | _ =>
      match as_float64 s with
      | Some vs => Ok (SFloat vs)
      | None => Raise ValueError
      end
  end.

(** Is the value at row [r] missing? *)
Definition isna (s : Series) (r : nat) : bool :=
  match s with
  | SInt zs => bool_decide (zs !! r = None)
  | SFloat vs => bool_decide (mjoin (vs !! r) = None)
  | SDate ds => bool_decide (mjoin (ds !! r) = None)
  | SObj os => bool_decide (mjoin (os !! r) = None)
  end.

(** Boolean indexing: keep the rows where the mask is true. *)
Fixpoint compress {A} (mask : list bool) (l : list A) : list A :=
  match mask, l with
  | b :: mask', x :: l' => if b then x :: compress mask' l' else compress mask' l'
  | _, _ => []
  end.

Definition compress_series (mask : list bool) (s : Series) : Series :=
  match s with
  | SInt zs => SInt (compress mask zs)
  | SFloat vs => SFloat (compress mask vs)
  | SDate ds => SDate (compress mask ds)
  | SObj os => SObj (compress mask os)
  end.


(** ** Data frames *)

Record DataFrame := mkDataFrame {
  index : list nat;
  columns : list (string * Series)
}.

Fixpoint lookup_col (name : string) (cols : list (string * Series)) : option Series :=
  match cols with
  | [] => None
  | (k, s) :: cols' => if String.eqb name k then Some s else lookup_col name cols'
  end.

(** [df[name]] *)
Definition getitem (name : string) (df : DataFrame) : result Series :=
  match lookup_col name (columns df) with
  | Some s => Ok s
  | None => Raise (KeyError name)
  end.

(** [df[names]]: the listed columns, in the order listed. *)
Definition getitems (names : list string) (df : DataFrame) : result DataFrame :=
  cols ← mapM (λ name, s ← getitem name df; mret (name, s)) names;
  Ok (mkDataFrame (index df) cols).

Fixpoint replace_col (name : string) (s : Series) (cols : list (string * Series))
    : list (string * Series) :=
  match cols with
  | [] => [(name, s)]
  | (k, s') :: cols' =>
      if String.eqb name k then (k, s) :: cols' else (k, s') :: replace_col name s cols'
  end.

(** [df[name] = s]: overwrite the column in place, or append a new one. *)
Definition setitem (name : string) (s : Series) (df : DataFrame) : DataFrame :=
  mkDataFrame (index df) (replace_col name s (columns df)).

(** [df[mask]] *)
Definition boolean_index (mask : list bool) (df : DataFrame) : DataFrame :=
  mkDataFrame (compress mask (index df))
              (map (λ c, (c.1, compress_series mask c.2)) (columns df)).

(** [pd.DataFrame(dict)] of series that share the index [idx] *)
Definition DataFrame_of_dict (idx : list nat) (d : list (string * Series)) : DataFrame :=
  mkDataFrame idx d.

(** [pd.concat(dfs, axis=1)] of frames that share their index: the columns
    side by side. *)
Definition concat_axis1 (dfs : list DataFrame) : DataFrame :=
  mkDataFrame (from_option index [] (head dfs)) (concat (map columns dfs)).

(** [df.drop(name, axis=1)] *)
Definition drop_col (name : string) (df : DataFrame) : result DataFrame :=
  match lookup_col name (columns df) with
  | Some _ =>
      Ok (mkDataFrame (index df)
            (filter (λ c, bool_decide (c.1 ≠ name)) (columns df)))
  | None => Raise (KeyError name)
  end.

(** [df.astype(float)] *)
Definition astype (df : DataFrame) : result DataFrame :=
  cols ← mapM (λ c, s ← astype_float c.2; mret (c.1, s)) (columns df);
  Ok (mkDataFrame (index df) cols).

(** Does row [r] hold a missing value in some column? *)
Definition row_has_na (df : DataFrame) (r : nat) : bool :=
  existsb (λ c, isna c.2 r) (columns df).

(** The rows without a missing value, as a mask. *)
Definition keep_mask (df : DataFrame) : list bool :=
  map (λ r, negb (row_has_na df r)) (seq 0 (length (index df))).

(** [df.dropna()] *)
Definition dropna (df : DataFrame) : DataFrame :=
  boolean_index (keep_mask df) df.

(** ** The feature builder *)

(** Python's [range(start, stop, step)] *)
Definition range (start stop step : Z) : list Z :=
  let n := if (0 <? step)%Z then ((stop - start + step - 1) / step)%Z
           else ((start - stop - step - 1) / (- step))%Z in
  map (λ i, (start + step * Z.of_nat i)%Z) (seq 0 (Z.to_nat n)).

Definition climate_vars : list string := ["PRCP"; "TMIN"; "TAVG"; "TMAX"].

(** Lines 22-33: the five columns, the temperatures in Fahrenheit, the
    year, and only the rows from 2013 on. *)
Definition convert_and_filter (df : DataFrame) : result DataFrame :=
  df ← getitems ("DATE" :: climate_vars) df;
  tmin ← getitem "TMIN" df >>= truediv 10 >>= mul (9 / 5) >>= add 32;
  let df := setitem "TMIN" tmin df in
  tavg ← getitem "TAVG" df >>= truediv 10 >>= mul (9 / 5) >>= add 32;
  let df := setitem "TAVG" tavg df in
  tmax ← getitem "TMAX" df >>= truediv 10 >>= mul (9 / 5) >>= add 32;
  let df := setitem "TMAX" tmax df in
  years ← getitem "DATE" df >>= dt year;
  let df := setitem "YEAR" years df in
  mask ← getitem "YEAR" df >>= ge 2013;
  Ok (boolean_index mask df).

(** Lines 34-43: month, day of year, ISO week and season. *)
Definition add_calendar (df : DataFrame) : result DataFrame :=
  months ← getitem "DATE" df >>= dt month;
  let df := setitem "MONTH" months df in
  days ← getitem "DATE" df >>= dt dayofyear;
  let df := setitem "DAY_OF_YEAR" days df in
  weeks ← getitem "DATE" df >>= dt isoweek;
  let df := setitem "WEEK_OF_YEAR" weeks df in
  season ← getitem "DATE" df >>= dt month >>= mod_ 12 >>= add 3 >>= floordiv 3;
  Ok (setitem "SEASON" season df).

Definition lag_name (var : string) (i : Z) : string :=
  var +:+ "_lag_" +:+ pretty i.

Definition backward_lagged_columns (var : string) (s : Series) : list (string * Series) :=
  map (λ i, (lag_name var i, shift_series i s)) (range 1 (30 + 1) 1).

Definition forward_lagged_columns (var : string) (s : Series) : list (string * Series) :=
  map (λ i, (lag_name var i, shift_series i s)) (range (-1) (-4 - 1) (-1)).

(** One turn of the loop of lines 47-55. *)
Definition add_lags_of (var : string) (df : DataFrame) : result DataFrame :=
  s ← getitem var df;
  let backward_lagged_df := DataFrame_of_dict (index df) (backward_lagged_columns var s) in
  let forward_lagged_df := DataFrame_of_dict (index df) (forward_lagged_columns var s) in
  Ok (concat_axis1 [df; backward_lagged_df; forward_lagged_df]).

(** [for var in vars: df = body(var, df)] *)
Fixpoint for_each (body : string → DataFrame → result DataFrame)
    (vars : list string) (df : DataFrame) : result DataFrame :=
  match vars with
  | [] => Ok df
  | var :: vars' => df' ← body var df; for_each body vars' df'
  end.

Definition add_lags : DataFrame → result DataFrame :=
  for_each add_lags_of climate_vars.

Definition window_name (var : string) : string := var +:+ "_mean_5d_window".

(** One turn of the loop of lines 59-60. *)
Definition add_window_of (var : string) (df : DataFrame) : result DataFrame :=
  s ← getitem var df;
  w ← rolling_mean_series 5 (shift_series 365 s);
  Ok (setitem (window_name var) w df).

Definition add_windows : DataFrame → result DataFrame :=
  for_each add_window_of climate_vars.

(** Lines 22-60: the frame with every feature column, rows not yet dropped. *)
Definition engineered (df : DataFrame) : result DataFrame :=
  convert_and_filter df >>= add_calendar >>= add_lags >>= add_windows.

(** Lines 22-63: the same without [DATE], every column cast to float. *)
Definition features (df : DataFrame) : result DataFrame :=
  engineered df >>= drop_col "DATE" >>= astype.

(** Lines 22-68: FeatureBuilder on the frame [read_csv] returned. *)
Definition feature_builder (df : DataFrame) : result DataFrame :=
  dropna <$> features df.

(** ** The file system and the entry point *)

(** A CSV file, as [read_csv] types its columns. *)
Abbreviation table := (list (string * Series)).

Abbreviation filesystem := (gmap string table).

(** A computation that may read or write files and may raise. *)
Definition IO (A : Type) := filesystem → result A * filesystem.

Definition nrows (t : table) : nat := from_option (λ c, series_len c.2) 0 (head t).

(** [pd.read_csv(path, parse_dates=dates)]: the rows are labelled
    [0 .. nrows-1]. *)
Definition read_csv (path : string) (parse_dates : list string) : IO DataFrame :=
  λ fs,
    match fs !! path with
    | None => (Raise FileNotFoundError, fs)
    | Some t =>
        if forallb (λ name, bool_decide (is_Some (lookup_col name t))) parse_dates
        then (Ok (mkDataFrame (seq 0 (nrows t)) t), fs)
        else (Raise ValueError, fs)
    end.

Definition feature_engineering_noaa_climate_data (file_path : string) : IO DataFrame :=
  λ fs,
    let '(df, fs) := read_csv file_path ["DATE"] fs in
    (df >>= feature_builder, fs).

(** ** Specification-side notions *)

(** The mean of a run of cells: missing as soon as one of them is. *)
Definition mean_of (cs : list cell) : cell := Qmean <$> mapM id cs.

(** Tenths of a degree Celsius to degrees Fahrenheit. *)
Definition fahrenheit (q : Q) : Q := (q / 10 * (9 / 5) + 32)%Q.

(** The converted column a climate variable goes by after line 28: [PRCP]
    as it is, the temperatures in Fahrenheit. *)
Definition converted (var : string) (v : list cell) : list cell :=
  if decide (var = "PRCP") then v else map (fmap fahrenheit) v.

(** The season number of a month number. *)
Definition season (m : Z) : Z := ((m mod 12 + 3) / 3)%Z.

(** The rows the year filter keeps, read off the parsed dates. *)
Definition year_mask (ds : list (option date)) : list bool :=
  map (from_option (λ d, (2013 <=? year d)%Z) false) ds.

(** The dates of the rows the year filter keeps. *)
Definition filtered_dates (ds : list (option date)) : list date :=
  omap id (compress (year_mask ds) ds).

(** *** The table in closed form

    What [features] computes, written as one expression over the dates
    [dd] and the four climate columns [p], [t1], [t2], [t3] of the
    filtered series. [features_closed_form] proves the two equal. *)

Definition calendar_column (field : date → Z) (dd : list date) : Series :=
  SFloat (int_cells (map field dd)).

(** The lags of lines 50-51: 1 to 30 backward, then 1 to 4 forward. *)
Definition lags : list Z := range 1 (30 + 1) 1 ++ range (-1) (-4 - 1) (-1).

Definition lag_block (var : string) (v : list cell) : table :=
  map (λ i, (lag_name var i, SFloat (shift i v))) lags.

(** The same before the cast to float, for a column [s] of any type. *)
Definition lag_series (var : string) (s : Series) : table :=
  map (λ i, (lag_name var i, shift_series i s)) lags.

Definition window_column (v : list cell) : Series :=
  SFloat (rolling_mean 5 (shift 365 v)).

Definition feature_columns (dd : list date) (p t1 t2 t3 : list cell) : table :=
  [("PRCP", SFloat p); ("TMIN", SFloat t1); ("TAVG", SFloat t2); ("TMAX", SFloat t3);
   ("YEAR", calendar_column year dd);
   ("MONTH", calendar_column month dd);
   ("DAY_OF_YEAR", calendar_column dayofyear dd);
   ("WEEK_OF_YEAR", calendar_column isoweek dd);
   ("SEASON", calendar_column (λ d, season (month d)) dd)]
  ++ lag_block "PRCP" p ++ lag_block "TMIN" t1
  ++ lag_block "TAVG" t2 ++ lag_block "TMAX" t3
  ++ [(window_name "PRCP", window_column p); (window_name "TMIN", window_column t1);
      (window_name "TAVG", window_column t2); (window_name "TMAX", window_column t3)].

(** Lines 26-28 pass on the column: it holds numbers, or it is an object
    column without a text. *)
Definition arithmetic_ok (s : Series) : bool :=
  match s with
  | SInt _ | SFloat _ => true
  | SDate _ => false
  | SObj os => negb (has_text os)
  end.

(** The column lines 26-28 leave: the numbers in Fahrenheit; an object
    column without a text as it was. *)
Definition in_fahrenheit (s : Series) : Series :=
  match s with
  | SInt zs => SFloat (map (fmap fahrenheit) (int_cells zs))
  | SFloat vs => SFloat (map (fmap fahrenheit) vs)
  | _ => s
  end.

(** The input has the five columns the code reads, with content the code
    can work on: [DATE] parsed to dates; temperature columns of numbers,
    or without a text; a [PRCP] column of numbers, or whose texts on the
    rows from 2013 on all spell numbers. [vp], [vmin], [vavg], [vmax] are
    the numeric content of the four columns. *)
Record raw_input (df : DataFrame) (ds : list (option date))
    (vp vmin vavg vmax : list cell) : Prop := {
  raw_DATE : lookup_col "DATE" (columns df) = Some (SDate ds);
  raw_PRCP : ∃ s, lookup_col "PRCP" (columns df) = Some s ∧ to_numeric s = Some vp;
  raw_TMIN : ∃ s, lookup_col "TMIN" (columns df) = Some s ∧ to_numeric s = Some vmin;
  raw_TAVG : ∃ s, lookup_col "TAVG" (columns df) = Some s ∧ to_numeric s = Some vavg;
  raw_TMAX : ∃ s, lookup_col "TMAX" (columns df) = Some s ∧ to_numeric s = Some vmax;
  raw_PRCP_numbers : ∀ s, lookup_col "PRCP" (columns df) = Some s →
    is_Some (as_float64 (compress_series (year_mask ds) s));
  raw_TMIN_numbers : ∀ s, lookup_col "TMIN" (columns df) = Some s → arithmetic_ok s = true;
  raw_TAVG_numbers : ∀ s, lookup_col "TAVG" (columns df) = Some s → arithmetic_ok s = true;
  raw_TMAX_numbers : ∀ s, lookup_col "TMAX" (columns df) = Some s → arithmetic_ok s = true
}.

(** The frame [features] returns on such an input. *)
Definition features_of (df : DataFrame) (ds : list (option date))
    (vp vmin vavg vmax : list cell) : DataFrame :=
  let mask := year_mask ds in
  mkDataFrame (compress mask (index df))
    (feature_columns (filtered_dates ds) (compress mask vp)
       (compress mask (map (fmap fahrenheit) vmin))
       (compress mask (map (fmap fahrenheit) vavg))
       (compress mask (map (fmap fahrenheit) vmax))).

(** ** A sample station

    [sample n]: [n] consecutive days from 2012-12-30 on, so the first two
    rows fall before 2013. [PRCP] counts the days, [TMIN] is a constant
    10.0 degrees Celsius, [TAVG] is a float column, and there is a column
    the code does not read. *)

Definition days_of_year (y : Z) : list date :=
  flat_map (λ m, map (mkdate y m) (seqZ 1 (days_in_month y m))) (seqZ 1 12).

Definition sample_dates (n : nat) : list date :=
  take n ([mkdate 2012 12 30; mkdate 2012 12 31]
          ++ days_of_year 2013 ++ days_of_year 2014).

Definition sample_table (n : nat) : table :=
  [("STATION", SObj (replicate n (Some "USW00094728")));
   ("DATE", SDate (map Some (sample_dates n)));
   ("PRCP", SInt (seqZ 0 (Z.of_nat n)));
   ("TMIN", SInt (replicate n 100%Z));
   ("TAVG", SFloat (map (λ k, Some (inject_Z (150 + k))) (seqZ 0 (Z.of_nat n))));
   ("TMAX", SInt (map (λ k, 200 + k)%Z (seqZ 0 (Z.of_nat n))))].

Definition sample (n : nat) : DataFrame :=
  mkDataFrame (seq 0 n) (sample_table n).

(** A file with the header line and no row: [read_csv] gives every column
    the object type. *)
Definition header_only : table :=
  [("STATION", SObj []); ("DATE", SObj []); ("PRCP", SObj []);
   ("TMIN", SObj []); ("TAVG", SObj []); ("TMAX", SObj [])].

(** The frame a run returned, for a run that is known to return. *)
Definition returned (r : result DataFrame) : DataFrame :=
  match r with
  | Ok df => df
  | Raise _ => mkDataFrame [] []
  end.

(** The invariant of a data frame: every column is as long as the index. *)
Definition wf_frame (df : DataFrame) : Prop :=
  Forall (λ c, series_len c.2 = length (index df)) (columns df).

(** The cells of a float column; empty when there is no such column. *)
Definition float_column (name : string) (df : DataFrame) : list cell :=
  match getitem name df with
  | Ok (SFloat vs) => vs
  | _ => []
  end.

(** ** Notions for the further properties *)

(** Variants of the sample station: without a column, or with a column
    replaced. *)
Definition sample_without (name : string) (n : nat) : DataFrame :=
  mkDataFrame (seq 0 n) (filter (λ c, bool_decide (c.1 ≠ name)) (sample_table n)).

Definition sample_with (name : string) (s : Series) (n : nat) : DataFrame :=
  setitem name s (sample n).

(** The names of the output columns, in order: the four variables, the
    five calendar columns, for each variable its 30 backward and 4 forward
    lags, then the four window means. *)
Definition feature_names : list string :=
  climate_vars ++ ["YEAR"; "MONTH"; "DAY_OF_YEAR"; "WEEK_OF_YEAR"; "SEASON"]
  ++ flat_map (λ var, map (lag_name var) lags) climate_vars
  ++ map window_name climate_vars.

(** The number of days of a year. *)
Definition year_length (y : Z) : Z := if is_leap y then 366%Z else 365%Z.

(** ** The script around the function (lines 7-9 and 70-81) *)

(** *** Strings and paths *)

(** [s.startswith(p)] *)
Fixpoint starts_with (p s : string) : bool :=
  match p, s with
  | EmptyString, _ => true
  | String a p', String b s' => Ascii.eqb a b && starts_with p' s'
  | String _ _, EmptyString => false
  end.

(** [sub in s] *)
Fixpoint contains (sub s : string) : bool :=
  starts_with sub s ||
  match s with
  | EmptyString => false
  | String _ s' => contains sub s'
  end.

(** [s.endswith("/")] *)
Fixpoint ends_with_slash (s : string) : bool :=
  match s with
  | EmptyString => false
  | String c EmptyString => Ascii.eqb c "/"%char
  | String _ s' => ends_with_slash s'
  end.

(** [s.rstrip("/")] *)
Fixpoint rstrip_slash (s : string) : string :=
  match s with
  | EmptyString => ""
  | String c s' =>
      let r := rstrip_slash s' in
      if Ascii.eqb c "/"%char && bool_decide (r = "") then "" else String c r
  end.

(** [p[:p.rfind("/") + 1]] and [p[p.rfind("/") + 1:]] *)
Fixpoint up_to_last_slash (p : string) : string :=
  match p with
  | EmptyString => ""
  | String c p' =>
      if contains "/" p' then String c (up_to_last_slash p')
      else if Ascii.eqb c "/"%char then "/" else ""
  end.

Fixpoint basename (p : string) : string :=
  match p with
  | EmptyString => ""
  | String c p' =>
      if contains "/" p' then basename p'
      else if Ascii.eqb c "/"%char then p' else p
  end.

(** [os.path.dirname(p)]: the part up to the last slash, without its
    trailing slashes unless it is made of slashes only. *)
Definition dirname (p : string) : string :=
  let head := up_to_last_slash p in
  if bool_decide (rstrip_slash head = "") then head else rstrip_slash head.

(** [os.path.join(a, b)] *)
Definition path_join (a b : string) : string :=
  if starts_with "/" b then b
  else if bool_decide (a = "") || ends_with_slash a then a +:+ b
  else a +:+ "/" +:+ b.

(** *** The file system with its directories *)

(** The directories that exist and the files with their content. A path
    is the string the script passes, and two strings are two paths; the
    library calls are modelled for paths that end in no slash, as the
    paths of the script do. Symbolic links, permissions and concurrent
    changes are outside the model: a path exists exactly when it is one of
    the directories or one of the files. *)
Record world := mkworld { dirs : gset string; files : filesystem }.

(** What the script can raise: an exception of the function, or one of
    the calls around it ([OSError] stands for its subclasses
    [FileNotFoundError], [NotADirectoryError] and [IsADirectoryError]
    raised by [os] and by [to_csv]). *)
Inductive script_exn :=
| Pandas (e : exn)
| OSError
| FileExistsError.

Inductive outcome (A : Type) :=
| Returned (a : A)
| Raised (e : script_exn).
Arguments Returned {A} a.
Arguments Raised {A} e.

Definition Script (A : Type) := world → outcome A * world.

(** [os.path.exists(path)] *)
Definition path_exists (path : string) (w : world) : bool :=
  bool_decide (path ∈ dirs w) || bool_decide (is_Some (files w !! path)).

(** Whether the directory that is to hold [path] is there; the empty
    name is the current directory. *)
Definition parent_is_dir (path : string) (w : world) : bool :=
  bool_decide (dirname path = "") || bool_decide (dirname path ∈ dirs w).

(** [os.mkdir(path)]: refused when the path exists ([FileExistsError])
    or when its parent is no directory ([FileNotFoundError] or
    [NotADirectoryError]). *)
Definition mkdir (path : string) : Script unit :=
  λ w,
    if path_exists path w then (Raised FileExistsError, w)
    else if parent_is_dir path w
    then (Returned (), mkworld ({[path]} ∪ dirs w) (files w))
    else (Raised OSError, w).

(** [os.makedirs(name)]: when the parent of [name] does not exist it is
    made first, in the same way, and its [FileExistsError] is passed over;
    then [name] is made, unless it ends in [/.]. Each step shortens the
    name, so [String.length name] steps are enough. *)
Fixpoint makedirs_from (fuel : nat) (name : string) : Script unit :=
  λ w,
    match fuel with
    | 0 => mkdir name w
    | S fuel =>
        let head := dirname name in
        let tail := basename name in
        if negb (bool_decide (head = "")) && negb (bool_decide (tail = ""))
           && negb (path_exists head w)
        then
          match makedirs_from fuel head w with
          | (Returned _, w') | (Raised FileExistsError, w') =>
              if bool_decide (tail = ".") then (Returned (), w') else mkdir name w'
          | (Raised e, w') => (Raised e, w')
          end
        else mkdir name w
    end.

Definition makedirs (name : string) : Script unit :=
  makedirs_from (String.length name) name.

(** [df.to_csv(path, index=False)]: the columns are written, the labels
    are not; an existing file is replaced. Refused ([OSError]) when the
    parent is no directory or [path] is a directory. *)
Definition to_csv (path : string) (df : DataFrame) : Script unit :=
  λ w,
    if parent_is_dir path w && negb (bool_decide (path ∈ dirs w))
    then (Returned (), mkworld (dirs w) (<[path := columns df]> (files w)))
    else (Raised OSError, w).

(** *** The script *)

Section script.
(** [os.path.dirname(__file__)] *)
Variable here : string.

Definition noaa_data_path : string := path_join here "raw_data/noaa/to_csv".
Definition out_path : string := path_join here "processed_data".

(** The body of the loop, lines 76-81. *)
Definition process_file (file : string) : Script unit :=
  λ w,
    if negb (contains "stations" file) then
      let '(r, fs) :=
        feature_engineering_noaa_climate_data (path_join noaa_data_path file) (files w) in
      match r with
      | Ok engineered_data =>
          to_csv (out_path +:+ "/" +:+ file) engineered_data (mkworld (dirs w) fs)
      | Raise e => (Raised (Pandas e), mkworld (dirs w) fs)
      end
    else (Returned (), w).

(** [for file in noaa_files: ...]: an exception ends the loop. *)
Fixpoint for_files (noaa_files : list string) : Script unit :=
  λ w,
    match noaa_files with
    | [] => (Returned (), w)
    | file :: rest =>
        match process_file file w with
        | (Returned _, w') => for_files rest w'
        | (Raised e, w') => (Raised e, w')
        end
    end.

(** Lines 70-81, for [noaa_files] the listing that line 9 took of
    [noaa_data_path]. *)
Definition main (noaa_files : list string) : Script unit :=
  λ w,
    if negb (path_exists out_path w) then
      match makedirs out_path w with
      | (Returned _, w') => for_files noaa_files w'
      | (Raised e, w') => (Raised e, w')
      end
    else for_files noaa_files w.
End script.

(** The names of the listing that the loop does not skip. *)
Definition climate_files (noaa_files : list string) : list string :=
  filter (λ file, contains "stations" file = false) noaa_files.

(** What the function returns for a name of the listing, in a given
    state of the files. *)
Definition engineered_file (here : string) (fs : filesystem) (file : string)
    : result DataFrame :=
  (feature_engineering_noaa_climate_data (path_join (noaa_data_path here) file) fs).1.

(** A directory of the script with one station and the stations file,
    and the listing of it. *)
Definition sample_world : world :=
  mkworld ∅
    (<["raw_data/noaa/to_csv/NYC.csv" := sample_table 380]>
       {["raw_data/noaa/to_csv/ghcnd-stations.csv" := [("ID", SObj [Some "USW00094728"])]]}).

Definition sample_listing : list string := ["ghcnd-stations.csv"; "NYC.csv"].

(** * Properties *)

(** ** Lists: positions, shifts, windows and masks *)

Section lists.
Context {A : Type}.
Implicit Types (l : list (option A)) (p k : Z).

Lemma cell_at_nat l (r : nat) : cell_at l (Z.of_nat r) = default None (l !! r).
Proof.
  unfold cell_at. destruct (Z.ltb_spec (Z.of_nat r) 0); [lia|].
  by rewrite Nat2Z.id.
Qed.

Lemma cell_at_neg l p : (p < 0)%Z → cell_at l p = None.
Proof. intros Hp. unfold cell_at. by destruct (Z.ltb_spec p 0); [|lia]. Qed.

Lemma cell_at_ge l p : (Z.of_nat (length l) ≤ p)%Z → cell_at l p = None.
Proof.
  intros Hp. unfold cell_at. destruct (Z.ltb_spec p 0); [done|].
  rewrite lookup_ge_None_2; [done|lia].
Qed.

Lemma length_shift k l : length (shift k l) = length l.
Proof.
  unfold shift. destruct (Z.leb_spec 0 k).
  - rewrite length_take, length_app, length_replicate. lia.
  - rewrite length_app, length_drop, length_replicate. lia.
Qed.

(** A shifted series reads, at row [p], the row [k] positions earlier. *)
Lemma cell_at_shift k l p :
  (0 ≤ p < Z.of_nat (length l))%Z → cell_at (shift k l) p = cell_at l (p - k).
Proof.
  intros Hp. replace p with (Z.of_nat (Z.to_nat p)) at 1 by lia.
  rewrite cell_at_nat. unfold shift. destruct (Z.leb_spec 0 k).
  - rewrite lookup_take_lt by lia.
    destruct (Z.ltb_spec p k).
    + rewrite lookup_app_l by (rewrite length_replicate; lia).
      rewrite lookup_replicate_2 by lia. by rewrite cell_at_neg by lia.
    + rewrite lookup_app_r by (rewrite length_replicate; lia).
      rewrite length_replicate.
      replace (p - k)%Z with (Z.of_nat (Z.to_nat p - Z.to_nat k)) by lia.
      by rewrite cell_at_nat.
  - destruct (Z.ltb_spec (p - k) (Z.of_nat (length l))).
    + rewrite lookup_app_l by (rewrite length_drop; lia).
      rewrite lookup_drop.
      replace (p - k)%Z with (Z.of_nat (Z.to_nat (- k) + Z.to_nat p)) by lia.
      by rewrite cell_at_nat.
    + rewrite lookup_app_r by (rewrite length_drop; lia).
      rewrite length_drop, cell_at_ge by lia.
      destruct (replicate _ _ !! _) eqn:E; [|done].
      by apply lookup_replicate in E as [-> _].
Qed.
End lists.

Lemma length_omap_le {A B} (f : A → option B) (l : list A) :
  length (omap f l) ≤ length l.
Proof. induction l as [|x l IH]; csimpl; [lia|]. destruct (f x); csimpl; lia. Qed.

Lemma length_rolling_mean w (l : list cell) : length (rolling_mean w l) = length l.
Proof. unfold rolling_mean. by rewrite length_map, length_seq. Qed.

(** Five consecutive rows of a list, the last at position [r]. *)
Lemma five_rows_split {A} (l : list A) (r : nat) :
  4 ≤ r < length l →
  ∃ l1 a b c d e l2, l = l1 ++ a :: b :: c :: d :: e :: l2 ∧ length l1 = r - 4.
Proof.
  intros Hr. exists (take (r - 4) l).
  assert (Hlen : 5 ≤ length (drop (r - 4) l)) by (rewrite length_drop; lia).
  destruct (drop (r - 4) l) as [|a [|b [|c [|d [|e l2]]]]] eqn:E; simpl in Hlen; try lia.
  exists a, b, c, d, e, l2. split.
  - by rewrite <- E, take_drop.
  - rewrite length_take. lia.
Qed.

(** A trailing mean over five rows is the mean of the rows [p-4 .. p],
    and is missing when one of them is missing or lies before the start. *)
Lemma cell_at_rolling_mean (l : list cell) (p : Z) :
  (0 ≤ p < Z.of_nat (length l))%Z →
  cell_at (rolling_mean 5 l) p =
    mean_of [cell_at l (p - 4); cell_at l (p - 3); cell_at l (p - 2);
             cell_at l (p - 1); cell_at l p].
Proof.
  intros Hp. set (r := Z.to_nat p). assert (Hr : p = Z.of_nat r) by lia.
  rewrite Hr at 1. rewrite cell_at_nat. unfold rolling_mean.
  rewrite list_lookup_fmap, lookup_seq_lt by lia.
  change (0 + r) with r. cbn [fmap option_fmap option_map default from_option id].
  destruct (decide (r < 4)) as [Hlt|Hge].
  - rewrite (cell_at_neg l (p - 4)) by lia.
    assert (Hw : length (omap id (window_at 5 r l)) ≤ 4).
    { etrans; [apply length_omap_le|]. unfold window_at.
      rewrite length_drop, length_take. lia. }
    destruct (Nat.leb_spec 5 (length (omap id (window_at 5 r l)))); [lia|done].
  - destruct (five_rows_split l r) as (l1 & a & b & c & d & e & l2 & -> & Hl1); [lia|].
    assert (Hwin : window_at 5 r (l1 ++ a :: b :: c :: d :: e :: l2) = [a; b; c; d; e]).
    { unfold window_at.
      replace (S r) with (length l1 + 5) by lia.
      rewrite (take_app_add' l1 _ (length l1) 5) by done. cbn [take].
      replace (length l1 + 5 - 5) with (length l1 + 0) by lia.
      by rewrite (drop_app_add' l1 _ (length l1) 0). }
    rewrite Hwin.
    replace (p - 4)%Z with (Z.of_nat (length l1 + 0)) by lia.
    replace (p - 3)%Z with (Z.of_nat (length l1 + 1)) by lia.
    replace (p - 2)%Z with (Z.of_nat (length l1 + 2)) by lia.
    replace (p - 1)%Z with (Z.of_nat (length l1 + 3)) by lia.
    replace p with (Z.of_nat (length l1 + 4)) by lia.
    rewrite !cell_at_nat, !(lookup_app_r l1), !Nat.add_sub' by lia. simpl.
    by destruct a, b, c, d, e.
Qed.

Section compress.
Context {A B : Type}.

Lemma compress_map (f : A → B) mask (l : list A) :
  compress mask (map f l) = map f (compress mask l).
Proof.
  revert l. induction mask as [|b mask IH]; intros [|x l]; simpl; try done.
  destruct b; simpl; by rewrite IH.
Qed.

Lemma compress_zip mask (l : list A) (k : list B) :
  compress mask (zip l k) = zip (compress mask l) (compress mask k).
Proof.
  revert l k. induction mask as [|b mask IH]; intros [|x l] [|y k]; simpl; try done.
  - by rewrite zip_with_nil_r.
  - destruct b; simpl; by rewrite IH.
Qed.

(** Whatever the mask keeps was there, and the mask was true on it. *)
Lemma elem_of_compress mask (l : list A) x :
  x ∈ compress mask l → ∃ q, mask !! q = Some true ∧ l !! q = Some x.
Proof.
  revert l. induction mask as [|b mask IH]; intros [|y l]; simpl;
    try (by intros ?%elem_of_nil).
  destruct b.
  - intros [->|Hx]%elem_of_cons; [by exists 0|].
    destruct (IH _ Hx) as (q & ? & ?). by exists (S q).
  - intros Hx. destruct (IH _ Hx) as (q & ? & ?). by exists (S q).
Qed.

(** Masking keeps the order of the rows. *)
Lemma compress_sublist mask (l : list A) : compress mask l `sublist_of` l.
Proof.
  revert l. induction mask as [|b mask IH]; intros [|y l]; simpl;
    try apply sublist_nil_l.
  destruct b; [by apply sublist_skip|by apply sublist_cons].
Qed.
End compress.

(** Rows kept by a mask carry their own label and their own value. *)
Lemma compress_row {A} mask (idx : list nat) (l : list A) j k x :
  compress mask idx !! j = Some k → compress mask l !! j = Some x →
  (k, x) ∈ zip idx l.
Proof.
  intros Hk Hx.
  assert (Hz : (k, x) ∈ compress mask (zip idx l)).
  { rewrite compress_zip. apply list_elem_of_lookup. exists j.
    apply lookup_zip_with_Some. eauto. }
  apply elem_of_compress in Hz as (q & _ & Hq).
  apply list_elem_of_lookup. eauto.
Qed.

(** ** Series: dates, conversion, the year filter *)

Lemma mapM_id_map_Some {A} (l : list A) : mapM id (map Some l) = Some l.
Proof. induction l as [|x l IH]; simpl; [done|]. by rewrite IH. Qed.

Lemma mapM_id_Some_inv {A} (l : list (option A)) l' :
  mapM id l = Some l' → l = map Some l'.
Proof.
  revert l'. induction l as [|[x|] l IH]; intros l'; simpl; [by intros [= <-]| |done].
  destruct (mapM id l) as [k|]; [|done]. intros [= <-]. simpl. by rewrite (IH k).
Qed.

(** *** Object columns and the cast to float *)

Lemma bind_Ok {A B} (f : A → result B) (a : A) : Ok a >>= f = f a.
Proof. done. Qed.

Lemma Forall2_compress {A B} (P : A → B → Prop) mask (l : list A) (k : list B) :
  Forall2 P l k → Forall2 P (compress mask l) (compress mask k).
Proof.
  intros H. revert mask.
  induction H as [|x y l k Hxy _ IH]; intros [|[] mask]; simpl; auto.
Qed.

(** A column that can be cast has the numbers [to_numeric] reads in it. *)
Lemma float_cells_text_cell os v : float_cells os = Some v → v = map text_cell os.
Proof.
  intros H%mapM_Some_1.
  induction H as [|o c os v Ho _ IH]; [done|].
  cbn [map]. unfold text_cell at 1. rewrite Ho. by rewrite IH.
Qed.

Lemma float_cells_shift i os v :
  float_cells os = Some v → float_cells (shift i os) = Some (shift i v).
Proof.
  unfold float_cells. rewrite !mapM_Some. intros H. unfold shift.
  rewrite (Forall2_length _ _ _ H). destruct (0 <=? i)%Z.
  - apply Forall2_take, Forall2_app; [by apply Forall2_replicate|done].
  - apply Forall2_app; [by apply Forall2_drop|by apply Forall2_replicate].
Qed.

Lemma float_cells_compress mask os v :
  float_cells os = Some v → float_cells (compress mask os) = Some (compress mask v).
Proof. unfold float_cells. rewrite !mapM_Some. apply Forall2_compress. Qed.

Lemma no_text_missing os : has_text os = false → Forall (λ o, o = None) os.
Proof.
  induction os as [|[t|] os IH]; cbn [has_text existsb]; [done| |].
  - by rewrite bool_decide_eq_true_2 by by eexists.
  - rewrite bool_decide_eq_false_2 by by intros [? ?]. cbn [orb]. auto.
Qed.

Lemma float_cells_no_text os :
  has_text os = false →
  float_cells os = Some (map text_cell os) ∧
  map (fmap fahrenheit) (map text_cell os) = map text_cell os.
Proof.
  intros H%no_text_missing. split.
  - apply mapM_Some_2, Forall2_fmap_r, Forall_Forall2_diag.
    eapply Forall_impl; [exact H|]. by intros o ->.
  - rewrite map_map. apply Forall_fmap_ext_1.
    eapply Forall_impl; [exact H|]. by intros o ->.
Qed.

Lemma as_float64_shift i s v :
  as_float64 s = Some v → as_float64 (shift_series i s) = Some (shift i v).
Proof.
  destruct s as [zs|vs|ds|os]; cbn [as_float64 shift_series]; try congruence.
  apply float_cells_shift.
Qed.

Lemma as_float64_compress mask s v :
  as_float64 s = Some v → as_float64 (compress_series mask s) = Some (compress mask v).
Proof.
  destruct s as [zs|vs|ds|os]; cbn [as_float64 compress_series]; try congruence.
  - intros [= <-]. unfold int_cells. by rewrite compress_map.
  - apply float_cells_compress.
Qed.

(** The cast of the rows a mask keeps gives the numeric content of those
    rows. *)
Lemma as_float64_to_numeric mask s v vraw :
  to_numeric s = Some vraw → as_float64 (compress_series mask s) = Some v →
  v = compress mask vraw.
Proof.
  destruct s as [zs|vs|ds|os]; cbn [as_float64 to_numeric compress_series]; try done.
  - intros [= <-] [= <-]. unfold int_cells. by rewrite compress_map.
  - by intros [= <-] [= <-].
  - intros [= <-] ->%float_cells_text_cell. by rewrite compress_map.
Qed.

Lemma astype_float_as_float64 s v : as_float64 s = Some v → astype_float s = Ok (SFloat v).
Proof.
  destruct s; cbn [as_float64 astype_float]; try done; try by intros [= <-].
  by intros ->.
Qed.

Lemma astype_float_Ok s s' :
  astype_float s = Ok s' → ∃ v, as_float64 s = Some v ∧ s' = SFloat v.
Proof.
  destruct s; cbn [astype_float as_float64]; try done.
  - intros [= <-]. eauto.
  - intros [= <-]. eauto.
  - destruct (float_cells os) as [v|]; [|done]. intros [= <-]. eauto.
Qed.

Lemma arithmetic_ok_to_numeric s : arithmetic_ok s = true → is_Some (to_numeric s).
Proof. by destruct s. Qed.

Lemma as_float64_is_numeric mask s :
  is_Some (as_float64 (compress_series mask s)) → is_Some (to_numeric s).
Proof. destruct s; cbn [as_float64 compress_series to_numeric]; done. Qed.

(** The three arithmetic steps of lines 26-28 on one column. *)
Lemma fahrenheit_series (s : Series) :
  Ok s >>= truediv 10 >>= mul (9 / 5) >>= add 32 =
    if arithmetic_ok s then Ok (in_fahrenheit s) else Raise TypeError.
Proof.
  destruct s as [zs|vs|ds|os]; try done.
  - simpl. do 2 f_equal. unfold int_cells. rewrite !map_map. by apply map_ext.
  - simpl. do 2 f_equal. rewrite !map_map. apply map_ext. by intros [q|].
  - cbn [arithmetic_ok in_fahrenheit]. rewrite bind_Ok. cbn [truediv].
    unfold object_arith at 1. destruct (has_text os) eqn:E; [done|].
    rewrite bind_Ok. cbn [mul]. unfold object_arith at 1. rewrite E, bind_Ok.
    cbn [add]. unfold object_arith. by rewrite E.
Qed.

(** After lines 26-28 a temperature column casts to its numbers in
    Fahrenheit. *)
Lemma in_fahrenheit_numbers s v :
  arithmetic_ok s = true → to_numeric s = Some v →
  as_float64 (in_fahrenheit s) = Some (map (fmap fahrenheit) v).
Proof.
  destruct s as [zs|vs|ds|os]; cbn [arithmetic_ok to_numeric in_fahrenheit as_float64];
    try done; try by intros _ [= <-].
  intros Hno%negb_true_iff [= <-].
  destruct (float_cells_no_text os Hno) as [-> ->]. done.
Qed.

Lemma year_mask_filtered (ds : list (option date)) :
  compress (year_mask ds) ds = map Some (filtered_dates ds).
Proof.
  unfold filtered_dates, year_mask.
  induction ds as [|[d|] ds IH]; simpl; [done| |done].
  destruct (2013 <=? year d)%Z; csimpl; by rewrite <- IH.
Qed.

Lemma Qle_bool_inject_Z (a b : Z) : Qle_bool (inject_Z a) (inject_Z b) = (a <=? b)%Z.
Proof. unfold Qle_bool. simpl. by rewrite !Z.mul_1_r. Qed.

Lemma omap_id_map_Some {A} (l : list A) : omap id (map Some l) = l.
Proof. induction l as [|x l IH]; simpl; [done|]. f_equal. exact IH. Qed.

(** Lines 31-33: the mask [df['YEAR'] >= 2013] is [year_mask], and the
    years of the rows it keeps are all present. *)
Lemma dt_year_mask (ds : list (option date)) :
  ∃ yrs, dt year (SDate ds) = Ok yrs ∧ ge 2013 yrs = Ok (year_mask ds) ∧
    astype_float (compress_series (year_mask ds) yrs) =
      Ok (calendar_column year (filtered_dates ds)).
Proof.
  unfold dt. destruct (mapM id ds) as [ds'|] eqn:E.
  - apply mapM_id_Some_inv in E as ->. eexists. split; [done|]. split.
    + simpl. unfold year_mask. by rewrite !map_map.
    + simpl. unfold calendar_column, filtered_dates.
      by rewrite compress_map, (compress_map Some), omap_id_map_Some.
  - eexists. split; [done|]. split.
    + simpl. unfold year_mask. rewrite map_map. f_equal. apply map_ext.
      intros [d|]; simpl; [|done]. apply Qle_bool_inject_Z.
    + simpl. unfold calendar_column, int_cells.
      by rewrite compress_map, year_mask_filtered, !map_map.
Qed.

(** On dates that are all present a [.dt] field is an integer column. *)
Lemma dt_present (field : date → Z) (dd : list date) :
  dt field (SDate (map Some dd)) = Ok (SInt (map field dd)).
Proof. unfold dt. by rewrite mapM_id_map_Some. Qed.

(** ** The frame, stage by stage *)

(** Split membership in an explicit list into its cases. *)
Ltac elem_cases H :=
  repeat (apply elem_of_cons in H as [->|H]); [..|by apply elem_of_nil in H].

(** Evaluate the column plumbing of a frame whose column names are known,
    leaving the contents of the columns alone. *)
Ltac frame_eval :=
  lazy [getitem setitem replace_col lookup_col columns index boolean_index
        concat_axis1 DataFrame_of_dict head from_option concat map app fst snd
        String.eqb Ascii.eqb Bool.eqb andb].

Section stages.
Variables (df : DataFrame) (ds : list (option date)).
Variables (sp smin savg smax : Series).
Hypothesis HDATE : lookup_col "DATE" (columns df) = Some (SDate ds).
Hypothesis HPRCP : lookup_col "PRCP" (columns df) = Some sp.
Hypothesis HTMIN : lookup_col "TMIN" (columns df) = Some smin.
Hypothesis HTAVG : lookup_col "TAVG" (columns df) = Some savg.
Hypothesis HTMAX : lookup_col "TMAX" (columns df) = Some smax.
Hypothesis Hmin : arithmetic_ok smin = true.
Hypothesis Havg : arithmetic_ok savg = true.
Hypothesis Hmax : arithmetic_ok smax = true.

Let mask := year_mask ds.
Let dd := filtered_dates ds.

Lemma getitems_raw :
  getitems ("DATE" :: climate_vars) df =
    Ok (mkDataFrame (index df)
          [("DATE", SDate ds); ("PRCP", sp); ("TMIN", smin);
           ("TAVG", savg); ("TMAX", smax)]).
Proof.
  unfold getitems, getitem, climate_vars. cbn [mapM].
  by rewrite HDATE, HPRCP, HTMIN, HTAVG, HTMAX.
Qed.

Lemma convert_and_filter_raw :
  ∃ yrs, astype_float yrs = Ok (calendar_column year dd) ∧
  convert_and_filter df =
    Ok (mkDataFrame (compress mask (index df))
          [("DATE", SDate (map Some dd));
           ("PRCP", compress_series mask sp);
           ("TMIN", compress_series mask (in_fahrenheit smin));
           ("TAVG", compress_series mask (in_fahrenheit savg));
           ("TMAX", compress_series mask (in_fahrenheit smax));
           ("YEAR", yrs)]).
Proof.
  destruct (dt_year_mask ds) as (yrs & Hy & Hge & Hast).
  exists (compress_series mask yrs). split; [done|].
  unfold convert_and_filter. rewrite getitems_raw, bind_Ok. frame_eval.
  rewrite !fahrenheit_series, Hmin, Havg, Hmax. cbn [mbind result_bind].
  rewrite Hy. cbn [mbind result_bind]. rewrite Hge. cbn [mbind result_bind].
  change (compress_series (year_mask ds) (SDate ds))
    with (SDate (compress (year_mask ds) ds)).
  unfold mask, dd. by rewrite (year_mask_filtered ds).
Qed.
End stages.

Lemma season_series (dd : list date) :
  Ok (SDate (map Some dd)) >>= dt month >>= mod_ 12 >>= add 3 >>= floordiv 3 =
    Ok (SInt (map (λ d, season (month d)) dd)).
Proof.
  rewrite bind_Ok, dt_present. cbn [mbind result_bind mod_ add floordiv].
  by rewrite !map_map.
Qed.

Lemma add_calendar_frame idx dd (s1 s2 s3 s4 s5 : Series) :
  add_calendar
    (mkDataFrame idx
       [("DATE", SDate (map Some dd)); ("PRCP", s1); ("TMIN", s2); ("TAVG", s3);
        ("TMAX", s4); ("YEAR", s5)]) =
  Ok (mkDataFrame idx
       [("DATE", SDate (map Some dd)); ("PRCP", s1); ("TMIN", s2); ("TAVG", s3);
        ("TMAX", s4); ("YEAR", s5);
        ("MONTH", SInt (map month dd));
        ("DAY_OF_YEAR", SInt (map dayofyear dd));
        ("WEEK_OF_YEAR", SInt (map isoweek dd));
        ("SEASON", SInt (map (λ d, season (month d)) dd))]).
Proof.
  unfold add_calendar. frame_eval.
  rewrite season_series, !bind_Ok, !dt_present. by cbn [mbind result_bind].
Qed.

(** *** The cast of a frame, column by column *)

Lemma mapM_astype_float (cols cols' : table) :
  Forall2 (λ c c', astype_float c.2 = Ok c'.2 ∧ c'.1 = c.1) cols cols' →
  mapM (λ c : string * Series, s ← astype_float c.2; mret (c.1, s)) cols = Ok cols'.
Proof.
  induction 1 as [|c [k s'] cols cols' [Hc Hk] _ IH]; [done|].
  cbn [mapM]. rewrite IH. cbn [fst snd] in Hc, Hk. rewrite Hc, Hk. done.
Qed.

Lemma astype_columns idx (cols cols' : table) :
  Forall2 (λ c c', astype_float c.2 = Ok c'.2 ∧ c'.1 = c.1) cols cols' →
  astype (mkDataFrame idx cols) = Ok (mkDataFrame idx cols').
Proof. intros H. unfold astype. cbn [columns index]. by rewrite (mapM_astype_float _ _ H). Qed.

(** A frame that was cast had only columns that can be cast. *)
Lemma astype_Ok_column (df out : DataFrame) (c : string * Series) :
  astype df = Ok out → c ∈ columns df → is_Some (as_float64 c.2).
Proof.
  unfold astype. intros H Hc.
  assert (∃ cols', mapM (λ c : string * Series, s ← astype_float c.2; mret (c.1, s))
                     (columns df) = Ok cols') as [cols' Hm].
  { destruct (mapM _ (columns df)); [by eexists|done]. }
  clear H. revert cols' Hm.
  induction (columns df) as [|c0 cols IH]; intros cols' Hm; [by apply elem_of_nil in Hc|].
  cbn [mapM] in Hm.
  destruct (astype_float c0.2) as [s0|] eqn:E0; [|done].
  destruct (mapM _ cols) as [k|] eqn:Ek; [|done].
  apply elem_of_cons in Hc as [->|Hc]; [|by eapply IH].
  apply astype_float_Ok in E0 as (v & -> & _). by eexists.
Qed.

(** *** Lags and windows keep the columns that are there *)

Lemma add_lags_of_columns var df df' :
  add_lags_of var df = Ok df' → ∃ more, columns df' = columns df ++ more.
Proof.
  unfold add_lags_of. destruct (getitem var df) as [s|]; [|done]. intros [= <-].
  cbn [bind_Ok concat_axis1 columns concat map DataFrame_of_dict].
  rewrite app_nil_r. by eexists.
Qed.

Lemma elem_of_replace_col name s cols (c : string * Series) :
  c ∈ cols → c.1 ≠ name → c ∈ replace_col name s cols.
Proof.
  intros Hc Hn. induction cols as [|[k s'] cols IH]; [by apply elem_of_nil in Hc|].
  cbn [replace_col]. apply elem_of_cons in Hc as [->|Hc].
  - cbn [fst] in Hn. destruct (String.eqb_spec name k); [congruence|].
    apply list_elem_of_here.
  - destruct (String.eqb name k); apply list_elem_of_further; auto.
Qed.

Lemma add_window_of_columns var df df' (c : string * Series) :
  add_window_of var df = Ok df' → c ∈ columns df → c.1 ≠ window_name var →
  c ∈ columns df'.
Proof.
  unfold add_window_of. destruct (getitem var df) as [s|]; [|done]. rewrite bind_Ok.
  destruct (rolling_mean_series 5 (shift_series 365 s)) as [w|]; [|done].
  intros [= <-] Hc Hn. cbn [setitem columns]. by apply elem_of_replace_col.
Qed.

Lemma for_each_columns (P : string → string * Series → Prop)
    (body : string → DataFrame → result DataFrame) vars df df' c :
  (∀ var d d', body var d = Ok d' → c ∈ columns d → P var c → c ∈ columns d') →
  for_each body vars df = Ok df' → c ∈ columns df → Forall (λ var, P var c) vars →
  c ∈ columns df'.
Proof.
  intros Hbody. revert df. induction vars as [|var vars IH]; intros df H Hc HP.
  { by injection H as <-. }
  cbn [for_each] in H. destruct (body var df) as [d|] eqn:E; [|done].
  rewrite bind_Ok in H. apply Forall_cons in HP as [HP1 HP2].
  apply (IH d); eauto.
Qed.

(** A climate column of the frame that enters line 47 is cast at line 63,
    so the run returns only when it can be cast. *)
Lemma climate_column_cast (df0 out : DataFrame) (var : string) (s : Series) :
  Ok df0 >>= add_lags >>= add_windows >>= drop_col "DATE" >>= astype = Ok out →
  var ∈ climate_vars → (var, s) ∈ columns df0 →
  is_Some (as_float64 s).
Proof.
  rewrite bind_Ok. intros H Hvar Hs.
  destruct (add_lags df0) as [d1|] eqn:E1; [|done]. rewrite bind_Ok in H.
  destruct (add_windows d1) as [d2|] eqn:E2; [|done]. rewrite bind_Ok in H.
  destruct (drop_col "DATE" d2) as [d3|] eqn:E3; [|done]. rewrite bind_Ok in H.
  apply (astype_Ok_column _ _ (var, s) H).
  assert (var ≠ "DATE" ∧ Forall (λ w, var ≠ window_name w) climate_vars) as [HD Hw].
  { unfold climate_vars in *. elem_cases Hvar; (split; [done|by repeat constructor]). }
  unfold drop_col in E3. destruct (lookup_col "DATE" (columns d2)); [|done].
  injection E3 as <-. cbn [columns]. apply list_elem_of_filter. split.
  { cbn [fst]. by apply bool_decide_pack. }
  apply (for_each_columns (λ (w : string) (c : string * Series), c.1 ≠ window_name w)
           add_window_of climate_vars d1 d2);
    [intros w d d'; apply add_window_of_columns|done| |done].
  apply (for_each_columns (λ _ _, True) add_lags_of climate_vars df0 d1);
    [|done|done|by apply Forall_true].
  intros w d d' Hd Hc _. apply add_lags_of_columns in Hd as [more ->].
  apply elem_of_app. by left.
Qed.

(** *** From line 47 to line 63 *)

Lemma add_window_of_eq var df s w :
  getitem var df = Ok s → as_float64 (shift_series 365 s) = Some w →
  add_window_of var df = Ok (setitem (window_name var) (SFloat (rolling_mean 5 w)) df).
Proof.
  intros Hs Hw. unfold add_window_of. rewrite Hs, bind_Ok.
  unfold rolling_mean_series. by rewrite Hw.
Qed.


Lemma lag_series_cast var s v :
  as_float64 s = Some v →
  Forall2 (λ c c', astype_float c.2 = Ok c'.2 ∧ c'.1 = c.1)
    (lag_series var s) (lag_block var v).
Proof.
  intros Hv. unfold lag_series, lag_block.
  apply Forall2_fmap, Forall_Forall2_diag, Forall_true. intros i. split; [|done].
  cbn [snd]. apply astype_float_as_float64. by apply as_float64_shift.
Qed.



Section frame.
Variables (idx : list nat) (dd : list date).
Variables (prcp s1 s2 s3 yrs : Series).

Let base : table :=
  [("DATE", SDate (map Some dd)); ("PRCP", prcp); ("TMIN", s1);
   ("TAVG", s2); ("TMAX", s3); ("YEAR", yrs);
   ("MONTH", SInt (map month dd));
   ("DAY_OF_YEAR", SInt (map dayofyear dd));
   ("WEEK_OF_YEAR", SInt (map isoweek dd));
   ("SEASON", SInt (map (λ d, season (month d)) dd))].

Let lagged : table :=
  lag_series "PRCP" prcp ++ lag_series "TMIN" s1
  ++ lag_series "TAVG" s2 ++ lag_series "TMAX" s3.

Lemma add_lags_frame :
  add_lags (mkDataFrame idx base) = Ok (mkDataFrame idx (base ++ lagged)).
Proof. reflexivity. Qed.


Section windows.
Variables (w0 w1 w2 w3 : list cell).
Hypothesis Hw0 : as_float64 (shift_series 365 prcp) = Some w0.
Hypothesis Hw1 : as_float64 (shift_series 365 s1) = Some w1.
Hypothesis Hw2 : as_float64 (shift_series 365 s2) = Some w2.
Hypothesis Hw3 : as_float64 (shift_series 365 s3) = Some w3.

Let windows : table :=
  [(window_name "PRCP", SFloat (rolling_mean 5 w0));
   (window_name "TMIN", SFloat (rolling_mean 5 w1));
   (window_name "TAVG", SFloat (rolling_mean 5 w2));
   (window_name "TMAX", SFloat (rolling_mean 5 w3))].

Lemma add_windows_frame :
  add_windows (mkDataFrame idx (base ++ lagged))
  = Ok (mkDataFrame idx (base ++ lagged ++ windows)).
Proof.
  unfold add_windows, climate_vars. cbn [for_each].
  rewrite (add_window_of_eq "PRCP" _ prcp w0) by done. rewrite bind_Ok.
  rewrite (add_window_of_eq "TMIN" _ s1 w1) by done. rewrite bind_Ok.
  rewrite (add_window_of_eq "TAVG" _ s2 w2) by done. rewrite bind_Ok.
  rewrite (add_window_of_eq "TMAX" _ s3 w3) by done. rewrite bind_Ok.
  reflexivity.
Qed.

Lemma drop_DATE_frame :
  drop_col "DATE" (mkDataFrame idx (base ++ lagged ++ windows))
  = Ok (mkDataFrame idx (tail base ++ lagged ++ windows)).
Proof. reflexivity. Qed.

End windows.

Variables (p t1 t2 t3 : list cell).
Hypothesis Hp : as_float64 prcp = Some p.
Hypothesis H1 : as_float64 s1 = Some t1.
Hypothesis H2 : as_float64 s2 = Some t2.
Hypothesis H3 : as_float64 s3 = Some t3.
Hypothesis Hy : astype_float yrs = Ok (calendar_column year dd).

Lemma features_frame :
  Ok (mkDataFrame idx base)
    >>= add_lags >>= add_windows >>= drop_col "DATE" >>= astype =
  Ok (mkDataFrame idx (feature_columns dd p t1 t2 t3)).
Proof.
  rewrite bind_Ok, add_lags_frame, bind_Ok.
  rewrite (add_windows_frame (shift 365 p) (shift 365 t1) (shift 365 t2) (shift 365 t3))
    by by apply as_float64_shift.
  rewrite bind_Ok, drop_DATE_frame, bind_Ok.
  apply astype_columns. unfold feature_columns, base, lagged. cbn [tail].
  rewrite <- !app_assoc.
  apply Forall2_app.
  { repeat constructor; cbn [fst snd];
      first [exact Hy | by apply astype_float_as_float64 | reflexivity]. }
  do 4 (apply Forall2_app; [by apply lag_series_cast|]).
  repeat constructor; reflexivity.
Qed.
End frame.

(** [features] computes the closed form, on every input it can work on. *)
Lemma features_closed_form df ds vp vmin vavg vmax :
  raw_input df ds vp vmin vavg vmax →
  features df = Ok (features_of df ds vp vmin vavg vmax).
Proof.
  intros [HD (sp & HP & Hvp) (smin & Hmin & Hvmin) (savg & Havg & Hvavg)
             (smax & Hmax & Hvmax) Hpn Hminn Havgn Hmaxn].
  specialize (Hpn _ HP) as [p Hp]. specialize (Hminn _ Hmin).
  specialize (Havgn _ Havg). specialize (Hmaxn _ Hmax).
  destruct (convert_and_filter_raw df ds sp smin savg smax)
    as (yrs & Hy & Hcf); try done.
  unfold features, engineered. rewrite Hcf, bind_Ok, add_calendar_frame.
  rewrite (as_float64_to_numeric _ _ _ _ Hvp Hp) in Hp.
  by apply features_frame;
    [|apply as_float64_compress, in_fahrenheit_numbers..|].
Qed.

(** Conversely, [features] returns only on such an input. *)
Lemma features_Ok_raw_input df out :
  features df = Ok out → ∃ ds vp vmin vavg vmax, raw_input df ds vp vmin vavg vmax.
Proof.
  intros H. pose proof H as H'. revert H.
  unfold features, engineered, convert_and_filter, getitems, getitem, climate_vars.
  cbn [mapM].
  destruct (lookup_col "DATE" (columns df)) as [sd|] eqn:HD; [|done].
  destruct (lookup_col "PRCP" (columns df)) as [sp|] eqn:HP; [|done].
  destruct (lookup_col "TMIN" (columns df)) as [smin|] eqn:Hmin; [|done].
  destruct (lookup_col "TAVG" (columns df)) as [savg|] eqn:Havg; [|done].
  destruct (lookup_col "TMAX" (columns df)) as [smax|] eqn:Hmax; [|done].
  cbn [mbind mret result_bind result_ret]. frame_eval.
  rewrite !fahrenheit_series.
  destruct (arithmetic_ok smin) eqn:Hminn; [|done].
  destruct (arithmetic_ok savg) eqn:Havgn; [|done].
  destruct (arithmetic_ok smax) eqn:Hmaxn; [|done].
  destruct sd as [|?|ds|]; try done. intros _.
  destruct (convert_and_filter_raw df ds sp smin savg smax)
    as (yrs & Hy & Hcf); try done.
  unfold features, engineered in H'.
  rewrite Hcf, bind_Ok, add_calendar_frame in H'.
  assert (is_Some (as_float64 (compress_series (year_mask ds) sp))) as Hp.
  { apply (climate_column_cast _ _ "PRCP" _ H'); [by repeat constructor|].
    cbn [columns]. apply list_elem_of_further, list_elem_of_here. }
  destruct (as_float64_is_numeric _ _ Hp) as [vp Hvp].
  destruct (arithmetic_ok_to_numeric _ Hminn) as [vmin Hvmin].
  destruct (arithmetic_ok_to_numeric _ Havgn) as [vavg Hvavg].
  destruct (arithmetic_ok_to_numeric _ Hmaxn) as [vmax Hvmax].
  exists ds, vp, vmin, vavg, vmax. split; eauto; congruence.
Qed.

(** ** Looking columns up in the closed form *)

Lemma elem_of_lags (i : Z) : (1 ≤ i ≤ 30 ∨ -4 ≤ i ≤ -1)%Z → i ∈ lags.
Proof.
  intros Hi. assert (Hi' : i ∈ seqZ 1 30 ++ seqZ (-4) 4).
  { rewrite elem_of_app, !elem_of_seqZ. lia. }
  revert Hi'. vm_compute seqZ. vm_compute lags. intros Hi'.
  elem_cases Hi'; apply list_elem_of_In; cbn; repeat first [by left | right].
Qed.

(** Each climate variable, each of its lags and its window mean sit in the
    table under their names. *)
Lemma feature_columns_lookup dd p t1 t2 t3 var :
  var ∈ climate_vars →
  ∃ v, (var, v) ∈ [("PRCP", p); ("TMIN", t1); ("TAVG", t2); ("TMAX", t3)] ∧
    lookup_col var (feature_columns dd p t1 t2 t3) = Some (SFloat v) ∧
    lookup_col (window_name var) (feature_columns dd p t1 t2 t3) =
      Some (window_column v) ∧
    ∀ i, i ∈ lags →
      lookup_col (lag_name var i) (feature_columns dd p t1 t2 t3) =
        Some (SFloat (shift i v)).
Proof.
  unfold climate_vars. intros Hvar. elem_cases Hvar.
  1: exists p. 2: exists t1. 3: exists t2. 4: exists t3.
  all: split; [set_solver|]; do 2 (split; [done|]); intros i; vm_compute lags;
    intros Hi; elem_cases Hi; reflexivity.
Qed.

(** ** The sample station, evaluated *)

Lemma sample_features_returned :
  features (sample 380) = Ok (returned (features (sample 380))).
Proof. vm_compute. reflexivity. Qed.

Lemma sample_feature_builder_returned :
  feature_builder (sample 380) = Ok (returned (feature_builder (sample 380))).
Proof. vm_compute. reflexivity. Qed.

Lemma sample_wf : wf_frame (sample 380).
Proof. unfold wf_frame. apply (bool_decide_unpack _). by vm_compute. Qed.

Lemma sample_NoDup (n : nat) : NoDup (index (sample n)).
Proof. apply NoDup_seq. Qed.

Lemma sample_raw_input (n : nat) :
  raw_input (sample n) (map Some (sample_dates n))
    (int_cells (seqZ 0 (Z.of_nat n)))
    (int_cells (replicate n 100%Z))
    (map (λ k, Some (inject_Z (150 + k))) (seqZ 0 (Z.of_nat n)))
    (int_cells (map (λ k, 200 + k)%Z (seqZ 0 (Z.of_nat n)))).
Proof.
  split; [reflexivity|eexists; split; reflexivity..| | | |];
    intros s Hs; cbn in Hs; injection Hs as <-; [by eexists|done..].
Qed.

(** * The claims *)

(** ** The rolling mean of the same window last year (C1, C2) *)

Section window.
Variables (df out : DataFrame) (var : string).
Hypothesis Hout : features df = Ok out.
Hypothesis Hvar : var ∈ climate_vars.

Lemma window_columns :
  ∃ vs, getitem var out = Ok (SFloat vs) ∧
        getitem (window_name var) out = Ok (SFloat (rolling_mean 5 (shift 365 vs))).
Proof.
  destruct (features_Ok_raw_input _ _ Hout) as (ds & vp & vmin & vavg & vmax & Hraw).
  rewrite (features_closed_form _ _ _ _ _ _ Hraw) in Hout. injection Hout as <-.
  destruct (feature_columns_lookup (filtered_dates ds) (compress (year_mask ds) vp)
    (compress (year_mask ds) (map (fmap fahrenheit) vmin))
    (compress (year_mask ds) (map (fmap fahrenheit) vavg))
    (compress (year_mask ds) (map (fmap fahrenheit) vmax)) var Hvar)
    as (v & _ & Hv & Hw & _).
  exists v. unfold getitem, features_of. cbn [columns]. by rewrite Hv, Hw.
Qed.
End window.

(** C1. In the table before rows are dropped, the column
    [{var}_mean_5d_window] of each climate variable is the trailing 5-row
    mean of the variable's column shifted by 365 rows: at row [p] it is the
    mean of the variable at rows [p-369 .. p-365] of the filtered series,
    and it is missing when one of these rows is missing or lies before the
    start of the series, in particular at every row [p < 369]. *)
Theorem mean_5d_window_trailing_last_year (df out : DataFrame) (var : string) :
  features df = Ok out → var ∈ climate_vars →
  ∃ vs ws,
    getitem var out = Ok (SFloat vs) ∧
    getitem (window_name var) out = Ok (SFloat ws) ∧
    ws = rolling_mean 5 (shift 365 vs) ∧
    length ws = length vs ∧
    ∀ p : Z, (0 ≤ p < Z.of_nat (length vs))%Z →
      cell_at ws p =
        mean_of [cell_at vs (p - 369); cell_at vs (p - 368); cell_at vs (p - 367);
                 cell_at vs (p - 366); cell_at vs (p - 365)] ∧
      ((p < 369)%Z → cell_at ws p = None).
Proof.
  intros Hout Hvar. destruct (window_columns df out var Hout Hvar) as (vs & Hvs & Hws).
  exists vs, (rolling_mean 5 (shift 365 vs)). do 3 (split; [done|]).
  split; [by rewrite length_rolling_mean, length_shift|].
  intros p Hp.
  assert (Heq : cell_at (rolling_mean 5 (shift 365 vs)) p =
    mean_of [cell_at vs (p - 369); cell_at vs (p - 368); cell_at vs (p - 367);
             cell_at vs (p - 366); cell_at vs (p - 365)]).
  { rewrite cell_at_rolling_mean by (rewrite length_shift; lia).
    destruct (decide (p < 4)%Z) as [Hlt|Hge].
    - by rewrite (cell_at_neg _ (p - 4)), (cell_at_neg _ (p - 369)) by lia.
    - rewrite !cell_at_shift by lia.
      replace (p - 4 - 365)%Z with (p - 369)%Z by lia.
      replace (p - 3 - 365)%Z with (p - 368)%Z by lia.
      replace (p - 2 - 365)%Z with (p - 367)%Z by lia.
      by replace (p - 1 - 365)%Z with (p - 366)%Z by lia. }
  split; [done|]. intros Hlt. rewrite Heq.
  by rewrite (cell_at_neg _ (p - 369)) by lia.
Qed.

Lemma mean_5d_window_trailing_last_year_witness :
  ∃ vs ws,
    getitem "TMAX" (returned (features (sample 380))) = Ok (SFloat vs) ∧
    getitem (window_name "TMAX") (returned (features (sample 380))) = Ok (SFloat ws) ∧
    ws = rolling_mean 5 (shift 365 vs) ∧
    length ws = length vs ∧
    ∀ p : Z, (0 ≤ p < Z.of_nat (length vs))%Z →
      cell_at ws p =
        mean_of [cell_at vs (p - 369); cell_at vs (p - 368); cell_at vs (p - 367);
                 cell_at vs (p - 366); cell_at vs (p - 365)] ∧
      ((p < 369)%Z → cell_at ws p = None).
Proof.
  apply (mean_5d_window_trailing_last_year (sample 380)).
  - apply sample_features_returned.
  - unfold climate_vars. repeat constructor.
Defined.

(** C2, as the code has it. From row 369 on, where the five rows
    [p-369 .. p-365] of the filtered series exist, the column
    [{var}_mean_5d_window] at row [p] holds the mean of the variable over
    these five rows (missing if one of the five is missing): the window
    ends, not starts, 365 rows before [p]. *)
Theorem mean_5d_window_rows_369_to_365_back (df out : DataFrame) (var : string) :
  features df = Ok out → var ∈ climate_vars →
  ∃ vs ws,
    getitem var out = Ok (SFloat vs) ∧
    getitem (window_name var) out = Ok (SFloat ws) ∧
    ∀ (p : nat) (a b c d e : cell),
      369 ≤ p < length vs →
      vs !! (p - 369) = Some a → vs !! (p - 368) = Some b →
      vs !! (p - 367) = Some c → vs !! (p - 366) = Some d →
      vs !! (p - 365) = Some e →
      ws !! p = Some (mean_of [a; b; c; d; e]).
Proof.
  intros Hout Hvar. destruct (window_columns df out var Hout Hvar) as (vs & Hvs & Hws).
  exists vs, (rolling_mean 5 (shift 365 vs)). do 2 (split; [done|]).
  intros p a b c d e Hp Ha Hb Hc Hd He.
  assert (Hlen : p < length (rolling_mean 5 (shift 365 vs)))
    by (rewrite length_rolling_mean, length_shift; lia).
  apply lookup_lt_is_Some in Hlen as [x Hx]. rewrite Hx. f_equal.
  assert (Hcell : cell_at (rolling_mean 5 (shift 365 vs)) (Z.of_nat p) = x)
    by (by rewrite cell_at_nat, Hx).
  rewrite <- Hcell, cell_at_rolling_mean by (rewrite length_shift; lia).
  rewrite !cell_at_shift by lia.
  replace (Z.of_nat p - 4 - 365)%Z with (Z.of_nat (p - 369)) by lia.
  replace (Z.of_nat p - 3 - 365)%Z with (Z.of_nat (p - 368)) by lia.
  replace (Z.of_nat p - 2 - 365)%Z with (Z.of_nat (p - 367)) by lia.
  replace (Z.of_nat p - 1 - 365)%Z with (Z.of_nat (p - 366)) by lia.
  replace (Z.of_nat p - 365)%Z with (Z.of_nat (p - 365)) by lia.
  by rewrite !cell_at_nat, Ha, Hb, Hc, Hd, He.
Qed.

Lemma mean_5d_window_rows_369_to_365_back_witness :
  ∃ vs ws,
    getitem "PRCP" (returned (features (sample 380))) = Ok (SFloat vs) ∧
    getitem (window_name "PRCP") (returned (features (sample 380))) = Ok (SFloat ws) ∧
    ∀ (p : nat) (a b c d e : cell),
      369 ≤ p < length vs →
      vs !! (p - 369) = Some a → vs !! (p - 368) = Some b →
      vs !! (p - 367) = Some c → vs !! (p - 366) = Some d →
      vs !! (p - 365) = Some e →
      ws !! p = Some (mean_of [a; b; c; d; e]).
Proof.
  apply (mean_5d_window_rows_369_to_365_back (sample 380)).
  - apply sample_features_returned.
  - unfold climate_vars. repeat constructor.
Defined.

(** C2 as stated fails. On the sample station the filtered [PRCP] column
    holds [r + 2] at row [r]; at row 369 the window mean is 4, the mean of
    rows 0 to 4, and not 8, the mean of rows 4 to 8 ([369-365 .. 369-361]). *)
Lemma mean_5d_window_rows_365_to_361_back_counterexample :
  let out := returned (features (sample 380)) in
  let vs := float_column "PRCP" out in
  let ws := float_column (window_name "PRCP") out in
  features (sample 380) = Ok out ∧
  getitem "PRCP" out = Ok (SFloat vs) ∧
  getitem (window_name "PRCP") out = Ok (SFloat ws) ∧
  (369 ≤ 369 < Z.of_nat (length vs))%Z ∧
  ∃ q q',
    cell_at ws 369 = Some q ∧
    mean_of [cell_at vs (369 - 365); cell_at vs (369 - 364); cell_at vs (369 - 363);
             cell_at vs (369 - 362); cell_at vs (369 - 361)] = Some q' ∧
    (q == 4)%Q ∧ (q' == 8)%Q ∧ ¬ (q == q')%Q ∧
    cell_at ws 369 ≠
      mean_of [cell_at vs (369 - 365); cell_at vs (369 - 364); cell_at vs (369 - 363);
               cell_at vs (369 - 362); cell_at vs (369 - 361)].
Proof.
  cbv zeta. split; [vm_compute; reflexivity|].
  split; [vm_compute; reflexivity|]. split; [vm_compute; reflexivity|].
  split; [by vm_compute|]. eexists _, _.
  split; [vm_compute; reflexivity|]. split; [vm_compute; reflexivity|].
  do 3 (split; [by vm_compute|]). by vm_compute.
Qed.

(** ** Lagged columns (C3) *)

(** C3. In the table before rows are dropped, for each climate variable
    the column [{var}_lag_i], [i] from 1 to 30, holds at row [r] the
    variable's value at row [r - i], and the column [{var}_lag_-i], [i]
    from 1 to 4, holds its value at row [r + i]; rows are positions in the
    filtered series, and a shift that leaves the series gives a missing
    value. *)
Theorem lag_columns_shift_by_position (df out : DataFrame) (var : string) :
  features df = Ok out → var ∈ climate_vars →
  ∃ vs,
    getitem var out = Ok (SFloat vs) ∧
    (∀ i : Z, (1 ≤ i ≤ 30)%Z →
       ∃ ls, getitem (lag_name var i) out = Ok (SFloat ls) ∧
             length ls = length vs ∧
             ∀ r : Z, (0 ≤ r < Z.of_nat (length vs))%Z →
               cell_at ls r = cell_at vs (r - i) ∧
               ((r < i)%Z → cell_at ls r = None)) ∧
    (∀ i : Z, (1 ≤ i ≤ 4)%Z →
       ∃ ls, getitem (lag_name var (- i)) out = Ok (SFloat ls) ∧
             length ls = length vs ∧
             ∀ r : Z, (0 ≤ r < Z.of_nat (length vs))%Z →
               cell_at ls r = cell_at vs (r + i) ∧
               ((Z.of_nat (length vs) ≤ r + i)%Z → cell_at ls r = None)).
Proof.
  intros Hout Hvar.
  destruct (features_Ok_raw_input _ _ Hout) as (ds & vp & vmin & vavg & vmax & Hraw).
  rewrite (features_closed_form _ _ _ _ _ _ Hraw) in Hout. injection Hout as <-.
  destruct (feature_columns_lookup (filtered_dates ds) (compress (year_mask ds) vp)
    (compress (year_mask ds) (map (fmap fahrenheit) vmin))
    (compress (year_mask ds) (map (fmap fahrenheit) vavg))
    (compress (year_mask ds) (map (fmap fahrenheit) vmax)) var Hvar)
    as (v & _ & Hv & _ & Hlag).
  exists v. unfold getitem, features_of. cbn [columns]. rewrite Hv.
  split; [done|]. split; intros i Hi.
  - exists (shift i v). rewrite Hlag by (apply elem_of_lags; lia).
    split; [done|]. split; [apply length_shift|]. intros r Hr.
    rewrite cell_at_shift by done. split; [done|].
    intros Hlt. by rewrite cell_at_neg by lia.
  - exists (shift (- i) v). rewrite Hlag by (apply elem_of_lags; lia).
    split; [done|]. split; [apply length_shift|]. intros r Hr.
    rewrite cell_at_shift by done.
    replace (r - - i)%Z with (r + i)%Z by lia. split; [done|].
    intros Hge. by rewrite cell_at_ge by lia.
Qed.

Lemma lag_columns_shift_by_position_witness :
  ∃ vs,
    getitem "TAVG" (returned (features (sample 380))) = Ok (SFloat vs) ∧
    (∀ i : Z, (1 ≤ i ≤ 30)%Z →
       ∃ ls, getitem (lag_name "TAVG" i) (returned (features (sample 380)))
               = Ok (SFloat ls) ∧
             length ls = length vs ∧
             ∀ r : Z, (0 ≤ r < Z.of_nat (length vs))%Z →
               cell_at ls r = cell_at vs (r - i) ∧
               ((r < i)%Z → cell_at ls r = None)) ∧
    (∀ i : Z, (1 ≤ i ≤ 4)%Z →
       ∃ ls, getitem (lag_name "TAVG" (- i)) (returned (features (sample 380)))
               = Ok (SFloat ls) ∧
             length ls = length vs ∧
             ∀ r : Z, (0 ≤ r < Z.of_nat (length vs))%Z →
               cell_at ls r = cell_at vs (r + i) ∧
               ((Z.of_nat (length vs) ≤ r + i)%Z → cell_at ls r = None)).
Proof.
  apply (lag_columns_shift_by_position (sample 380)).
  - apply sample_features_returned.
  - unfold climate_vars. repeat constructor.
Defined.

(** The two examples of the specification: on values [v0, v1, v2, ...]
    the backward lag 1 at position 2 is [v1] and the forward lag 1 at
    position 1 is [v2]; and the names the columns go by. *)
Example lag_examples (v0 v1 v2 v3 : Q) :
  cell_at (shift 1 [Some v0; Some v1; Some v2; Some v3]) 2 = Some v1 ∧
  cell_at (shift (-1) [Some v0; Some v1; Some v2; Some v3]) 1 = Some v2 ∧
  lag_name "PRCP" 1 = "PRCP_lag_1" ∧ lag_name "PRCP" (-1) = "PRCP_lag_-1" ∧
  window_name "TMAX" = "TMAX_mean_5d_window".
Proof. done. Qed.

(** ** Well-formed frames *)

Lemma lookup_col_elem_of name cols s : lookup_col name cols = Some s → (name, s) ∈ cols.
Proof.
  induction cols as [|[k s'] cols IH]; simpl; [done|].
  destruct (String.eqb_spec name k) as [->|_].
  - intros [= ->]. apply list_elem_of_here.
  - intros H. apply list_elem_of_further, IH, H.
Qed.

Lemma length_to_numeric s v : to_numeric s = Some v → length v = series_len s.
Proof.
  destruct s; intros [= <-]; simpl; try done; unfold int_cells; apply length_map.
Qed.

Lemma length_compress_eq {A B} mask (l : list A) (k : list B) :
  length l = length k → length (compress mask l) = length (compress mask k).
Proof.
  revert l k. induction mask as [|b mask IH]; intros [|x l] [|y k]; simpl; try done.
  intros [= Hlen]. destruct b; simpl; by rewrite (IH l k).
Qed.

Lemma length_filtered_dates ds :
  length (filtered_dates ds) = length (compress (year_mask ds) ds).
Proof. by rewrite year_mask_filtered, length_map. Qed.

(** Every column of the closed form is a float column of [n] rows, when
    the dates and the four variables have [n] rows. *)
Lemma feature_columns_float dd p t1 t2 t3 (n : nat) c :
  length dd = n → length p = n → length t1 = n → length t2 = n → length t3 = n →
  c ∈ feature_columns dd p t1 t2 t3 →
  ∃ vs, c.2 = SFloat vs ∧ length vs = n.
Proof.
  intros Hdd Hp H1 H2 H3.
  unfold feature_columns, lag_block, window_column, calendar_column, int_cells.
  rewrite !elem_of_app, !list_elem_of_fmap.
  intros [Hc|[Hc|[Hc|[Hc|[Hc|Hc]]]]].
  - elem_cases Hc; eexists; (split; [reflexivity|]);
      by rewrite ?length_map.
  - destruct Hc as (i & -> & _). eexists. split; [done|]. by rewrite length_shift.
  - destruct Hc as (i & -> & _). eexists. split; [done|]. by rewrite length_shift.
  - destruct Hc as (i & -> & _). eexists. split; [done|]. by rewrite length_shift.
  - destruct Hc as (i & -> & _). eexists. split; [done|]. by rewrite length_shift.
  - elem_cases Hc; eexists; (split; [reflexivity|]);
      by rewrite length_rolling_mean, length_shift.
Qed.

Section wf.
Variables (df : DataFrame) (ds : list (option date)) (vp vmin vavg vmax : list cell).
Hypothesis Hwf : wf_frame df.
Hypothesis Hraw : raw_input df ds vp vmin vavg vmax.

Lemma raw_input_lengths :
  length ds = length (index df) ∧ length vp = length (index df) ∧
  length vmin = length (index df) ∧ length vavg = length (index df) ∧
  length vmax = length (index df).
Proof.
  destruct Hraw as [HD (sp & HP & Hvp) (smin & Hmin & Hvmin) (savg & Havg & Hvavg)
                       (smax & Hmax & Hvmax)].
  unfold wf_frame in Hwf. rewrite Forall_forall in Hwf.
  apply lookup_col_elem_of, Hwf in HD, HP, Hmin, Havg, Hmax. simpl in *.
  by rewrite (length_to_numeric _ _ Hvp), (length_to_numeric _ _ Hvmin),
    (length_to_numeric _ _ Hvavg), (length_to_numeric _ _ Hvmax).
Qed.

(** The filtered series: the same number of rows in the index and in
    every column. *)
Lemma features_of_wf : wf_frame (features_of df ds vp vmin vavg vmax).
Proof.
  destruct raw_input_lengths as (Hds & Hp & H1 & H2 & H3).
  unfold wf_frame, features_of. cbn [columns index]. apply Forall_forall. intros c Hc.
  apply (feature_columns_float _ _ _ _ _ (length (compress (year_mask ds) (index df))))
    in Hc as (vs & Hvs & Hlen).
  - by rewrite Hvs.
  - rewrite length_filtered_dates. by apply length_compress_eq.
  - by apply length_compress_eq.
  - apply length_compress_eq. by rewrite length_map.
  - apply length_compress_eq. by rewrite length_map.
  - apply length_compress_eq. by rewrite length_map.
Qed.
End wf.

(** ** Dropping the rows that miss a value *)

Lemma isna_float (vs : list cell) (r : nat) :
  isna (SFloat vs) r = bool_decide (cell_at vs (Z.of_nat r) = None).
Proof. rewrite cell_at_nat. simpl. by destruct (vs !! r). Qed.

Lemma row_has_na_false df r :
  row_has_na df r = false ↔ ∀ c, c ∈ columns df → isna c.2 r = false.
Proof.
  unfold row_has_na. split.
  - intros H c Hc. destruct (isna c.2 r) eqn:E; [|done].
    rewrite <- H. symmetry. apply existsb_exists. exists c.
    split; [by apply list_elem_of_In|done].
  - intros H. destruct (existsb _ _) eqn:E; [|done].
    apply existsb_exists in E as (c & Hc%list_elem_of_In & Hna).
    by rewrite (H c Hc) in Hna.
Qed.

Lemma row_has_na_true df r c :
  c ∈ columns df → isna c.2 r = true → row_has_na df r = true.
Proof.
  intros Hc Hna. apply existsb_exists. exists c. split; [by apply list_elem_of_In|done].
Qed.

Lemma dropna_keep_mask df : dropna df = boolean_index (keep_mask df) df.
Proof. done. Qed.

Lemma length_keep_mask df : length (keep_mask df) = length (index df).
Proof. unfold keep_mask. by rewrite length_map, length_seq. Qed.

Lemma keep_mask_lookup df r :
  r < length (index df) → keep_mask df !! r = Some (negb (row_has_na df r)).
Proof.
  intros Hr. unfold keep_mask. by rewrite list_lookup_fmap, lookup_seq_lt.
Qed.

Lemma keep_mask_true df r :
  keep_mask df !! r = Some true → r < length (index df) ∧ row_has_na df r = false.
Proof.
  intros H. assert (Hr : r < length (index df)).
  { rewrite <- length_keep_mask. by apply lookup_lt_Some in H. }
  split; [done|]. rewrite keep_mask_lookup in H by done.
  injection H. by destruct (row_has_na df r).
Qed.

(** What [dropna] keeps of a float column has no missing value. *)
Lemma dropna_column_complete df name vs :
  (name, SFloat vs) ∈ columns df → Forall is_Some (compress (keep_mask df) vs).
Proof.
  intros Hc. apply Forall_forall. intros x Hx.
  apply elem_of_compress in Hx as (q & Hq & Hx).
  apply keep_mask_true in Hq as [_ Hq].
  rewrite row_has_na_false in Hq. specialize (Hq _ Hc). simpl in Hq.
  rewrite Hx in Hq. simpl in Hq. destruct x; [done|].
  by apply bool_decide_eq_false in Hq.
Qed.

Section dropped_rows.
Variables (df : DataFrame) (ds : list (option date)) (vp vmin vavg vmax : list cell).
Hypothesis Hwf : wf_frame df.
Hypothesis Hraw : raw_input df ds vp vmin vavg vmax.

Let pre := features_of df ds vp vmin vavg vmax.
Let p := compress (year_mask ds) vp.

Lemma length_filtered_PRCP : length p = length (index pre).
Proof.
  destruct (raw_input_lengths df ds vp vmin vavg vmax Hwf Hraw) as (_ & Hp & _).
  by apply length_compress_eq.
Qed.

Lemma PRCP_columns :
  (window_name "PRCP", window_column p) ∈ columns pre ∧
  ∀ i, i ∈ lags → (lag_name "PRCP" i, SFloat (shift i p)) ∈ columns pre.
Proof.
  destruct (feature_columns_lookup (filtered_dates ds) p
    (compress (year_mask ds) (map (fmap fahrenheit) vmin))
    (compress (year_mask ds) (map (fmap fahrenheit) vavg))
    (compress (year_mask ds) (map (fmap fahrenheit) vmax)) "PRCP")
    as (v & Hv & _ & Hw & Hlag); [unfold climate_vars; set_solver|].
  assert (v = p) as ->.
  { repeat (apply elem_of_cons in Hv as [?|Hv]; [by simplify_eq|]).
    by apply elem_of_nil in Hv. }
  split; [by apply lookup_col_elem_of|]. intros i Hi. by apply lookup_col_elem_of, Hlag.
Qed.

(** A row among the first 30 misses [PRCP_lag_30]. *)
Lemma first_30_rows_have_na (r : nat) :
  r < 30 → r < length (index pre) → row_has_na pre r = true.
Proof.
  intros Hr Hn. destruct PRCP_columns as [_ Hlag].
  apply (row_has_na_true _ _ _ (Hlag 30%Z (elem_of_lags 30 ltac:(lia)))).
  cbn [snd]. rewrite isna_float, cell_at_shift by (rewrite length_filtered_PRCP; lia).
  by rewrite cell_at_neg by lia.
Qed.

(** A row among the last 4 misses [PRCP_lag_-4]. *)
Lemma last_4_rows_have_na (r : nat) :
  length (index pre) - 4 ≤ r → r < length (index pre) → row_has_na pre r = true.
Proof.
  intros Hr Hn. destruct PRCP_columns as [_ Hlag].
  apply (row_has_na_true _ _ _ (Hlag (-4)%Z (elem_of_lags (-4) ltac:(lia)))).
  cbn [snd]. rewrite isna_float, cell_at_shift by (rewrite length_filtered_PRCP; lia).
  by rewrite cell_at_ge by (rewrite length_filtered_PRCP; lia).
Qed.

(** A row among the first 369 misses [PRCP_mean_5d_window]. *)
Lemma first_369_rows_have_na (r : nat) :
  r < 369 → r < length (index pre) → row_has_na pre r = true.
Proof.
  intros Hr Hn. destruct PRCP_columns as [Hw _].
  apply (row_has_na_true _ _ _ Hw).
  unfold window_column. cbn [snd].
  rewrite isna_float, cell_at_rolling_mean
    by (rewrite length_shift, length_filtered_PRCP; lia).
  destruct (decide (r < 4)) as [Hlt|Hge].
  - by rewrite (cell_at_neg _ (Z.of_nat r - 4)) by lia.
  - rewrite (cell_at_shift _ _ (Z.of_nat r - 4)) by (rewrite length_filtered_PRCP; lia).
    by rewrite (cell_at_neg _ (Z.of_nat r - 4 - 365)) by lia.
Qed.

(** Every column of the output is a float column, as long as the output
    index, without a missing value. *)
Lemma dropna_features_complete c :
  c ∈ columns (dropna pre) →
  ∃ vs, c.2 = SFloat vs ∧ length vs = length (index (dropna pre)) ∧ Forall is_Some vs.
Proof.
  rewrite dropna_keep_mask. cbn [columns index boolean_index].
  intros (c' & -> & Hc')%list_elem_of_fmap.
  pose proof (features_of_wf df ds vp vmin vavg vmax Hwf Hraw) as Hwfpre.
  unfold wf_frame in Hwfpre. rewrite Forall_forall in Hwfpre.
  pose proof (Hwfpre _ Hc') as Hlen.
  destruct c' as [name [| vs | |]].
  2: { exists (compress (keep_mask pre) vs). split; [done|]. split.
       - by apply length_compress_eq.
       - by apply (dropna_column_complete _ name). }
  all: exfalso; destruct (raw_input_lengths df ds vp vmin vavg vmax Hwf Hraw)
         as (Hds & Hp & H1 & H2 & H3);
       apply (feature_columns_float _ _ _ _ _ (length (index pre))) in Hc'
         as (vs & Hvs & _); [done|..].
  all: first [by rewrite length_filtered_dates; apply length_compress_eq
             |apply length_compress_eq; by rewrite ?length_map].
Qed.
End dropped_rows.

(** ** No missing value in the output (C4) *)

(** C4. No row of the output holds a missing value: every output column
    is a float column as long as the output index, all of its cells
    present. The output is the table before the drop under the mask
    [keep_mask], so its rows are rows of the filtered series in their
    order (the labels of the output are a sublist of those of the filtered
    series, and these of the input's). The first 30 and the last 4 rows of
    the filtered series are masked out; where the input labels its rows
    without repetition, their labels are not in the output. *)
Theorem output_has_no_missing_value (df out : DataFrame) :
  wf_frame df → NoDup (index df) → feature_builder df = Ok out →
  ∃ pre,
    features df = Ok pre ∧
    out = boolean_index (keep_mask pre) pre ∧
    (∀ c, c ∈ columns out →
       ∃ vs, c.2 = SFloat vs ∧ length vs = length (index out) ∧ Forall is_Some vs) ∧
    (∀ r, r < length (index out) → row_has_na out r = false) ∧
    (∀ r k, index pre !! r = Some k → r < 30 ∨ length (index pre) - 4 ≤ r →
       keep_mask pre !! r = Some false ∧ k ∉ index out) ∧
    index out `sublist_of` index pre ∧
    index pre `sublist_of` index df.
Proof.
  intros Hwf Hnodup Hout. unfold feature_builder in Hout.
  destruct (features df) as [pre|] eqn:Hpre; [|done]. injection Hout as <-.
  destruct (features_Ok_raw_input _ _ Hpre) as (ds & vp & vmin & vavg & vmax & Hraw).
  rewrite (features_closed_form _ _ _ _ _ _ Hraw) in Hpre. injection Hpre as <-.
  set (pre := features_of df ds vp vmin vavg vmax).
  assert (Hsub : index pre `sublist_of` index df) by apply compress_sublist.
  assert (Hcomplete := dropna_features_complete df ds vp vmin vavg vmax Hwf Hraw).
  fold pre in Hcomplete.
  exists pre. split; [done|]. split; [done|]. split; [done|]. split; [|split; [|split]].
  - intros r Hr. apply row_has_na_false. intros c Hc.
    destruct (Hcomplete c Hc) as (vs & -> & Hlen & Hall).
    rewrite <- Hlen in Hr. apply lookup_lt_is_Some in Hr as [x Hx].
    simpl. rewrite Hx. rewrite Forall_forall in Hall.
    destruct (Hall x) as [q ->]; [by eapply list_elem_of_lookup_2|].
    by apply bool_decide_eq_false.
  - intros r k Hk Hr.
    assert (Hlt : r < length (index pre)) by by apply lookup_lt_Some in Hk.
    assert (Hna : row_has_na pre r = true).
    { destruct Hr as [Hr|Hr].
      - by apply first_30_rows_have_na.
      - by apply last_4_rows_have_na. }
    assert (Hkeep : keep_mask pre !! r = Some false)
      by by rewrite keep_mask_lookup, Hna.
    split; [done|]. rewrite dropna_keep_mask. cbn [index boolean_index].
    intros (q & Hq & Hk')%elem_of_compress.
    assert (q = r) as ->; [|congruence].
    eapply NoDup_lookup; [|done..]. by eapply sublist_NoDup.
  - rewrite dropna_keep_mask. apply compress_sublist.
  - done.
Qed.

Lemma output_has_no_missing_value_witness :
  ∃ pre,
    features (sample 380) = Ok pre ∧
    returned (feature_builder (sample 380)) = boolean_index (keep_mask pre) pre ∧
    (∀ c, c ∈ columns (returned (feature_builder (sample 380))) →
       ∃ vs, c.2 = SFloat vs ∧
             length vs = length (index (returned (feature_builder (sample 380)))) ∧
             Forall is_Some vs) ∧
    (∀ r, r < length (index (returned (feature_builder (sample 380)))) →
       row_has_na (returned (feature_builder (sample 380))) r = false) ∧
    (∀ r k, index pre !! r = Some k → r < 30 ∨ length (index pre) - 4 ≤ r →
       keep_mask pre !! r = Some false ∧
       k ∉ index (returned (feature_builder (sample 380)))) ∧
    index (returned (feature_builder (sample 380))) `sublist_of` index pre ∧
    index pre `sublist_of` index (sample 380).
Proof.
  apply (output_has_no_missing_value (sample 380)).
  - apply sample_wf.
  - apply sample_NoDup.
  - apply sample_feature_builder_returned.
Defined.

(** ** The year filter (C5) *)

Lemma year_mask_lookup ds q :
  year_mask ds !! q =
    from_option (λ d, bool_decide (2013 ≤ year d)%Z) false <$> ds !! q.
Proof.
  unfold year_mask. rewrite list_lookup_fmap. destruct (ds !! q) as [[d|]|]; simpl; try done.
  f_equal. destruct (Z.leb_spec 2013 (year d)).
  - by rewrite bool_decide_eq_true_2.
  - rewrite bool_decide_eq_false_2; [done|lia].
Qed.

Lemma year_mask_true ds q :
  year_mask ds !! q = Some true → ∃ d, ds !! q = Some (Some d) ∧ (2013 ≤ year d)%Z.
Proof.
  rewrite year_mask_lookup. destruct (ds !! q) as [[d|]|]; simpl; try done.
  intros [= H%bool_decide_eq_true]. eauto.
Qed.

(** The filtered column of each climate variable, from the raw one. *)
Lemma filtered_column df ds vp vmin vavg vmax var v :
  raw_input df ds vp vmin vavg vmax →
  (var, v) ∈ [("PRCP", compress (year_mask ds) vp);
              ("TMIN", compress (year_mask ds) (map (fmap fahrenheit) vmin));
              ("TAVG", compress (year_mask ds) (map (fmap fahrenheit) vavg));
              ("TMAX", compress (year_mask ds) (map (fmap fahrenheit) vmax))] →
  ∃ s vraw, lookup_col var (columns df) = Some s ∧ to_numeric s = Some vraw ∧
            v = compress (year_mask ds) (converted var vraw).
Proof.
  intros [_ (sp & HP & Hvp) (smin & Hmin & Hvmin) (savg & Havg & Hvavg)
            (smax & Hmax & Hvmax)] Hv.
  repeat (apply elem_of_cons in Hv as [[= -> ->]|Hv]; [by eauto|]).
  by apply elem_of_nil in Hv.
Qed.

(** C5. Rows of a year before 2013 (and rows without a date) are excluded
    by the mask [year_mask], applied to the converted columns (line 33,
    after lines 26-28) and before any lag or window is computed: the
    table before the drop has the masked labels, each climate variable is
    the masked converted column, and each lag and window column is
    computed from that masked column alone. So every output row carries
    the label of an input row dated 2013 or later. *)
Theorem year_filter_precedes_lags (df out : DataFrame) :
  feature_builder df = Ok out →
  ∃ pre ds,
    features df = Ok pre ∧ out = dropna pre ∧
    lookup_col "DATE" (columns df) = Some (SDate ds) ∧
    index pre = compress (year_mask ds) (index df) ∧
    (∀ q d, ds !! q = Some (Some d) →
       year_mask ds !! q = Some (bool_decide (2013 ≤ year d)%Z)) ∧
    (∀ j k, index out !! j = Some k →
       ∃ q d, index df !! q = Some k ∧ ds !! q = Some (Some d) ∧ (2013 ≤ year d)%Z) ∧
    (∀ var, var ∈ climate_vars →
       ∃ s vraw vs,
         lookup_col var (columns df) = Some s ∧ to_numeric s = Some vraw ∧
         vs = compress (year_mask ds) (converted var vraw) ∧
         getitem var pre = Ok (SFloat vs) ∧
         getitem (window_name var) pre = Ok (SFloat (rolling_mean 5 (shift 365 vs))) ∧
         ∀ i, i ∈ lags → getitem (lag_name var i) pre = Ok (SFloat (shift i vs))).
Proof.
  intros Hout. unfold feature_builder in Hout.
  destruct (features df) as [pre|] eqn:Hpre; [|done]. injection Hout as <-.
  destruct (features_Ok_raw_input _ _ Hpre) as (ds & vp & vmin & vavg & vmax & Hraw).
  rewrite (features_closed_form _ _ _ _ _ _ Hraw) in Hpre. injection Hpre as <-.
  exists (features_of df ds vp vmin vavg vmax), ds.
  split; [done|]. split; [done|]. split; [apply Hraw|]. split; [done|].
  split; [|split].
  - intros q d Hd. by rewrite year_mask_lookup, Hd.
  - intros j k Hk. rewrite dropna_keep_mask in Hk. cbn [index boolean_index] in Hk.
    apply list_elem_of_lookup_2, elem_of_compress in Hk as (j' & _ & Hk).
    apply list_elem_of_lookup_2, elem_of_compress in Hk as (q & Hq & Hk).
    apply year_mask_true in Hq as (d & Hd & Hy). eauto.
  - intros var Hvar.
    destruct (feature_columns_lookup (filtered_dates ds) (compress (year_mask ds) vp)
      (compress (year_mask ds) (map (fmap fahrenheit) vmin))
      (compress (year_mask ds) (map (fmap fahrenheit) vavg))
      (compress (year_mask ds) (map (fmap fahrenheit) vmax)) var Hvar)
      as (v & Hv & Hcol & Hw & Hlag).
    destruct (filtered_column _ _ _ _ _ _ _ _ Hraw Hv) as (s & vraw & Hs & Hnum & ->).
    exists s, vraw, (compress (year_mask ds) (converted var vraw)).
    unfold getitem, features_of. cbn [columns]. rewrite Hcol, Hw.
    do 5 (split; [done|]). intros i Hi. by rewrite Hlag.
Qed.

Lemma year_filter_precedes_lags_witness :
  ∃ pre ds,
    features (sample 380) = Ok pre ∧
    returned (feature_builder (sample 380)) = dropna pre ∧
    lookup_col "DATE" (columns (sample 380)) = Some (SDate ds) ∧
    index pre = compress (year_mask ds) (index (sample 380)) ∧
    (∀ q d, ds !! q = Some (Some d) →
       year_mask ds !! q = Some (bool_decide (2013 ≤ year d)%Z)) ∧
    (∀ j k, index (returned (feature_builder (sample 380))) !! j = Some k →
       ∃ q d, index (sample 380) !! q = Some k ∧ ds !! q = Some (Some d) ∧
              (2013 ≤ year d)%Z) ∧
    (∀ var, var ∈ climate_vars →
       ∃ s vraw vs,
         lookup_col var (columns (sample 380)) = Some s ∧ to_numeric s = Some vraw ∧
         vs = compress (year_mask ds) (converted var vraw) ∧
         getitem var pre = Ok (SFloat vs) ∧
         getitem (window_name var) pre = Ok (SFloat (rolling_mean 5 (shift 365 vs))) ∧
         ∀ i, i ∈ lags → getitem (lag_name var i) pre = Ok (SFloat (shift i vs))).
Proof.
  apply (year_filter_precedes_lags (sample 380)). apply sample_feature_builder_returned.
Defined.

(** The example of the specification: of the sample station's rows, the
    one dated 2012-12-31 (label 1) is not in the filtered series, the one
    dated 2013-01-01 (label 2) is its first row; the drop of incomplete
    rows then leaves the labels 371 to 375. *)
Example year_filter_example :
  sample_dates 380 !! 1 = Some (mkdate 2012 12 31) ∧
  sample_dates 380 !! 2 = Some (mkdate 2013 1 1) ∧
  index (returned (features (sample 380))) = seq 2 378 ∧
  index (returned (feature_builder (sample 380))) = [371; 372; 373; 374; 375].
Proof. by vm_compute. Qed.

(** ** Units (C6) *)

Lemma lookup_col_fmap (g : Series → Series) name cols :
  lookup_col name (map (λ c, (c.1, g c.2)) cols) = g <$> lookup_col name cols.
Proof.
  induction cols as [|[k s] cols IH]; simpl; [done|]. by destruct (String.eqb name k).
Qed.

Lemma getitem_boolean_index mask df name :
  getitem name (boolean_index mask df) = compress_series mask <$> getitem name df.
Proof.
  unfold getitem, boolean_index. cbn [columns]. rewrite lookup_col_fmap.
  by destruct (lookup_col name (columns df)).
Qed.




(** On the sample station every [TMIN] is 100, and every output [TMIN]
    is 50 (as the fraction 2500/50). *)
Example output_TMIN_example :
  float_column "TMIN" (returned (feature_builder (sample 380))) =
    replicate 5 (Some (2500 # 50)) ∧ (2500 # 50 == 50)%Q.
Proof. by vm_compute. Qed.

(** ** Seasons (C7) *)

Lemma compress_calendar_column mask field dd :
  compress_series mask (calendar_column field dd) =
    calendar_column field (compress mask dd).
Proof.
  unfold calendar_column, int_cells. simpl. by rewrite !compress_map.
Qed.





(** The examples of the specification. *)
Example season_examples :
  season 1 = 1%Z ∧ season 3 = 2%Z ∧ season 6 = 3%Z ∧ season 9 = 4%Z ∧ season 12 = 1%Z.
Proof. done. Qed.

(** ** Which rows survive (C8) *)

(** A mask that is true on the positions [a ≤ r < b] cuts that slice out. *)
Lemma compress_interval_from {A} (l : list A) (a b s : nat) :
  compress (map (λ r, (a <=? r) && (r <? b)) (seq s (length l))) l =
    take (b - a `max` s) (drop (a - s) l).
Proof.
  revert s. induction l as [|x l IH]; intros s; simpl.
  - by rewrite drop_nil, take_nil.
  - rewrite IH. destruct (Nat.leb_spec a s); destruct (Nat.ltb_spec s b); simpl.
    + replace (a - s) with 0 by lia. replace (a - S s) with 0 by lia. simpl.
      replace (b - a `max` s) with (S (b - a `max` S s)) by lia. done.
    + replace (b - a `max` S s) with 0 by lia. replace (b - a `max` s) with 0 by lia.
      done.
    + replace (a - s) with (S (a - S s)) by lia. simpl.
      by replace (a `max` S s) with (a `max` s) by lia.
    + replace (a - s) with (S (a - S s)) by lia. simpl.
      by replace (a `max` S s) with (a `max` s) by lia.
Qed.

Lemma compress_interval {A} (l : list A) (a b : nat) :
  compress (map (λ r, (a <=? r) && (r <? b)) (seq 0 (length l))) l =
    take (b - a) (drop a l).
Proof.
  rewrite compress_interval_from. by rewrite Nat.max_0_r, Nat.sub_0_r.
Qed.

Lemma cell_at_present (v : list cell) (z : Z) :
  Forall is_Some v → (0 ≤ z < Z.of_nat (length v))%Z → is_Some (cell_at v z).
Proof.
  intros Hall Hz. replace z with (Z.of_nat (Z.to_nat z)) by lia.
  rewrite cell_at_nat. destruct (lookup_lt_is_Some_2 v (Z.to_nat z)) as [x Hx]; [lia|].
  rewrite Hx. rewrite Forall_forall in Hall. apply Hall.
  by eapply list_elem_of_lookup_2.
Qed.

Lemma compress_present (mask : list bool) (v : list cell) :
  Forall is_Some v → Forall is_Some (compress mask v).
Proof.
  rewrite !Forall_forall. intros Hall x (q & _ & Hx)%elem_of_compress.
  apply Hall. by eapply list_elem_of_lookup_2.
Qed.

Lemma fahrenheit_present (v : list cell) :
  Forall is_Some v → Forall is_Some (map (fmap fahrenheit) v).
Proof.
  intros Hall. apply Forall_fmap. eapply Forall_impl; [done|].
  intros x [q ->]. by eexists.
Qed.

Lemma lags_bounds (i : Z) : i ∈ lags → (-4 ≤ i ≤ 30)%Z.
Proof. vm_compute lags. intros Hi. elem_cases Hi; lia. Qed.

Lemma mean_of_present (a b c d e : cell) :
  is_Some a → is_Some b → is_Some c → is_Some d → is_Some e →
  is_Some (mean_of [a; b; c; d; e]).
Proof. intros [? ->] [? ->] [? ->] [? ->] [? ->]. by eexists. Qed.

(** A column of the closed form has a value at row [r] when the row lies
    369 rows or more after the start and 5 rows or more before the end of
    a series without missing values. *)
Lemma feature_columns_present dd p t1 t2 t3 (n r : nat) c :
  length dd = n → length p = n → length t1 = n → length t2 = n → length t3 = n →
  Forall is_Some p → Forall is_Some t1 → Forall is_Some t2 → Forall is_Some t3 →
  369 ≤ r → r + 5 ≤ n →
  c ∈ feature_columns dd p t1 t2 t3 → isna c.2 r = false.
Proof.
  intros Hdd Hp H1 H2 H3 Ap A1 A2 A3 Hlo Hhi.
  assert (Hlag : ∀ v i, length v = n → Forall is_Some v → i ∈ lags →
            isna (SFloat (shift i v)) r = false).
  { intros v i Hlen Hall Hi%lags_bounds.
    rewrite isna_float, cell_at_shift by lia. apply bool_decide_eq_false.
    destruct (cell_at_present v (Z.of_nat r - i)) as [x ->]; [done|lia|done]. }
  assert (Hwin : ∀ v, length v = n → Forall is_Some v →
            isna (window_column v) r = false).
  { intros v Hlen Hall. unfold window_column.
    rewrite isna_float, cell_at_rolling_mean by (rewrite length_shift; lia).
    rewrite !cell_at_shift by lia. apply bool_decide_eq_false.
    destruct (mean_of_present (cell_at v (Z.of_nat r - 4 - 365))
      (cell_at v (Z.of_nat r - 3 - 365)) (cell_at v (Z.of_nat r - 2 - 365))
      (cell_at v (Z.of_nat r - 1 - 365)) (cell_at v (Z.of_nat r - 365)))
      as [x ->]; [apply cell_at_present; [done|lia]..|done]. }
  assert (Hcol : ∀ v, length v = n → Forall is_Some v → isna (SFloat v) r = false).
  { intros v Hlen Hall. rewrite isna_float. apply bool_decide_eq_false.
    destruct (cell_at_present v (Z.of_nat r)) as [x ->]; [done|lia|done]. }
  assert (Hcal : ∀ field, isna (calendar_column field dd) r = false).
  { intros field. apply Hcol.
    - unfold int_cells. by rewrite !length_map.
    - unfold int_cells. apply Forall_fmap, Forall_true. by eexists. }
  unfold feature_columns, lag_block.
  rewrite !elem_of_app, !list_elem_of_fmap.
  intros [Hc|[Hc|[Hc|[Hc|[Hc|Hc]]]]].
  - elem_cases Hc; cbn [snd]; auto.
  - destruct Hc as (i & -> & Hi). cbn [snd]. auto.
  - destruct Hc as (i & -> & Hi). cbn [snd]. auto.
  - destruct Hc as (i & -> & Hi). cbn [snd]. auto.
  - destruct Hc as (i & -> & Hi). cbn [snd]. auto.
  - elem_cases Hc; cbn [snd]; auto.
Qed.

Section surviving.
Variables (df : DataFrame) (ds : list (option date)) (vp vmin vavg vmax : list cell).
Hypothesis Hwf : wf_frame df.
Hypothesis Hraw : raw_input df ds vp vmin vavg vmax.
Hypothesis Hp : Forall is_Some vp.
Hypothesis Hmin : Forall is_Some vmin.
Hypothesis Havg : Forall is_Some vavg.
Hypothesis Hmax : Forall is_Some vmax.

Let pre := features_of df ds vp vmin vavg vmax.
Let n := length (index pre).

Lemma complete_rows_kept (r : nat) :
  369 ≤ r → r + 5 ≤ n → row_has_na pre r = false.
Proof.
  intros Hlo Hhi. apply row_has_na_false. intros c Hc.
  destruct (raw_input_lengths df ds vp vmin vavg vmax Hwf Hraw)
    as (Hds & Hlp & H1 & H2 & H3).
  apply (feature_columns_present _ _ _ _ _ n r) in Hc; try done.
  - rewrite length_filtered_dates. by apply length_compress_eq.
  - by apply length_compress_eq.
  - apply length_compress_eq. by rewrite length_map.
  - apply length_compress_eq. by rewrite length_map.
  - apply length_compress_eq. by rewrite length_map.
  - by apply compress_present.
  - by apply compress_present, fahrenheit_present.
  - by apply compress_present, fahrenheit_present.
  - by apply compress_present, fahrenheit_present.
Qed.

(** With every raw value present, the rows that survive are the rows
    [369 ≤ r < n - 4] of the filtered series. *)
Lemma keep_mask_interval :
  keep_mask pre = map (λ r, (369 <=? r) && (r <? n - 4)) (seq 0 n).
Proof.
  unfold keep_mask. fold n. apply map_ext_in. intros r [_ Hr]%in_seq. simpl in Hr.
  destruct (Nat.leb_spec 369 r); destruct (Nat.ltb_spec r (n - 4)); simpl.
  - rewrite complete_rows_kept; [done|lia..].
  - rewrite (last_4_rows_have_na df ds vp vmin vavg vmax Hwf Hraw); [done|fold pre n; lia..].
  - rewrite (first_369_rows_have_na df ds vp vmin vavg vmax Hwf Hraw); [done|fold pre n; lia..].
  - rewrite (first_369_rows_have_na df ds vp vmin vavg vmax Hwf Hraw); [done|fold pre n; lia..].
Qed.
End surviving.

(** C8. When the input has the four climate columns without a missing
    value, and [n] rows remain after the year filter, the rows that
    survive are exactly the rows [r] of the filtered series with
    [369 ≤ r] and [r + 5 ≤ n], in their order: none when [n < 374],
    [n - 373] of them otherwise. *)
Theorem surviving_rows_369_to_n_minus_5
    (df : DataFrame) (ds : list (option date)) (vp vmin vavg vmax : list cell) :
  wf_frame df → raw_input df ds vp vmin vavg vmax →
  Forall is_Some vp → Forall is_Some vmin → Forall is_Some vavg → Forall is_Some vmax →
  ∃ pre out (n : nat),
    features df = Ok pre ∧ feature_builder df = Ok out ∧ n = length (index pre) ∧
    out = boolean_index (map (λ r, (369 <=? r) && (r + 5 <=? n)) (seq 0 n)) pre ∧
    (∀ r, r < n → keep_mask pre !! r = Some (bool_decide (369 ≤ r ∧ r + 5 ≤ n))) ∧
    index out = take (n - 373) (drop 369 (index pre)) ∧
    (n < 374 → index out = []) ∧
    (374 ≤ n → length (index out) = n - 373).
Proof.
  intros Hwf Hraw Hp Hmin Havg Hmax.
  pose proof (keep_mask_interval df ds vp vmin vavg vmax Hwf Hraw Hp Hmin Havg Hmax)
    as Hkeep.
  set (pre := features_of df ds vp vmin vavg vmax) in *.
  set (n := length (index pre)) in *.
  assert (Hmask : map (λ r, (369 <=? r) && (r + 5 <=? n)) (seq 0 n) = keep_mask pre).
  { rewrite Hkeep. apply map_ext. intros r. f_equal.
    destruct (Nat.leb_spec (r + 5) n); destruct (Nat.ltb_spec r (n - 4)); lia. }
  assert (Hidx : index (dropna pre) = take (n - 373) (drop 369 (index pre))).
  { rewrite dropna_keep_mask. cbn [index boolean_index]. rewrite Hkeep.
    unfold n. rewrite compress_interval. f_equal. lia. }
  exists pre, (dropna pre), n.
  split; [by apply features_closed_form|].
  split; [unfold feature_builder; by rewrite (features_closed_form _ _ _ _ _ _ Hraw)|].
  split; [done|]. split; [by rewrite Hmask|]. split; [|split; [done|split]].
  - intros r Hr. rewrite Hkeep, list_lookup_fmap, lookup_seq_lt by done.
    cbn [fmap option_fmap option_map]. f_equal. change (0 + r) with r.
    destruct (Nat.leb_spec 369 r); destruct (Nat.ltb_spec r (n - 4)); cbn [andb];
      symmetry;
      first [apply bool_decide_eq_true_2; lia | apply bool_decide_eq_false_2; lia].
  - intros Hn. rewrite Hidx. by replace (n - 373) with 0 by lia.
  - intros Hn. rewrite Hidx, length_take, length_drop. fold n. lia.
Qed.

Lemma surviving_rows_369_to_n_minus_5_witness :
  ∃ pre out (n : nat),
    features (sample 402) = Ok pre ∧ feature_builder (sample 402) = Ok out ∧
    n = length (index pre) ∧
    out = boolean_index (map (λ r, (369 <=? r) && (r + 5 <=? n)) (seq 0 n)) pre ∧
    (∀ r, r < n → keep_mask pre !! r = Some (bool_decide (369 ≤ r ∧ r + 5 ≤ n))) ∧
    index out = take (n - 373) (drop 369 (index pre)) ∧
    (n < 374 → index out = []) ∧
    (374 ≤ n → length (index out) = n - 373).
Proof.
  apply (surviving_rows_369_to_n_minus_5 (sample 402)
           (map Some (sample_dates 402))
           (int_cells (seqZ 0 402))
           (int_cells (replicate 402 100%Z))
           (map (λ k, Some (inject_Z (150 + k))) (seqZ 0 402))
           (int_cells (map (λ k, 200 + k)%Z (seqZ 0 402)))).
  - unfold wf_frame. apply (bool_decide_unpack _). by vm_compute.
  - apply (sample_raw_input 402).
  - apply (bool_decide_unpack _). by vm_compute.
  - apply (bool_decide_unpack _). by vm_compute.
  - apply (bool_decide_unpack _). by vm_compute.
  - apply (bool_decide_unpack _). by vm_compute.
Defined.

(** The example of the claim: 400 fully populated rows after the year
    filter leave 27 rows, those at positions 369 to 395. *)
Example surviving_rows_of_400 :
  length (index (returned (features (sample 402)))) = 400 ∧
  length (index (returned (feature_builder (sample 402)))) = 27 ∧
  index (returned (feature_builder (sample 402))) = seq 371 27.
Proof. by vm_compute. Qed.

(** ** An input without a row from 2013 on (C9) *)

Lemma compress_all_false {A} (mask : list bool) (l : list A) :
  Forall (λ b, b = false) mask → compress mask l = [].
Proof.
  intros Hall. revert l. induction Hall as [|b mask -> _ IH]; intros [|x l]; simpl; auto.
Qed.

Lemma year_mask_all_false ds :
  (∀ d, Some d ∈ ds → (year d < 2013)%Z) → Forall (λ b, b = false) (year_mask ds).
Proof.
  intros Hds. unfold year_mask. apply Forall_fmap, Forall_forall.
  intros [d|] Hd; simpl; [|done]. specialize (Hds d Hd).
  destruct (Z.leb_spec 2013 (year d)); [lia|done].
Qed.

Lemma compress_series_all_false (mask : list bool) (s : Series) :
  Forall (λ b, b = false) mask → (∀ ds, s ≠ SDate ds) →
  as_float64 (compress_series mask s) = Some [].
Proof.
  intros Hmask Hs. destruct s as [zs|vs|ds|os]; cbn [compress_series as_float64];
    rewrite ?compress_all_false by done; try done. by destruct (Hs ds).
Qed.

(** C9, as the code has it. When the file has the five columns, [DATE]
    was read as dates, the temperature columns hold numbers or no text,
    and none of its rows is dated 2013 or later, the function raises no
    error: it returns the table with all its 149 columns and no row, and
    leaves the files as they are. The [PRCP] column may hold anything but
    dates. *)
Theorem empty_after_year_filter_is_not_an_error
    (file_path : string) (fs : filesystem) (t : table)
    (ds : list (option date)) (sp smin savg smax : Series) :
  fs !! file_path = Some t →
  lookup_col "DATE" t = Some (SDate ds) →
  lookup_col "PRCP" t = Some sp → (∀ ds', sp ≠ SDate ds') →
  lookup_col "TMIN" t = Some smin → arithmetic_ok smin = true →
  lookup_col "TAVG" t = Some savg → arithmetic_ok savg = true →
  lookup_col "TMAX" t = Some smax → arithmetic_ok smax = true →
  (∀ d, Some d ∈ ds → (year d < 2013)%Z) →
  ∃ out,
    feature_engineering_noaa_climate_data file_path fs = (Ok out, fs) ∧
    index out = [] ∧
    length (columns out) = 149 ∧
    Forall (λ c, c.2 = SFloat []) (columns out) ∧
    map fst (columns out) = map fst (feature_columns [] [] [] [] []).
Proof.
  intros Hfile HD HP Hsp Hmin Hminn Havg Havgn Hmax Hmaxn Hyears.
  assert (Hmask := year_mask_all_false ds Hyears).
  destruct (as_float64_is_numeric (year_mask ds) sp) as [vp Hvp].
  { by rewrite compress_series_all_false. }
  destruct (arithmetic_ok_to_numeric _ Hminn) as [vmin Hvmin].
  destruct (arithmetic_ok_to_numeric _ Havgn) as [vavg Hvavg].
  destruct (arithmetic_ok_to_numeric _ Hmaxn) as [vmax Hvmax].
  assert (Hraw : raw_input (mkDataFrame (seq 0 (nrows t)) t) ds vp vmin vavg vmax).
  { split; cbn [columns]; eauto; intros s Hs; try congruence.
    assert (s = sp) as -> by congruence. by rewrite compress_series_all_false. }
  eexists. split.
  - unfold feature_engineering_noaa_climate_data, read_csv. rewrite Hfile.
    cbn [forallb]. rewrite HD.
    rewrite bool_decide_eq_true_2 by by eexists. cbn [andb]. rewrite bind_Ok.
    unfold feature_builder. rewrite (features_closed_form _ _ _ _ _ _ Hraw).
    unfold features_of, filtered_dates. rewrite !compress_all_false by done.
    reflexivity.
  - vm_compute. repeat split. repeat constructor.
Qed.

Lemma empty_after_year_filter_is_not_an_error_witness :
  ∃ out,
    feature_engineering_noaa_climate_data "NYC.csv" {["NYC.csv" := sample_table 2]}
      = (Ok out, {["NYC.csv" := sample_table 2]}) ∧
    index out = [] ∧
    length (columns out) = 149 ∧
    Forall (λ c, c.2 = SFloat []) (columns out) ∧
    map fst (columns out) = map fst (feature_columns [] [] [] [] []).
Proof.
  apply (empty_after_year_filter_is_not_an_error "NYC.csv"
           {["NYC.csv" := sample_table 2]} (sample_table 2)
           (map Some (sample_dates 2))
           (SInt (seqZ 0 2)) (SInt (replicate 2 100%Z))
           (SFloat (map (λ k, Some (inject_Z (150 + k))) (seqZ 0 2)))
           (SInt (map (λ k, 200 + k)%Z (seqZ 0 2))));
    try reflexivity; try done.
  intros d Hd.
  change (Some d ∈ [Some (mkdate 2012 12 30); Some (mkdate 2012 12 31)]) in Hd.
  repeat (apply elem_of_cons in Hd as [[= ->]|Hd]; [reflexivity|]).
  by apply elem_of_nil in Hd.
Defined.

(** The text cells of a [PRCP] column do not matter when every row is
    dated before 2013. *)
Example text_before_2013_example :
  ∃ out,
    feature_builder (sample_with "PRCP" (SObj (replicate 2 (Some "T"))) 2) = Ok out ∧
    index out = [] ∧ length (columns out) = 149.
Proof. eexists. by vm_compute. Qed.

(** C9 as stated fails. A file that holds the header line and no row
    parses and has the five columns, and none of its rows is dated 2013 or
    later; but [read_csv] can type no column of it, [DATE] is no column of
    dates, and the function raises [AttributeError] at the [.dt] accessor
    of line 31. *)
Lemma header_only_file_raises_counterexample :
  let fs : filesystem := {["NYC.csv" := header_only]} in
  fs !! "NYC.csv" = Some header_only ∧
  nrows header_only = 0 ∧
  Forall (λ name, is_Some (lookup_col name header_only)) ("DATE" :: climate_vars) ∧
  feature_engineering_noaa_climate_data "NYC.csv" fs = (Raise AttributeError, fs) ∧
  (∀ out, feature_engineering_noaa_climate_data "NYC.csv" fs ≠ (Ok out, fs)).
Proof.
  cbv zeta. split; [done|]. split; [done|]. split; [by repeat constructor|].
  assert (feature_engineering_noaa_climate_data "NYC.csv" {["NYC.csv" := header_only]}
          = (Raise AttributeError, {["NYC.csv" := header_only]})) as -> by done.
  split; [done|]. by intros out.
Qed.

(** * Further properties of the feature builder *)

(** ** When the function returns, and what it raises *)


(** A temperature column without a value, which [read_csv] types as an
    object column when the file has no row, passes lines 26-28; the
    function returns a table, here without a row. *)
Example object_column_without_text_example :
  ∃ out,
    feature_builder (sample_with "TMAX" (SObj (replicate 5 None)) 5) = Ok out ∧
    index out = [] ∧ length (columns out) = 149.
Proof. eexists. by vm_compute. Qed.

(** X2. Line 22: without one of the five columns the selection raises
    [KeyError] for a column that is missing, before anything is computed. *)
Theorem missing_column_raises_KeyError (df : DataFrame) (name : string) :
  name ∈ "DATE" :: climate_vars → lookup_col name (columns df) = None →
  ∃ k, k ∈ "DATE" :: climate_vars ∧ lookup_col k (columns df) = None ∧
       feature_builder df = Raise (KeyError k).
Proof.
  intros Hname Hnone.
  unfold feature_builder, features, engineered, convert_and_filter, getitems, getitem,
    climate_vars in *.
  cbn [mapM].
  destruct (lookup_col "DATE" (columns df)) eqn:HD;
    [|exists "DATE"; split; [by repeat constructor|done]].
  destruct (lookup_col "PRCP" (columns df)) eqn:HP;
    [|exists "PRCP"; split; [by repeat constructor|done]].
  destruct (lookup_col "TMIN" (columns df)) eqn:Hmin;
    [|exists "TMIN"; split; [by repeat constructor|done]].
  destruct (lookup_col "TAVG" (columns df)) eqn:Havg;
    [|exists "TAVG"; split; [by repeat constructor|done]].
  destruct (lookup_col "TMAX" (columns df)) eqn:Hmax;
    [|exists "TMAX"; split; [by repeat constructor|done]].
  exfalso. elem_cases Hname; congruence.
Qed.

Lemma getitems_five (df : DataFrame) (sd sp smin savg smax : Series) :
  lookup_col "DATE" (columns df) = Some sd →
  lookup_col "PRCP" (columns df) = Some sp →
  lookup_col "TMIN" (columns df) = Some smin →
  lookup_col "TAVG" (columns df) = Some savg →
  lookup_col "TMAX" (columns df) = Some smax →
  getitems ("DATE" :: climate_vars) df =
    Ok (mkDataFrame (index df)
          [("DATE", sd); ("PRCP", sp); ("TMIN", smin); ("TAVG", savg); ("TMAX", smax)]).
Proof.
  intros HD HP Hmin Havg Hmax. unfold getitems, getitem, climate_vars. cbn [mapM].
  by rewrite HD, HP, Hmin, Havg, Hmax.
Qed.

(** X3. Lines 26-28 run before line 31: a temperature column that holds a
    text, or dates, raises [TypeError], whatever the [DATE] and [PRCP]
    columns hold. (An object column without a text does not: see X4.) *)
Theorem non_numeric_temperature_raises_TypeError
    (df : DataFrame) (sd sp smin savg smax : Series) :
  lookup_col "DATE" (columns df) = Some sd →
  lookup_col "PRCP" (columns df) = Some sp →
  lookup_col "TMIN" (columns df) = Some smin →
  lookup_col "TAVG" (columns df) = Some savg →
  lookup_col "TMAX" (columns df) = Some smax →
  arithmetic_ok smin = false ∨ arithmetic_ok savg = false ∨ arithmetic_ok smax = false →
  feature_builder df = Raise TypeError.
Proof.
  intros HD HP Hmin Havg Hmax Hbad.
  unfold feature_builder, features, engineered, convert_and_filter.
  rewrite (getitems_five df sd sp smin savg smax), bind_Ok by done. frame_eval.
  rewrite !fahrenheit_series.
  destruct (arithmetic_ok smin); [|done]. destruct (arithmetic_ok savg); [|done].
  destruct (arithmetic_ok smax); [|done]. by destruct Hbad as [?|[?|?]].
Qed.

(** X4. Line 31: when the temperature columns pass lines 26-28 (numbers, or
    object columns without a text), a [DATE] column that was not read as
    dates raises [AttributeError] at the [.dt] accessor. *)
Theorem unparsed_DATE_raises_AttributeError
    (df : DataFrame) (sd sp smin savg smax : Series) :
  lookup_col "DATE" (columns df) = Some sd →
  lookup_col "PRCP" (columns df) = Some sp →
  lookup_col "TMIN" (columns df) = Some smin →
  lookup_col "TAVG" (columns df) = Some savg →
  lookup_col "TMAX" (columns df) = Some smax →
  arithmetic_ok smin = true → arithmetic_ok savg = true → arithmetic_ok smax = true →
  (∀ ds, sd ≠ SDate ds) →
  feature_builder df = Raise AttributeError.
Proof.
  intros HD HP Hmin Havg Hmax Hvmin Hvavg Hvmax Hsd.
  unfold feature_builder, features, engineered, convert_and_filter.
  rewrite (getitems_five df sd sp smin savg smax), bind_Ok by done. frame_eval.
  rewrite !fahrenheit_series, Hvmin, Hvavg, Hvmax. cbn [mbind result_bind].
  destruct sd as [| |ds|]; try done. by destruct (Hsd ds).
Qed.





Lemma missing_column_raises_KeyError_witness :
  ∃ k, k ∈ "DATE" :: climate_vars ∧
       lookup_col k (columns (sample_without "TAVG" 5)) = None ∧
       feature_builder (sample_without "TAVG" 5) = Raise (KeyError k).
Proof.
  apply (missing_column_raises_KeyError (sample_without "TAVG" 5) "TAVG").
  - unfold climate_vars. repeat constructor.
  - reflexivity.
Defined.

Lemma non_numeric_temperature_raises_TypeError_witness :
  feature_builder
    (setitem "DATE" (SObj (replicate 5 (Some "13/32/2013")))
       (sample_with "TMAX" (SObj (replicate 5 (Some "n/a"))) 5))
  = Raise TypeError.
Proof.
  eapply non_numeric_temperature_raises_TypeError; try reflexivity.
  right. right. reflexivity.
Defined.

Lemma unparsed_DATE_raises_AttributeError_witness :
  feature_builder (sample_with "DATE" (SObj (replicate 5 (Some "13/32/2013"))) 5)
  = Raise AttributeError.
Proof.
  eapply unparsed_DATE_raises_AttributeError; try reflexivity.
  intros ds. discriminate.
Defined.


(** ** The columns of the output *)

Lemma feature_columns_SFloat dd p t1 t2 t3 c :
  c ∈ feature_columns dd p t1 t2 t3 → ∃ vs, c.2 = SFloat vs.
Proof.
  unfold feature_columns, lag_block, window_column, calendar_column.
  rewrite !elem_of_app, !list_elem_of_fmap.
  intros [Hc|[Hc|[Hc|[Hc|[Hc|Hc]]]]];
    first [by destruct Hc as (i & -> & _); eexists
          |elem_cases Hc; by eexists].
Qed.

(** X6. Whatever the data, a returned table has the same 149 columns in the
    same order, under names that differ from one another; [DATE] is not
    among them, and every one is a float column. *)
Theorem output_columns_are_fixed (df out : DataFrame) :
  feature_builder df = Ok out →
  map fst (columns out) = feature_names ∧
  length (columns out) = 149 ∧
  NoDup (map fst (columns out)) ∧
  ("DATE" ∉ map fst (columns out)) ∧
  Forall (λ c, ∃ vs, c.2 = SFloat vs) (columns out).
Proof.
  intros Hout. unfold feature_builder in Hout.
  destruct (features df) as [pre|] eqn:Hpre; [|done]. injection Hout as <-.
  destruct (features_Ok_raw_input _ _ Hpre) as (ds & vp & vmin & vavg & vmax & Hraw).
  rewrite (features_closed_form _ _ _ _ _ _ Hraw) in Hpre. injection Hpre as <-.
  rewrite dropna_keep_mask. unfold features_of. cbn [columns boolean_index].
  assert (Hnames : ∀ mask dd p t1 t2 t3,
    map fst (map (λ c : string * Series, (c.1, compress_series mask c.2))
               (feature_columns dd p t1 t2 t3)) = feature_names).
  { intros. rewrite map_map. cbn [fst]. reflexivity. }
  rewrite Hnames. split; [done|]. split; [|split; [|split]].
  - rewrite <- (length_map fst), Hnames. reflexivity.
  - apply (bool_decide_unpack _). by vm_compute.
  - apply (bool_decide_unpack _). by vm_compute.
  - apply Forall_fmap, Forall_forall. intros c Hc. cbn [snd compose].
    apply feature_columns_SFloat in Hc as (vs & ->). by eexists.
Qed.

Lemma output_columns_are_fixed_witness :
  map fst (columns (returned (feature_builder (sample 380)))) = feature_names ∧
  length (columns (returned (feature_builder (sample 380)))) = 149 ∧
  NoDup (map fst (columns (returned (feature_builder (sample 380))))) ∧
  ("DATE" ∉ map fst (columns (returned (feature_builder (sample 380))))) ∧
  Forall (λ c, ∃ vs, c.2 = SFloat vs)
    (columns (returned (feature_builder (sample 380)))).
Proof.
  apply (output_columns_are_fixed (sample 380)). apply sample_feature_builder_returned.
Defined.

(** X7. Line 22: only the labels and the five columns read matter. Two inputs
    that agree on them give the same result, table or error, whatever
    other columns they carry and in whatever order their columns come. *)
Theorem only_the_five_columns_matter (df1 df2 : DataFrame) :
  index df1 = index df2 →
  (∀ name, name ∈ "DATE" :: climate_vars →
     lookup_col name (columns df1) = lookup_col name (columns df2)) →
  feature_builder df1 = feature_builder df2.
Proof.
  intros Hidx Hcols.
  assert (Hsel : getitems ("DATE" :: climate_vars) df1
               = getitems ("DATE" :: climate_vars) df2).
  { unfold getitems, getitem, climate_vars in *. cbn [mapM].
    rewrite Hidx, !Hcols by repeat constructor. done. }
  unfold feature_builder, features, engineered, convert_and_filter.
  by rewrite Hsel.
Qed.

Lemma only_the_five_columns_matter_witness :
  feature_builder (sample 380)
  = feature_builder
      (mkDataFrame (seq 0 380)
         (reverse (sample_table 380) ++ [("SNOW", SFloat (replicate 380 None))])).
Proof.
  apply only_the_five_columns_matter.
  - reflexivity.
  - intros name Hname. unfold climate_vars in Hname. elem_cases Hname; reflexivity.
Defined.

(** ** Which rows survive when values are missing *)

Lemma cell_at_shift_back {A} (k : Z) (l : list (option A)) (z : Z) :
  (0 ≤ k)%Z → (z < Z.of_nat (length l))%Z → cell_at (shift k l) z = cell_at l (z - k).
Proof.
  intros Hk Hz. destruct (decide (0 ≤ z)%Z).
  - by apply cell_at_shift.
  - by rewrite !cell_at_neg by lia.
Qed.

Lemma mean_of_is_Some (a b c d e : cell) :
  is_Some (mean_of [a; b; c; d; e]) ↔
  is_Some a ∧ is_Some b ∧ is_Some c ∧ is_Some d ∧ is_Some e.
Proof.
  split.
  - destruct a, b, c, d, e; intros [x Hx]; try done; repeat split; by eexists.
  - intros (? & ? & ? & ? & ?). by apply mean_of_present.
Qed.

Lemma isna_float_false (vs : list cell) (r : nat) :
  isna (SFloat vs) r = false ↔ is_Some (cell_at vs (Z.of_nat r)).
Proof.
  rewrite isna_float, bool_decide_eq_false.
  destruct (cell_at vs (Z.of_nat r)); split; try done;
    first [by eexists | by intros [? ?]].
Qed.

(** The window mean at row [r] is present exactly when the five rows
    [r-369 .. r-365] are. *)
Lemma window_column_present (v : list cell) (r : nat) :
  r < length v →
  isna (window_column v) r = false ↔
  ∀ k : Z, (365 ≤ k ≤ 369)%Z → is_Some (cell_at v (Z.of_nat r - k)).
Proof.
  intros Hr. unfold window_column.
  rewrite isna_float_false, cell_at_rolling_mean by (rewrite length_shift; lia).
  rewrite mean_of_is_Some, !cell_at_shift_back by lia. split.
  - intros (H4 & H3 & H2 & H1 & H0) k Hk.
    assert (k = 369 ∨ k = 368 ∨ k = 367 ∨ k = 366 ∨ k = 365)%Z
      as [->|[->|[->|[->| ->]]]] by lia.
    + by replace (Z.of_nat r - 369)%Z with (Z.of_nat r - 4 - 365)%Z by lia.
    + by replace (Z.of_nat r - 368)%Z with (Z.of_nat r - 3 - 365)%Z by lia.
    + by replace (Z.of_nat r - 367)%Z with (Z.of_nat r - 2 - 365)%Z by lia.
    + by replace (Z.of_nat r - 366)%Z with (Z.of_nat r - 1 - 365)%Z by lia.
    + done.
  - intros H.
    replace (Z.of_nat r - 4 - 365)%Z with (Z.of_nat r - 369)%Z by lia.
    replace (Z.of_nat r - 3 - 365)%Z with (Z.of_nat r - 368)%Z by lia.
    replace (Z.of_nat r - 2 - 365)%Z with (Z.of_nat r - 367)%Z by lia.
    replace (Z.of_nat r - 1 - 365)%Z with (Z.of_nat r - 366)%Z by lia.
    repeat split; apply H; lia.
Qed.

(** A row of the closed form has no missing value exactly when each of
    the four variables is present on the rows its lags and its window
    reach. *)
Lemma feature_columns_row_complete dd p t1 t2 t3 (n r : nat) :
  length dd = n → length p = n → length t1 = n → length t2 = n → length t3 = n →
  r < n →
  (∀ c, c ∈ feature_columns dd p t1 t2 t3 → isna c.2 r = false) ↔
  (∀ v, v ∈ [p; t1; t2; t3] →
     ∀ k : Z, (-4 ≤ k ≤ 30 ∨ 365 ≤ k ≤ 369)%Z → is_Some (cell_at v (Z.of_nat r - k))).
Proof.
  intros Hdd Hp H1 H2 H3 Hr. split.
  - intros Hall v Hv k Hk.
    assert (Hlen : length v = n) by (elem_cases Hv; done).
    assert (Hcols : (∃ name, (name, SFloat v) ∈ feature_columns dd p t1 t2 t3) ∧
                    (∃ name, (name, window_column v) ∈ feature_columns dd p t1 t2 t3) ∧
                    ∀ i, i ∈ lags → ∃ name,
                      (name, SFloat (shift i v)) ∈ feature_columns dd p t1 t2 t3).
    { assert (∃ var, var ∈ climate_vars ∧
                lookup_col var (feature_columns dd p t1 t2 t3) = Some (SFloat v) ∧
                lookup_col (window_name var) (feature_columns dd p t1 t2 t3)
                  = Some (window_column v) ∧
                ∀ i, i ∈ lags →
                  lookup_col (lag_name var i) (feature_columns dd p t1 t2 t3)
                    = Some (SFloat (shift i v))) as (var & _ & Hc & Hw & Hl).
      { unfold climate_vars. elem_cases Hv;
          [exists "PRCP"|exists "TMIN"|exists "TAVG"|exists "TMAX"];
          (split; [by repeat constructor|]); (do 2 (split; [done|]));
          intros i; vm_compute lags; intros Hi; elem_cases Hi; reflexivity. }
      split; [|split].
      - eexists. by apply lookup_col_elem_of.
      - eexists. by apply lookup_col_elem_of.
      - intros i Hi. eexists. by apply lookup_col_elem_of, Hl. }
    destruct Hcols as ((nv & Hcv) & (nw & Hcw) & Hcl).
    destruct Hk as [Hk|Hk].
    + destruct (decide (k = 0%Z)) as [->|Hne].
      * apply Hall in Hcv. cbn [snd] in Hcv. apply isna_float_false in Hcv.
        by rewrite Z.sub_0_r.
      * destruct (Hcl k) as (nl & Hc); [apply elem_of_lags; lia|].
        apply Hall in Hc. cbn [snd] in Hc. apply isna_float_false in Hc.
        by rewrite cell_at_shift in Hc by lia.
    + apply Hall in Hcw. cbn [snd] in Hcw.
      by eapply window_column_present in Hcw; [|lia|done].
  - intros Hall c.
    assert (Hcol : ∀ v, v ∈ [p; t1; t2; t3] → isna (SFloat v) r = false).
    { intros v Hv. apply isna_float_false.
      specialize (Hall v Hv 0%Z ltac:(lia)). by rewrite Z.sub_0_r in Hall. }
    assert (Hlag : ∀ v i, v ∈ [p; t1; t2; t3] → i ∈ lags →
              isna (SFloat (shift i v)) r = false).
    { intros v i Hv Hi%lags_bounds.
      assert (Hlen : length v = n) by (elem_cases Hv; done).
      apply isna_float_false. rewrite cell_at_shift by lia. apply (Hall v Hv). lia. }
    assert (Hwin : ∀ v, v ∈ [p; t1; t2; t3] → isna (window_column v) r = false).
    { intros v Hv. assert (Hlen : length v = n) by (elem_cases Hv; done).
      apply window_column_present; [lia|]. intros k Hk. apply (Hall v Hv). lia. }
    assert (Hcal : ∀ field, isna (calendar_column field dd) r = false).
    { intros field. unfold calendar_column, int_cells. apply isna_float_false.
      rewrite cell_at_nat, !list_lookup_fmap.
      destruct (lookup_lt_is_Some_2 dd r) as [d ->]; [lia|]. by eexists. }
    unfold feature_columns, lag_block.
    rewrite !elem_of_app, !list_elem_of_fmap.
    intros [Hc|[Hc|[Hc|[Hc|[Hc|Hc]]]]].
    + elem_cases Hc; cbn [snd]; first [apply Hcal | apply Hcol; by repeat constructor].
    + destruct Hc as (i & -> & Hi). cbn [snd]. apply Hlag; [by repeat constructor|done].
    + destruct Hc as (i & -> & Hi). cbn [snd]. apply Hlag; [by repeat constructor|done].
    + destruct Hc as (i & -> & Hi). cbn [snd]. apply Hlag; [by repeat constructor|done].
    + destruct Hc as (i & -> & Hi). cbn [snd]. apply Hlag; [by repeat constructor|done].
    + elem_cases Hc; cbn [snd]; apply Hwin; by repeat constructor.
Qed.

(** X8. A row [r] of the filtered series survives [dropna] exactly when, for
    each of the four variables, the value is present on the rows
    [r-30 .. r+4] (the lags and the row itself) and [r-369 .. r-365] (the
    window). So one missing value at row [q] removes the rows
    [q-4 .. q+30] and [q+365 .. q+369], and nothing else. *)
Theorem row_survives_iff (df pre : DataFrame) (r : nat) :
  wf_frame df → features df = Ok pre → r < length (index pre) →
  keep_mask pre !! r = Some true ↔
  ∀ var vs, var ∈ climate_vars → getitem var pre = Ok (SFloat vs) →
    ∀ k : Z, (-4 ≤ k ≤ 30 ∨ 365 ≤ k ≤ 369)%Z → is_Some (cell_at vs (Z.of_nat r - k)).
Proof.
  intros Hwf Hpre Hr.
  destruct (features_Ok_raw_input _ _ Hpre) as (ds & vp & vmin & vavg & vmax & Hraw).
  rewrite (features_closed_form _ _ _ _ _ _ Hraw) in Hpre. injection Hpre as <-.
  destruct (raw_input_lengths df ds vp vmin vavg vmax Hwf Hraw)
    as (Hds & Hlp & H1 & H2 & H3).
  set (mask := year_mask ds) in *.
  set (n := length (compress mask (index df))).
  assert (Hiff := feature_columns_row_complete (filtered_dates ds) (compress mask vp)
    (compress mask (map (fmap fahrenheit) vmin))
    (compress mask (map (fmap fahrenheit) vavg))
    (compress mask (map (fmap fahrenheit) vmax)) n r).
  rewrite keep_mask_lookup by done.
  assert (Hneg : Some (negb (row_has_na (features_of df ds vp vmin vavg vmax) r))
                   = Some true ↔
                 row_has_na (features_of df ds vp vmin vavg vmax) r = false).
  { destruct (row_has_na _ r); split; by intros. }
  rewrite Hneg, row_has_na_false. unfold features_of at 1. cbn [columns]. fold mask.
  rewrite Hiff; try done.
  2: { rewrite length_filtered_dates. by apply length_compress_eq. }
  2: { by apply length_compress_eq. }
  2-4: apply length_compress_eq; by rewrite length_map.
  clear Hiff Hneg. split.
  - intros Hall var vs Hvar Hget k Hk.
    destruct (feature_columns_lookup (filtered_dates ds) (compress mask vp)
      (compress mask (map (fmap fahrenheit) vmin))
      (compress mask (map (fmap fahrenheit) vavg))
      (compress mask (map (fmap fahrenheit) vmax)) var Hvar) as (v & Hv & Hcol & _).
    unfold getitem, features_of in Hget. cbn [columns] in Hget. fold mask in Hget.
    rewrite Hcol in Hget. injection Hget as <-.
    apply Hall; [|done].
    repeat (apply elem_of_cons in Hv as [[= _ ->]|Hv]; [by repeat constructor|]).
    by apply elem_of_nil in Hv.
  - intros Hall v Hv k Hk.
    assert (∃ var, var ∈ climate_vars ∧
              getitem var (features_of df ds vp vmin vavg vmax) = Ok (SFloat v))
      as (var & Hvar & Hget).
    { unfold climate_vars.
      elem_cases Hv; [exists "PRCP"|exists "TMIN"|exists "TAVG"|exists "TMAX"];
        (split; [by repeat constructor|reflexivity]). }
    by apply (Hall var v).
Qed.

Lemma row_survives_iff_witness :
  keep_mask (returned (features (sample 380))) !! 369 = Some true ↔
  ∀ var vs, var ∈ climate_vars →
    getitem var (returned (features (sample 380))) = Ok (SFloat vs) →
    ∀ k : Z, (-4 ≤ k ≤ 30 ∨ 365 ≤ k ≤ 369)%Z →
      is_Some (cell_at vs (Z.of_nat 369 - k)).
Proof.
  apply (row_survives_iff (sample 380)).
  - apply sample_wf.
  - apply sample_features_returned.
  - vm_compute. lia.
Defined.

(** The sample station with one [TAVG] value missing, at the row labelled
    7 (row 5 of the filtered series): of the rows 369 to 373 that would
    survive, the rows 370 to 373 reach row 5 by their window and go. *)
Example one_missing_value_example :
  index (returned (feature_builder
           (sample_with "TAVG"
              (SFloat (map (λ k, if decide (k = 7%Z) then None
                                 else Some (inject_Z (150 + k)))
                           (seqZ 0 380))) 380))) = [371].
Proof. by vm_compute. Qed.

(** ** How many rows can survive *)

Lemma length_compress_mono {A} (m m' : list bool) (l : list A) :
  Forall2 (λ b b', b = true → b' = true) m m' →
  length (compress m l) ≤ length (compress m' l).
Proof.
  intros H. revert l. induction H as [|b b' m m' Hb _ IH]; intros [|x l]; simpl; try lia.
  specialize (IH l). destruct b; [rewrite Hb by done; simpl; lia|].
  destruct b'; simpl; lia.
Qed.

(** X9. Whatever values are missing, only rows [369 ≤ r], [r + 5 ≤ n] of the
    [n] rows from 2013 on can survive: the output has at most [n - 373]
    rows, and none when fewer than 374 rows are dated 2013 or later. *)
Theorem output_has_at_most_n_minus_373_rows (df pre out : DataFrame) :
  wf_frame df → features df = Ok pre → feature_builder df = Ok out →
  (∀ r, keep_mask pre !! r = Some true → 369 ≤ r ∧ r + 5 ≤ length (index pre)) ∧
  length (index out) ≤ length (index pre) - 373 ∧
  (length (index pre) < 374 → index out = [] ∧ Forall (λ c, c.2 = SFloat []) (columns out)).
Proof.
  intros Hwf Hpre Hout. unfold feature_builder in Hout. rewrite Hpre in Hout.
  injection Hout as <-.
  destruct (features_Ok_raw_input _ _ Hpre) as (ds & vp & vmin & vavg & vmax & Hraw).
  rewrite (features_closed_form _ _ _ _ _ _ Hraw) in Hpre. injection Hpre as <-.
  set (pre := features_of df ds vp vmin vavg vmax). set (n := length (index pre)).
  assert (Hkept : ∀ r, keep_mask pre !! r = Some true → 369 ≤ r ∧ r + 5 ≤ n).
  { intros r [Hr Hna]%keep_mask_true. fold n in Hr.
    destruct (decide (r < 369)) as [Hlo|Hlo].
    { by rewrite (first_369_rows_have_na df ds vp vmin vavg vmax Hwf Hraw) in Hna. }
    destruct (decide (n - 4 ≤ r)) as [Hhi|Hhi].
    { by rewrite (last_4_rows_have_na df ds vp vmin vavg vmax Hwf Hraw) in Hna. }
    lia. }
  assert (Hlen : length (index (dropna pre)) ≤ n - 373).
  { rewrite dropna_keep_mask. cbn [index boolean_index].
    etrans; [apply (length_compress_mono _
                      (map (λ r, (369 <=? r) && (r <? n - 4)) (seq 0 n)))|].
    - apply Forall2_same_length_lookup_2.
      + by rewrite length_keep_mask, length_map, length_seq.
      + intros r b b' Hb Hb' ->. apply Hkept in Hb as [Hlo Hhi].
        rewrite list_lookup_fmap, lookup_seq_lt in Hb' by lia.
        cbn [fmap option_fmap option_map] in Hb'.
        change (0 + r) with r in Hb'. revert Hb'.
        destruct (Nat.leb_spec 369 r); [|lia].
        destruct (Nat.ltb_spec r (n - 4)); [|lia]. by intros [= <-].
    - unfold n. rewrite compress_interval, length_take, length_drop. lia. }
  split; [done|]. split; [done|]. intros Hn.
  assert (Hnil : index (dropna pre) = []).
  { apply length_zero_iff_nil. lia. }
  split; [done|].
  apply Forall_forall. intros c Hc.
  destruct (dropna_features_complete df ds vp vmin vavg vmax Hwf Hraw c Hc)
    as (vs & -> & Hvs & _).
  fold pre in Hvs. rewrite Hnil in Hvs. by destruct vs.
Qed.

Lemma output_has_at_most_n_minus_373_rows_witness :
  (∀ r, keep_mask (returned (features (sample 380))) !! r = Some true →
     369 ≤ r ∧ r + 5 ≤ length (index (returned (features (sample 380))))) ∧
  length (index (returned (feature_builder (sample 380))))
    ≤ length (index (returned (features (sample 380)))) - 373 ∧
  (length (index (returned (features (sample 380)))) < 374 →
   index (returned (feature_builder (sample 380))) = [] ∧
   Forall (λ c, c.2 = SFloat []) (columns (returned (feature_builder (sample 380))))).
Proof.
  apply (output_has_at_most_n_minus_373_rows (sample 380)).
  - apply sample_wf.
  - apply sample_features_returned.
  - apply sample_feature_builder_returned.
Defined.

(** ** The calendar columns *)

Lemma valid_date_bounds d :
  valid_date d = true →
  (1 ≤ month d ≤ 12 ∧ 1 ≤ day d ≤ days_in_month (year d) (month d))%Z.
Proof.
  unfold valid_date. rewrite !andb_true_iff, !Z.leb_le. tauto.
Qed.

Lemma dayofyear_range d :
  valid_date d = true → (1 ≤ dayofyear d ≤ year_length (year d))%Z.
Proof.
  intros [Hm Hd]%valid_date_bounds. unfold dayofyear, year_length.
  destruct d as [y m dy]. simpl in *.
  assert (m = 1 ∨ m = 2 ∨ m = 3 ∨ m = 4 ∨ m = 5 ∨ m = 6 ∨ m = 7 ∨ m = 8 ∨ m = 9
          ∨ m = 10 ∨ m = 11 ∨ m = 12)%Z as Hcases by lia.
  unfold days_before_month, days_in_month in *.
  repeat (destruct Hcases as [->|Hcases]); [..|subst m];
    destruct (is_leap y);
    match goal with |- context [foldr ?f ?a ?l] =>
      let s := fresh in set (s := foldr f a l); vm_compute in s; subst s end;
    lia.
Qed.

Lemma days_before_year_succ y :
  (days_before_year (y + 1) = days_before_year y + year_length y)%Z.
Proof.
  unfold days_before_year, year_length, is_leap.
  replace (y + 1 - 1)%Z with y by lia.
  destruct (Z.eqb_spec (y mod 4) 0); destruct (Z.eqb_spec (y mod 100) 0);
    destruct (Z.eqb_spec (y mod 400) 0); simpl;
    Z.to_euclidean_division_equations; lia.
Qed.

Lemma isoweek1monday_spec y :
  (∃ q, isoweek1monday y = 7 * q + 1 ∧
        days_before_year y - 2 ≤ isoweek1monday y ≤ days_before_year y + 4)%Z.
Proof.
  unfold isoweek1monday, ymd2ord. change (days_before_month y 1) with 0%Z.
  set (fd := (days_before_year y + 0 + 1)%Z).
  assert (Hfd : fd = (days_before_year y + 1)%Z) by (unfold fd; lia).
  clearbody fd.
  destruct (Z.ltb_spec 3 ((fd + 6) mod 7)).
  - exists ((fd - (fd + 6) mod 7 + 7 - 1) / 7)%Z.
    Z.to_euclidean_division_equations; lia.
  - exists ((fd - (fd + 6) mod 7 - 1) / 7)%Z.
    Z.to_euclidean_division_equations; lia.
Qed.

Lemma ymd2ord_range d :
  valid_date d = true →
  (days_before_year (year d) + 1 ≤ ymd2ord (year d) (month d) (day d)
   ≤ days_before_year (year d) + year_length (year d))%Z.
Proof.
  intros Hd%dayofyear_range. unfold ymd2ord, dayofyear in *. lia.
Qed.

Lemma isoweek_range d : valid_date d = true → (1 ≤ isoweek d ≤ 53)%Z.
Proof.
  intros Hd. pose proof (ymd2ord_range d Hd) as Htoday.
  unfold isoweek. set (today := ymd2ord (year d) (month d) (day d)) in *.
  clearbody today.
  destruct (isoweek1monday_spec (year d)) as (q & Hq & Hw).
  destruct (isoweek1monday_spec (year d - 1)) as (q0 & Hq0 & Hw0).
  destruct (isoweek1monday_spec (year d + 1)) as (q1 & Hq1 & Hw1).
  pose proof (days_before_year_succ (year d)) as Hs.
  pose proof (days_before_year_succ (year d - 1)) as Hs0.
  replace (year d - 1 + 1)%Z with (year d) in Hs0 by lia.
  assert (Hyl : (365 ≤ year_length (year d) ≤ 366)%Z)
    by (unfold year_length; destruct (is_leap _); lia).
  assert (Hyl0 : (365 ≤ year_length (year d - 1) ≤ 366)%Z)
    by (unfold year_length; destruct (is_leap _); lia).
  destruct (Z.ltb_spec ((today - isoweek1monday (year d)) / 7) 0).
  - Z.to_euclidean_division_equations; lia.
  - destruct (Z.leb_spec 52 ((today - isoweek1monday (year d)) / 7));
      destruct (Z.leb_spec (isoweek1monday (year d + 1)) today); cbn [andb];
      Z.to_euclidean_division_equations; lia.
Qed.

(** X10. The calendar columns of an output row are computed from the date of
    the input row it comes from: [YEAR], [DAY_OF_YEAR] and [WEEK_OF_YEAR]
    (like [MONTH] and [SEASON]) are the fields of the dates [dd] of the
    surviving rows, one date per output row, each the date of an input
    row with the same label. Every [YEAR] is 2013 or later; for a calendar
    date the day of the year is from 1 to 365 (366 in a leap year) and the
    ISO week from 1 to 53. *)
Theorem calendar_columns_of_output (df out : DataFrame) :
  wf_frame df → feature_builder df = Ok out →
  ∃ ds dd,
    lookup_col "DATE" (columns df) = Some (SDate ds) ∧
    length dd = length (index out) ∧
    (∀ j k d, index out !! j = Some k → dd !! j = Some d →
       ∃ q, index df !! q = Some k ∧ ds !! q = Some (Some d)) ∧
    getitem "YEAR" out = Ok (SFloat (map (λ d, Some (inject_Z (year d))) dd)) ∧
    getitem "DAY_OF_YEAR" out
      = Ok (SFloat (map (λ d, Some (inject_Z (dayofyear d))) dd)) ∧
    getitem "WEEK_OF_YEAR" out
      = Ok (SFloat (map (λ d, Some (inject_Z (isoweek d))) dd)) ∧
    Forall (λ d, (2013 ≤ year d)%Z) dd ∧
    (∀ d, d ∈ dd → valid_date d = true →
       (1 ≤ dayofyear d ≤ if is_leap (year d) then 366 else 365)%Z ∧
       (1 ≤ isoweek d ≤ 53)%Z).
Proof.
  intros Hwf Hout. unfold feature_builder in Hout.
  destruct (features df) as [pre|] eqn:Hpre; [|done]. injection Hout as <-.
  destruct (features_Ok_raw_input _ _ Hpre) as (ds & vp & vmin & vavg & vmax & Hraw).
  rewrite (features_closed_form _ _ _ _ _ _ Hraw) in Hpre. injection Hpre as <-.
  destruct (raw_input_lengths df ds vp vmin vavg vmax Hwf Hraw) as (Hds & _).
  set (pre := features_of df ds vp vmin vavg vmax).
  exists ds, (compress (keep_mask pre) (filtered_dates ds)).
  assert (Hcal : ∀ name field,
    getitem name pre = Ok (calendar_column field (filtered_dates ds)) →
    getitem name (dropna pre)
      = Ok (SFloat (map (λ d, Some (inject_Z (field d)))
                      (compress (keep_mask pre) (filtered_dates ds))))).
  { intros name field Hget.
    rewrite dropna_keep_mask, getitem_boolean_index, Hget.
    cbn [fmap result_fmap]. rewrite compress_calendar_column.
    unfold calendar_column, int_cells. by rewrite map_map. }
  split; [apply Hraw|]. split; [|split; [|split; [|split; [|split; [|split]]]]].
  - rewrite dropna_keep_mask. cbn [index boolean_index]. apply length_compress_eq.
    unfold pre, features_of. cbn [index].
    rewrite length_filtered_dates. by apply length_compress_eq.
  - intros j k d Hk Hd. rewrite dropna_keep_mask in Hk. cbn [index boolean_index] in Hk.
    pose proof (compress_row _ _ _ _ _ _ Hk Hd) as Hrow.
    apply list_elem_of_lookup in Hrow as (j' & Hj').
    apply lookup_zip_with_Some in Hj' as (k' & d' & [= <- <-] & Hk' & Hd').
    unfold pre, features_of in Hk'. cbn [index] in Hk'.
    assert (Hd'' : compress (year_mask ds) ds !! j' = Some (Some d))
      by by rewrite year_mask_filtered, list_lookup_fmap, Hd'.
    pose proof (compress_row _ _ _ _ _ _ Hk' Hd'') as Hrow.
    apply list_elem_of_lookup in Hrow as (q & Hq).
    apply lookup_zip_with_Some in Hq as (k' & d'' & [= <- <-] & ? & ?). eauto.
  - by apply Hcal.
  - by apply Hcal.
  - by apply Hcal.
  - apply Forall_forall. intros d (j & _ & Hd)%elem_of_compress.
    assert (Hin : Some d ∈ compress (year_mask ds) ds).
    { rewrite year_mask_filtered. apply list_elem_of_fmap. exists d. split; [done|].
      by eapply list_elem_of_lookup_2. }
    apply elem_of_compress in Hin as (q & Hq & Hdq).
    apply year_mask_true in Hq as (d' & Hd' & Hy). congruence.
  - intros d _ Hd. split.
    + pose proof (dayofyear_range d Hd) as H. by unfold year_length in H.
    + by apply isoweek_range.
Qed.

Lemma calendar_columns_of_output_witness :
  ∃ ds dd,
    lookup_col "DATE" (columns (sample 380)) = Some (SDate ds) ∧
    length dd = length (index (returned (feature_builder (sample 380)))) ∧
    (∀ j k d, index (returned (feature_builder (sample 380))) !! j = Some k →
       dd !! j = Some d →
       ∃ q, index (sample 380) !! q = Some k ∧ ds !! q = Some (Some d)) ∧
    getitem "YEAR" (returned (feature_builder (sample 380)))
      = Ok (SFloat (map (λ d, Some (inject_Z (year d))) dd)) ∧
    getitem "DAY_OF_YEAR" (returned (feature_builder (sample 380)))
      = Ok (SFloat (map (λ d, Some (inject_Z (dayofyear d))) dd)) ∧
    getitem "WEEK_OF_YEAR" (returned (feature_builder (sample 380)))
      = Ok (SFloat (map (λ d, Some (inject_Z (isoweek d))) dd)) ∧
    Forall (λ d, (2013 ≤ year d)%Z) dd ∧
    (∀ d, d ∈ dd → valid_date d = true →
       (1 ≤ dayofyear d ≤ if is_leap (year d) then 366 else 365)%Z ∧
       (1 ≤ isoweek d ≤ 53)%Z).
Proof.
  apply (calendar_columns_of_output (sample 380)).
  - apply sample_wf.
  - apply sample_feature_builder_returned.
Defined.

(** Dates whose calendar fields are known: New Year's Day 2013 is a
    Tuesday of ISO week 1; 2016-01-01 falls in week 53 of 2015; the last
    day of the leap year 2016 is day 366. *)
Example calendar_examples :
  isoweek (mkdate 2013 1 1) = 1%Z ∧ isoweek (mkdate 2016 1 1) = 53%Z ∧
  isoweek (mkdate 2012 12 31) = 1%Z ∧ isoweek (mkdate 2021 1 3) = 53%Z ∧
  dayofyear (mkdate 2016 12 31) = 366%Z ∧ dayofyear (mkdate 2013 3 1) = 60%Z.
Proof. by vm_compute. Qed.

(** * Properties of the script *)

(** ** Strings and paths *)

Lemma app_cons (c : Ascii.ascii) (s t : string) : String c s +:+ t = String c (s +:+ t).
Proof. reflexivity. Qed.

Lemma app_empty_l (t : string) : "" +:+ t = t.
Proof. reflexivity. Qed.

Lemma app_empty_r (s : string) : s +:+ "" = s.
Proof. induction s as [|c s IH]; [done|]. by rewrite app_cons, IH. Qed.

Lemma app_assoc_string (s t u : string) : (s +:+ t) +:+ u = s +:+ t +:+ u.
Proof.
  induction s as [|c s IH]; [done|].
  by rewrite (app_cons c s), (app_cons c (s +:+ t)), (app_cons c s), IH.
Qed.

Lemma length_app_string (s t : string) :
  String.length (s +:+ t) = String.length s + String.length t.
Proof. induction s as [|c s IH]; [done|]. rewrite app_cons. simpl. by rewrite IH. Qed.

Lemma contains_cons (sub : string) (c : Ascii.ascii) (s : string) :
  contains sub (String c s) = starts_with sub (String c s) || contains sub s.
Proof. reflexivity. Qed.

Lemma slash_cons (c : Ascii.ascii) (s : string) :
  contains "/" (String c s) = Ascii.eqb c "/"%char || contains "/" s.
Proof.
  rewrite contains_cons. cbn [starts_with].
  rewrite Ascii.eqb_sym. by rewrite andb_true_r.
Qed.

Lemma slash_app (s t : string) :
  contains "/" (s +:+ t) = contains "/" s || contains "/" t.
Proof.
  induction s as [|c s IH].
  - rewrite app_empty_l. by destruct t.
  - rewrite app_cons, !slash_cons, IH. by rewrite orb_assoc.
Qed.

Lemma no_slash_not_absolute (s : string) :
  contains "/" s = false → starts_with "/" s = false.
Proof. destruct s; [done|]. rewrite contains_cons. by intros [? _]%orb_false_elim. Qed.

(** A string that holds a string holds it between two others. *)
Lemma starts_with_spec (p s : string) :
  starts_with p s = true ↔ ∃ b, s = p +:+ b.
Proof.
  revert s. induction p as [|a p IH]; intros s.
  - split; [by exists s|done].
  - destruct s as [|c s]; cbn [starts_with].
    + split; [done|]. by intros [b Hb].
    + rewrite andb_true_iff, IH. split.
      * intros [->%Ascii.eqb_eq [b ->]]. by exists b.
      * intros [b Hb]. rewrite app_cons in Hb. simplify_eq.
        split; [apply Ascii.eqb_refl|by eexists].
Qed.

Lemma contains_spec (sub s : string) :
  contains sub s = true ↔ ∃ a b, s = a +:+ sub +:+ b.
Proof.
  induction s as [|c s IH].
  - cbn [contains]. rewrite orb_false_r, starts_with_spec. split.
    + intros [b ->]. by exists "", b.
    + intros (a & b & H). destruct a; [by exists b|done].
  - rewrite contains_cons, orb_true_iff, starts_with_spec, IH. split.
    + intros [[b ->]|(a & b & ->)]; [by exists "", b|by exists (String c a), b].
    + intros (a & b & H). destruct a as [|c' a].
      * left. by exists b.
      * right. rewrite app_cons in H. simplify_eq. by exists a, b.
Qed.

Lemma ends_with_slash_app (s t : string) :
  t ≠ "" → ends_with_slash (s +:+ t) = ends_with_slash t.
Proof.
  intros Ht. induction s as [|c s IH]; [done|].
  rewrite app_cons. cbn [ends_with_slash]. rewrite IH.
  destruct (s +:+ t) eqn:E; [|done].
  destruct s, t; done.
Qed.

Lemma rstrip_slash_id (s : string) :
  s ≠ "" → ends_with_slash s = false → rstrip_slash s = s ∧ rstrip_slash s ≠ "".
Proof.
  induction s as [|c s IH]; [done|]. intros _ H.
  cbn [rstrip_slash]. destruct s as [|c' s].
  - cbn [ends_with_slash] in H. cbn [rstrip_slash]. by rewrite H.
  - destruct IH as [-> IH]; [done|exact H|].
    rewrite bool_decide_eq_false_2 by done. by rewrite andb_false_r.
Qed.

Lemma rstrip_slash_app_slash (s : string) :
  rstrip_slash (s +:+ "/") = rstrip_slash s.
Proof.
  induction s as [|c s IH]; [done|].
  rewrite app_cons. cbn [rstrip_slash]. by rewrite IH.
Qed.

Lemma up_to_last_slash_app (s t : string) :
  contains "/" t = false → up_to_last_slash (s +:+ "/" +:+ t) = s +:+ "/".
Proof.
  intros Ht. induction s as [|c s IH].
  - rewrite !app_empty_l. change ("/" +:+ t) with (String "/" t).
    cbn [up_to_last_slash]. by rewrite Ht.
  - rewrite (app_cons c s), (app_cons c s "/"). cbn [up_to_last_slash].
    rewrite IH, slash_app. change ("/" +:+ t) with (String "/" t).
    rewrite slash_cons. by rewrite orb_true_r.
Qed.

Lemma basename_app (s t : string) :
  contains "/" t = false → basename (s +:+ "/" +:+ t) = t.
Proof.
  intros Ht. induction s as [|c s IH].
  - rewrite !app_empty_l. change ("/" +:+ t) with (String "/" t).
    cbn [basename]. by rewrite Ht.
  - rewrite (app_cons c s). cbn [basename].
    rewrite IH, slash_app. change ("/" +:+ t) with (String "/" t).
    rewrite slash_cons. by rewrite orb_true_r.
Qed.

Lemma basename_no_slash (t : string) : contains "/" t = false → basename t = t.
Proof.
  destruct t as [|c t]; [done|]. rewrite slash_cons. intros [H1 H2]%orb_false_elim.
  cbn [basename]. by rewrite H1, H2.
Qed.

Lemma dirname_app (s t : string) :
  s ≠ "" → ends_with_slash s = false → contains "/" t = false →
  dirname (s +:+ "/" +:+ t) = s.
Proof.
  intros Hs He Ht. unfold dirname.
  rewrite up_to_last_slash_app, rstrip_slash_app_slash by done.
  destruct (rstrip_slash_id s Hs He) as [-> ?].
  by rewrite bool_decide_eq_false_2.
Qed.

Lemma length_split_path (p : string) :
  String.length (up_to_last_slash p) + String.length (basename p) = String.length p.
Proof.
  induction p as [|c p IH]; [done|].
  cbn [up_to_last_slash basename]. destruct (contains "/" p).
  - simpl. by rewrite IH.
  - destruct (Ascii.eqb c "/"); simpl; lia.
Qed.

Lemma length_rstrip_slash (s : string) :
  String.length (rstrip_slash s) ≤ String.length s.
Proof.
  induction s as [|c s IH]; [done|]. cbn [rstrip_slash].
  destruct (_ && _); simpl; lia.
Qed.

Lemma length_dirname (p : string) :
  String.length (dirname p) + String.length (basename p) ≤ String.length p.
Proof.
  pose proof (length_split_path p). pose proof (length_rstrip_slash (up_to_last_slash p)).
  unfold dirname. case_bool_decide; lia.
Qed.

Lemma ends_with_slash_spec (s : string) :
  ends_with_slash s = true → ∃ a, s = a +:+ "/".
Proof.
  induction s as [|c s IH]; [done|]. destruct s as [|c' s].
  - cbn [ends_with_slash]. intros ->%Ascii.eqb_eq. by exists "".
  - intros H. destruct IH as [a ->]; [exact H|]. by exists (String c a).
Qed.

(** Both directories are named from the directory of the script. *)
Lemma paths_shape (here : string) :
  ∃ P, (P = "" ∨ ∃ a, P = a +:+ "/") ∧
    noaa_data_path here = P +:+ "raw_data/noaa/to_csv" ∧
    out_path here = P +:+ "processed_data".
Proof.
  unfold noaa_data_path, out_path, path_join. cbn [starts_with Ascii.eqb Bool.eqb andb].
  case_bool_decide as Hh; cbn [orb].
  - exists here. by auto.
  - destruct (ends_with_slash here) eqn:E.
    + exists here. split; [|done]. right. by apply ends_with_slash_spec.
    + exists (here +:+ "/"). rewrite !app_assoc_string. split; [|done]. right. by eexists.
Qed.

Lemma out_path_no_trailing_slash (here : string) :
  out_path here ≠ "" ∧ ends_with_slash (out_path here) = false.
Proof.
  destruct (paths_shape here) as (P & _ & _ & ->). split.
  - intros H%(f_equal String.length). rewrite length_app_string in H.
    simpl in H. lia.
  - by rewrite ends_with_slash_app.
Qed.

Lemma noaa_data_path_no_trailing_slash (here : string) :
  noaa_data_path here ≠ "" ∧ ends_with_slash (noaa_data_path here) = false.
Proof.
  destruct (paths_shape here) as (P & _ & -> & _). split.
  - intros H%(f_equal String.length). rewrite length_app_string in H.
    simpl in H. lia.
  - by rewrite ends_with_slash_app.
Qed.

Lemma basename_out_path (here : string) : basename (out_path here) = "processed_data".
Proof.
  destruct (paths_shape here) as (P & [->|[a ->]] & _ & ->); [done|].
  rewrite app_assoc_string. by apply basename_app.
Qed.

Lemma dirname_output (here file : string) :
  contains "/" file = false → dirname (out_path here +:+ "/" +:+ file) = out_path here.
Proof.
  intros. destruct (out_path_no_trailing_slash here). by apply dirname_app.
Qed.

Lemma input_path (here file : string) :
  contains "/" file = false →
  path_join (noaa_data_path here) file = noaa_data_path here +:+ "/" +:+ file.
Proof.
  intros H%no_slash_not_absolute. destruct (noaa_data_path_no_trailing_slash here) as [? E].
  unfold path_join. rewrite H, E. by rewrite bool_decide_eq_false_2.
Qed.

Lemma output_path_inj (here f g : string) :
  out_path here +:+ "/" +:+ f = out_path here +:+ "/" +:+ g → f = g.
Proof. by intros ?%String.app_inj%String.app_inj. Qed.

Lemma output_is_not_out_path (here file : string) :
  out_path here +:+ "/" +:+ file ≠ out_path here.
Proof.
  intros H%(f_equal String.length). rewrite length_app_string in H.
  change ("/" +:+ file) with (String "/" file) in H. simpl in H. lia.
Qed.

(** No input is one of the written files. *)
Lemma input_is_not_output (here f g : string) :
  contains "/" f = false →
  path_join (noaa_data_path here) f ≠ out_path here +:+ "/" +:+ g.
Proof.
  intros Hf. rewrite input_path by done.
  destruct (paths_shape here) as (P & _ & -> & ->).
  rewrite !app_assoc_string. by intros ?%String.app_inj.
Qed.

(** ** The function in the file system *)

Lemma function_keeps_files (path : string) (fs : filesystem) :
  (feature_engineering_noaa_climate_data path fs).2 = fs.
Proof.
  unfold feature_engineering_noaa_climate_data, read_csv.
  destruct (fs !! path); [|done]. by destruct (forallb _ _).
Qed.

Lemma function_reads_one_file (path : string) (fs fs' : filesystem) :
  fs !! path = fs' !! path →
  (feature_engineering_noaa_climate_data path fs).1
  = (feature_engineering_noaa_climate_data path fs').1.
Proof.
  intros H. unfold feature_engineering_noaa_climate_data, read_csv. rewrite <- H.
  destruct (fs !! path); [|done]. by destruct (forallb _ _).
Qed.

Lemma world_eta (w : world) : mkworld (dirs w) (files w) = w.
Proof. by destruct w. Qed.

Section script_properties.
Variable here : string.

Local Abbreviation output file := (out_path here +:+ "/" +:+ file).

Lemma process_file_skip (file : string) (w : world) :
  contains "stations" file = true → process_file here file w = (Returned (), w).
Proof. unfold process_file. by intros ->. Qed.

Lemma process_file_eq (file : string) (w : world) :
  contains "stations" file = false →
  process_file here file w =
    match engineered_file here (files w) file with
    | Ok df => to_csv (output file) df w
    | Raise e => (Raised (Pandas e), w)
    end.
Proof.
  unfold process_file, engineered_file. intros ->. cbn [negb].
  pose proof (function_keeps_files (path_join (noaa_data_path here) file) (files w)) as H.
  destruct (feature_engineering_noaa_climate_data _ _) as [[df|e] fs];
    cbn [fst snd] in *; subst fs; by rewrite world_eta.
Qed.

Lemma to_csv_dirs (path : string) (df : DataFrame) (w : world) :
  dirs (to_csv path df w).2 = dirs w.
Proof. unfold to_csv. by destruct (_ && _). Qed.

Lemma to_csv_other_files (path p : string) (df : DataFrame) (w : world) :
  p ≠ path → files (to_csv path df w).2 !! p = files w !! p.
Proof.
  intros. unfold to_csv. destruct (_ && _); [|done].
  cbn [snd files]. by rewrite lookup_insert_ne.
Qed.

Lemma to_csv_Returned (path : string) (df : DataFrame) (w w' : world) :
  to_csv path df w = (Returned (), w') ↔
    parent_is_dir path w = true ∧ (path ∉ dirs w) ∧
    w' = mkworld (dirs w) (<[path := columns df]> (files w)).
Proof.
  unfold to_csv. destruct (parent_is_dir path w); cbn [andb].
  - case_bool_decide; cbn [negb].
    + split; [done|]. by intros (_ & ? & _).
    + split; [by intros [= <-]|by intros (_ & _ & ->)].
  - split; [done|]. by intros (? & _).
Qed.

Lemma process_file_dirs (file : string) (w : world) :
  dirs (process_file here file w).2 = dirs w.
Proof.
  destruct (contains "stations" file) eqn:E.
  - by rewrite process_file_skip.
  - rewrite process_file_eq by done.
    destruct (engineered_file _ _ _); [apply to_csv_dirs|done].
Qed.

Lemma process_file_other_files (file p : string) (w : world) :
  (contains "stations" file = false → p ≠ output file) →
  files (process_file here file w).2 !! p = files w !! p.
Proof.
  intros Hp. destruct (contains "stations" file) eqn:E.
  - by rewrite process_file_skip.
  - rewrite process_file_eq by done.
    destruct (engineered_file _ _ _); [|done]. apply to_csv_other_files; auto.
Qed.

Lemma elem_of_climate_files (file : string) (noaa_files : list string) :
  file ∈ climate_files noaa_files ↔ contains "stations" file = false ∧ file ∈ noaa_files.
Proof. unfold climate_files. by rewrite list_elem_of_filter. Qed.

Lemma climate_files_cons_skip (file : string) (rest : list string) :
  contains "stations" file = true → climate_files (file :: rest) = climate_files rest.
Proof. intros H. apply filter_cons_False. by rewrite H. Qed.

Lemma climate_files_cons (file : string) (rest : list string) :
  contains "stations" file = false →
  climate_files (file :: rest) = file :: climate_files rest.
Proof. intros H. by apply filter_cons_True. Qed.

Lemma for_files_dirs (noaa_files : list string) (w : world) :
  dirs (for_files here noaa_files w).2 = dirs w.
Proof.
  revert w. induction noaa_files as [|file rest IH]; intros w; [done|].
  cbn [for_files]. pose proof (process_file_dirs file w) as H.
  destruct (process_file here file w) as [[[]|e] w1]; cbn [snd] in *; [|done].
  by rewrite IH.
Qed.

Lemma for_files_other_files (noaa_files : list string) (w : world) (p : string) :
  (∀ file, file ∈ climate_files noaa_files → p ≠ output file) →
  files (for_files here noaa_files w).2 !! p = files w !! p.
Proof.
  revert w. induction noaa_files as [|file rest IH]; intros w Hp; [done|].
  cbn [for_files]. pose proof (process_file_other_files file p w) as H.
  rewrite <- H.
  - destruct (process_file here file w) as [[[]|e] w1]; cbn [snd] in *; [|done].
    apply IH. intros g Hg. apply Hp. apply elem_of_climate_files in Hg as [? ?].
    apply elem_of_climate_files. split; [done|]. by apply list_elem_of_further.
  - intros E. apply Hp. rewrite climate_files_cons by done. apply list_elem_of_here.
Qed.

Lemma for_files_app (l1 l2 : list string) (w : world) :
  for_files here (l1 ++ l2) w =
    match for_files here l1 w with
    | (Returned _, w') => for_files here l2 w'
    | (Raised e, w') => (Raised e, w')
    end.
Proof.
  revert w. induction l1 as [|file rest IH]; intros w; [done|].
  cbn [for_files app]. destruct (process_file here file w) as [[[]|e] w1]; [apply IH|done].
Qed.

(** The function sees the same input before and after the loop. *)
Lemma engineered_file_other (fs fs' : filesystem) (file : string) :
  contains "/" file = false →
  (∀ p, (∀ g, p ≠ output g) → fs' !! p = fs !! p) →
  engineered_file here fs' file = engineered_file here fs file.
Proof.
  intros Hf H. apply function_reads_one_file, H. intros g. by apply input_is_not_output.
Qed.

Lemma for_files_engineered (noaa_files : list string) (w : world) (file : string) :
  contains "/" file = false →
  engineered_file here (files (for_files here noaa_files w).2) file
  = engineered_file here (files w) file.
Proof.
  intros Hf. apply engineered_file_other; [done|]. intros p Hp.
  apply for_files_other_files. auto.
Qed.

Lemma parent_is_dir_dirs (path : string) (w w' : world) :
  dirs w' = dirs w → parent_is_dir path w' = parent_is_dir path w.
Proof. unfold parent_is_dir. by intros ->. Qed.

(** What a loop that returned has done for each file it did not skip. *)
Lemma for_files_Returned_inv (noaa_files : list string) (w w' : world) :
  Forall (λ file, contains "/" file = false) noaa_files →
  for_files here noaa_files w = (Returned (), w') →
  ∀ file, file ∈ climate_files noaa_files →
    ∃ df, engineered_file here (files w) file = Ok df ∧
      files w' !! output file = Some (columns df) ∧
      parent_is_dir (output file) w = true ∧ (output file) ∉ dirs w.
Proof.
  revert w. induction noaa_files as [|f0 rest IH]; intros w Hl Hrun file Hfile.
  { by apply elem_of_nil in Hfile. }
  apply Forall_cons in Hl as [Hf0 Hrest]. cbn [for_files] in Hrun.
  destruct (contains "stations" f0) eqn:Es.
  { rewrite process_file_skip in Hrun by done.
    rewrite climate_files_cons_skip in Hfile by done. by apply (IH w). }
  rewrite process_file_eq in Hrun by done.
  rewrite climate_files_cons in Hfile by done.
  destruct (engineered_file here (files w) f0) as [df0|e] eqn:E0; [|done].
  destruct (to_csv (output f0) df0 w) as [[[]|e] w1] eqn:Ew; [|done].
  apply to_csv_Returned in Ew as (Hp0 & Hd0 & ->).
  destruct (decide (file ∈ climate_files rest)) as [Hin|Hnin].
  - destruct (IH _ Hrest Hrun file Hin) as (df & E & Hw' & Hp & Hd).
    exists df. split_and!; try done.
    rewrite <- E. symmetry. apply engineered_file_other.
    + apply elem_of_climate_files in Hin as [_ Hin].
      by apply (proj1 (Forall_forall _ _) Hrest).
    + intros p Hp'. cbn [files]. by apply lookup_insert_ne.
  - apply elem_of_cons in Hfile as [->|?]; [|done].
    exists df0. split_and!; try done.
    replace w' with (for_files here rest
      (mkworld (dirs w) (<[output f0 := columns df0]> (files w)))).2 by by rewrite Hrun.
    rewrite for_files_other_files.
    + cbn [files]. apply lookup_insert_eq.
    + intros g Hg Heq. apply output_path_inj in Heq. by subst g.
Qed.

(** When every file can be engineered and written, the loop returns. *)
Lemma for_files_returns (noaa_files : list string) (w : world) :
  Forall (λ file, contains "/" file = false) noaa_files →
  out_path here ∈ dirs w →
  (∀ file, file ∈ climate_files noaa_files →
    (∃ df, engineered_file here (files w) file = Ok df) ∧ (output file) ∉ dirs w) →
  ∃ w', for_files here noaa_files w = (Returned (), w').
Proof.
  revert w. induction noaa_files as [|f0 rest IH]; intros w Hl Hout Hall.
  { by eexists. }
  apply Forall_cons in Hl as [Hf0 Hrest]. cbn [for_files].
  destruct (contains "stations" f0) eqn:Es.
  { rewrite process_file_skip by done. apply IH; [done..|].
    intros file Hfile. apply Hall. by rewrite climate_files_cons_skip. }
  rewrite process_file_eq by done.
  destruct (Hall f0) as [[df0 E0] Hd0].
  { rewrite climate_files_cons by done. apply list_elem_of_here. }
  rewrite E0.
  destruct (to_csv (output f0) df0 w) as [r w1] eqn:Ew.
  assert (to_csv (output f0) df0 w
    = (Returned (), mkworld (dirs w) (<[output f0 := columns df0]> (files w)))) as Ew'.
  { apply to_csv_Returned. split_and!; [|done..]. unfold parent_is_dir.
    rewrite dirname_output by done. rewrite (bool_decide_eq_true_2 (_ ∈ _)) by done.
    apply orb_true_r. }
  rewrite Ew' in Ew. injection Ew as <- <-.
  apply IH; [done..|]. intros file Hfile. cbn [dirs files].
  destruct (Hall file) as [[df E] Hd].
  { rewrite climate_files_cons by done. by apply list_elem_of_further. }
  split; [|done]. exists df. rewrite <- E. apply engineered_file_other.
  - apply elem_of_climate_files in Hfile as [_ Hin].
    by apply (proj1 (Forall_forall _ _) Hrest).
  - intros p Hp'. by apply lookup_insert_ne.
Qed.

(** ** Making the output directory *)

Lemma mkdir_files (path : string) (w : world) : files (mkdir path w).2 = files w.
Proof. unfold mkdir. destruct (path_exists path w); [done|]. by destruct (parent_is_dir path w). Qed.

Lemma mkdir_dirs (path : string) (w : world) (d : string) :
  d ∈ dirs (mkdir path w).2 → d ∈ dirs w ∨ d = path.
Proof.
  unfold mkdir. destruct (path_exists path w); [by left|].
  destruct (parent_is_dir path w); [|by left].
  cbn [snd dirs]. rewrite elem_of_union, elem_of_singleton. tauto.
Qed.

Lemma mkdir_dirs_mono (path : string) (w : world) : dirs w ⊆ dirs (mkdir path w).2.
Proof.
  unfold mkdir. destruct (path_exists path w); [done|].
  destruct (parent_is_dir path w); [|done]. cbn [snd dirs]. apply union_subseteq_r.
Qed.

Lemma mkdir_Returned (path : string) (w w' : world) :
  mkdir path w = (Returned (), w') → path ∈ dirs w'.
Proof.
  unfold mkdir. destruct (path_exists path w); [done|].
  destruct (parent_is_dir path w); [|done]. intros [= <-].
  cbn [dirs]. apply elem_of_union_l. by apply elem_of_singleton.
Qed.

Lemma mkdir_Raised (path : string) (w : world) (e : script_exn) :
  (mkdir path w).1 = Raised e →
  e = OSError ∨ e = FileExistsError ∧ path_exists path w = true.
Proof.
  unfold mkdir. destruct (path_exists path w); [intros [= <-]; by right|].
  destruct (parent_is_dir path w); [done|]. intros [= <-]. by left.
Qed.

Lemma makedirs_from_files (fuel : nat) (name : string) (w : world) :
  files (makedirs_from fuel name w).2 = files w.
Proof.
  revert name w. induction fuel as [|fuel IH]; intros name w; [apply mkdir_files|].
  cbn [makedirs_from]. destruct (_ && _); [|apply mkdir_files].
  specialize (IH (dirname name) w).
  destruct (makedirs_from fuel (dirname name) w) as [[[]|[e| |]] w1]; cbn [snd] in *;
    try done; (case_bool_decide; [done|by rewrite mkdir_files]).
Qed.

Lemma makedirs_from_dirs_mono (fuel : nat) (name : string) (w : world) :
  dirs w ⊆ dirs (makedirs_from fuel name w).2.
Proof.
  revert name w. induction fuel as [|fuel IH]; intros name w; [apply mkdir_dirs_mono|].
  cbn [makedirs_from]. destruct (_ && _); [|apply mkdir_dirs_mono].
  specialize (IH (dirname name) w).
  destruct (makedirs_from fuel (dirname name) w) as [[[]|[e| |]] w1]; cbn [snd] in *;
    try done; (case_bool_decide; [done|]); (etrans; [exact IH|apply mkdir_dirs_mono]).
Qed.

(** The directories that [makedirs] makes have names no longer than the
    one it is asked for. *)
Lemma makedirs_from_dirs (fuel : nat) (name : string) (w : world) (d : string) :
  d ∈ dirs (makedirs_from fuel name w).2 →
  d ∈ dirs w ∨ String.length d ≤ String.length name.
Proof.
  revert name w. induction fuel as [|fuel IH]; intros name w.
  { intros [?| ->]%mkdir_dirs; auto. }
  cbn [makedirs_from]. destruct (_ && _); [|intros [?| ->]%mkdir_dirs; auto].
  specialize (IH (dirname name) w). pose proof (length_dirname name).
  destruct (makedirs_from fuel (dirname name) w) as [[[]|[e| |]] w1]; cbn [snd] in *.
  - case_bool_decide; cbn [snd].
    + intros [?|?]%IH; [auto|right; lia].
    + intros [[?|?]%IH| ->]%mkdir_dirs; [auto|right; lia|auto].
  - intros [?|?]%IH; [auto|right; lia].
  - intros [?|?]%IH; [auto|right; lia].
  - case_bool_decide; cbn [snd].
    + intros [?|?]%IH; [auto|right; lia].
    + intros [[?|?]%IH| ->]%mkdir_dirs; [auto|right; lia|auto].
Qed.

Lemma makedirs_from_Raised (fuel : nat) (name : string) (w : world) (e : script_exn) :
  path_exists name w = false → (makedirs_from fuel name w).1 = Raised e → e = OSError.
Proof.
  revert name w e. induction fuel as [|fuel IH]; intros name w e Hname.
  { intros [->|[_ ?]]%mkdir_Raised; [done|congruence]. }
  cbn [makedirs_from].
  destruct (_ && _) eqn:Hcond; [|intros [->|[_ ?]]%mkdir_Raised; [done|congruence]].
  apply andb_true_iff in Hcond as [[Hhead Htail]%andb_true_iff Hex].
  apply negb_true_iff in Hex. apply negb_true_iff, bool_decide_eq_false in Htail.
  clear Hhead.
  pose proof (IH (dirname name) w) as IH'.
  pose proof (makedirs_from_files fuel (dirname name) w) as Hfiles.
  pose proof (makedirs_from_dirs fuel (dirname name) w name) as Hdirs.
  assert (String.length (dirname name) < String.length name) as Hlen.
  { pose proof (length_dirname name). destruct (basename name); [done|]. simpl in *. lia. }
  assert (∀ w1, w1 = (makedirs_from fuel (dirname name) w).2 → path_exists name w1 = false)
    as Hname1.
  { intros w1 ->. unfold path_exists in *. apply orb_false_iff in Hname as [Hd Hf].
    rewrite Hfiles, Hf, orb_false_r. apply bool_decide_eq_false in Hd.
    apply bool_decide_eq_false. intros [?|?]%Hdirs; [done|lia]. }
  destruct (makedirs_from fuel (dirname name) w) as [[[]|[e'| |]] w1]; cbn [fst snd] in *.
  - case_bool_decide; [done|].
    intros [->|[_ ?]]%mkdir_Raised; [done|]. rewrite Hname1 in *; done.
  - intros [= <-]. by specialize (IH' _ Hex eq_refl).
  - by intros [= <-].
  - case_bool_decide; [done|].
    intros [->|[_ ?]]%mkdir_Raised; [done|]. rewrite Hname1 in *; done.
Qed.

Lemma makedirs_from_Returned (fuel : nat) (name : string) (w w' : world) :
  basename name ≠ "." → makedirs_from fuel name w = (Returned (), w') → name ∈ dirs w'.
Proof.
  intros Hb. destruct fuel as [|fuel]; [apply mkdir_Returned|].
  cbn [makedirs_from]. destruct (_ && _); [|apply mkdir_Returned].
  rewrite (bool_decide_eq_false_2 _ Hb).
  destruct (makedirs_from fuel (dirname name) w) as [[[]|[e| |]] w1];
    solve [done|apply mkdir_Returned].
Qed.

(** [String.length name] steps are enough: more change nothing. *)
Lemma makedirs_from_fuel (fuel fuel' : nat) (name : string) (w : world) :
  String.length name ≤ fuel → String.length name ≤ fuel' →
  makedirs_from fuel name w = makedirs_from fuel' name w.
Proof.
  revert fuel' name w. induction fuel as [|fuel IH]; intros fuel' name w Hf Hf'.
  { destruct name; [|simpl in Hf; lia]. by destruct fuel'. }
  destruct fuel' as [|fuel'].
  { destruct name; [done|simpl in Hf'; lia]. }
  cbn [makedirs_from]. destruct (_ && _) eqn:Hcond; [|done].
  apply andb_true_iff in Hcond as [[_ Htail]%andb_true_iff _].
  apply negb_true_iff, bool_decide_eq_false in Htail.
  assert (String.length (dirname name) < String.length name) as Hlen.
  { pose proof (length_dirname name). destruct (basename name); [done|]. simpl in *. lia. }
  rewrite (IH fuel') by lia. done.
Qed.

Lemma makedirs_parent (name : string) (w : world) :
  parent_is_dir name w = true → makedirs name w = mkdir name w.
Proof.
  unfold makedirs. intros Hp. destruct (String.length name) as [|fuel]; [done|].
  cbn [makedirs_from]. unfold parent_is_dir in Hp.
  destruct (bool_decide (dirname name = "")); [done|]. cbn [orb] in Hp.
  unfold path_exists. rewrite Hp. cbn [negb orb andb]. by rewrite andb_false_r.
Qed.

(** ** The whole run *)

(** Lines 72-73 leave a world with the same files in which the loop runs,
    unless [makedirs] raised [OSError]. *)
Lemma main_cases (w : world) :
  (∃ w1, (∀ noaa_files, main here noaa_files w = for_files here noaa_files w1) ∧
     files w1 = files w ∧ dirs w ⊆ dirs w1 ∧
     (out_path here ∈ dirs w1 ∨ w1 = w ∧ is_Some (files w !! out_path here))) ∨
  (∃ w1, (∀ noaa_files, main here noaa_files w = (Raised OSError, w1)) ∧
     files w1 = files w ∧ dirs w ⊆ dirs w1 ∧ path_exists (out_path here) w = false).
Proof.
  unfold main. destruct (path_exists (out_path here) w) eqn:Hex; cbn [negb].
  - left. exists w. split_and!; [done..|]. unfold path_exists in Hex.
    apply orb_true_iff in Hex as [?%bool_decide_eq_true|?%bool_decide_eq_true]; auto.
  - pose proof (makedirs_from_files (String.length (out_path here)) (out_path here) w) as Hf.
    pose proof (makedirs_from_dirs_mono (String.length (out_path here)) (out_path here) w) as Hd.
    pose proof (makedirs_from_Raised (String.length (out_path here)) (out_path here) w) as Hr.
    pose proof (makedirs_from_Returned (String.length (out_path here)) (out_path here) w) as Hok.
    unfold makedirs.
    destruct (makedirs_from _ (out_path here) w) as [[[]|e] w1]; cbn [fst snd] in *.
    + left. exists w1. split_and!; [done..|]. left. apply Hok; [|done].
      by rewrite basename_out_path.
    + right. exists w1. by rewrite (Hr e Hex eq_refl).
Qed.

Lemma for_files_climate_files (noaa_files : list string) (w : world) :
  for_files here noaa_files w = for_files here (climate_files noaa_files) w.
Proof.
  revert w. induction noaa_files as [|file rest IH]; intros w; [done|].
  destruct (contains "stations" file) eqn:Es.
  - rewrite climate_files_cons_skip by done. cbn [for_files].
    rewrite process_file_skip by done. apply IH.
  - rewrite climate_files_cons by done. cbn [for_files].
    destruct (process_file here file w) as [[[]|e] w1]; [apply IH|done].
Qed.

Lemma for_files_again (noaa_files : list string) (w w' : world) :
  Forall (λ file, contains "/" file = false) noaa_files →
  for_files here noaa_files w = (Returned (), w') →
  for_files here noaa_files w' = (Returned (), w').
Proof.
  revert w. induction noaa_files as [|f0 rest IH]; intros w Hl Hrun; [done|].
  pose proof (for_files_Returned_inv _ _ _ Hl Hrun) as Hinv.
  pose proof (for_files_dirs (f0 :: rest) w) as Hdirs.
  pose proof (for_files_engineered (f0 :: rest) w f0) as Heng.
  rewrite Hrun in Hdirs, Heng. cbn [snd] in Hdirs, Heng.
  apply Forall_cons in Hl as [Hf0 Hrest]. cbn [for_files] in Hrun |- *.
  destruct (contains "stations" f0) eqn:Es.
  { rewrite process_file_skip in Hrun |- * by done. by apply (IH w). }
  rewrite process_file_eq in Hrun |- * by done.
  destruct (Hinv f0) as (df0 & E0 & Hw' & Hp & Hd).
  { rewrite climate_files_cons by done. apply list_elem_of_here. }
  rewrite Heng, E0 in * by done.
  assert (to_csv (output f0) df0 w' = (Returned (), w')) as ->.
  { apply to_csv_Returned. split_and!.
    - by rewrite (parent_is_dir_dirs _ _ _ Hdirs).
    - by rewrite Hdirs.
    - rewrite insert_id by done. by rewrite world_eta. }
  destruct (to_csv (output f0) df0 w) as [[[]|e] w1]; [|done]. by apply (IH w1).
Qed.
End script_properties.

Lemma feature_builder_names (df out : DataFrame) :
  feature_builder df = Ok out → map fst (columns out) = feature_names.
Proof.
  intros Hout. unfold feature_builder in Hout.
  destruct (features df) as [pre|] eqn:Hpre; [|done]. injection Hout as <-.
  destruct (features_Ok_raw_input _ _ Hpre) as (ds & vp & vmin & vavg & vmax & Hraw).
  rewrite (features_closed_form _ _ _ _ _ _ Hraw) in Hpre. injection Hpre as <-.
  rewrite dropna_keep_mask. unfold features_of. cbn [columns boolean_index].
  rewrite map_map. cbn [fst]. reflexivity.
Qed.

Lemma lookup_col_None (name : string) (cols : list (string * Series)) :
  name ∉ map fst cols → lookup_col name cols = None.
Proof.
  induction cols as [|[k s] cols IH]; [done|]. cbn [map fst lookup_col].
  intros [Hk Hn]%not_elem_of_cons. destruct (String.eqb_spec name k); [done|auto].
Qed.

Lemma DATE_not_a_feature_name : "DATE" ∉ feature_names.
Proof. apply (bool_decide_unpack _). by vm_compute. Qed.

(** A written table is no input of the function. *)
Lemma function_on_engineered (df out : DataFrame) (path : string) (fs : filesystem) :
  feature_builder df = Ok out → fs !! path = Some (columns out) →
  feature_engineering_noaa_climate_data path fs = (Raise ValueError, fs).
Proof.
  intros Hout Hpath. unfold feature_engineering_noaa_climate_data, read_csv.
  rewrite Hpath. cbn [forallb].
  rewrite lookup_col_None; [done|].
  rewrite (feature_builder_names _ _ Hout). apply DATE_not_a_feature_name.
Qed.

Lemma engineered_file_Ok (here : string) (fs : filesystem) (file : string) (out : DataFrame) :
  engineered_file here fs file = Ok out → ∃ df, feature_builder df = Ok out.
Proof.
  unfold engineered_file, feature_engineering_noaa_climate_data, read_csv.
  destruct (fs !! _); [|done]. destruct (forallb _ _); [|done]. cbn [fst].
  rewrite bind_Ok. by eexists.
Qed.

(** The sample world: the one station is engineered, and nothing is in
    the way of the output. *)
Lemma sample_world_engineered :
  engineered_file "" (files sample_world) "NYC.csv"
  = Ok (returned (feature_builder (sample 380))).
Proof.
  unfold engineered_file, feature_engineering_noaa_climate_data, read_csv.
  change (path_join (noaa_data_path "") "NYC.csv") with "raw_data/noaa/to_csv/NYC.csv".
  unfold sample_world. cbn [files]. rewrite lookup_insert_eq.
  change (forallb _ ["DATE"]) with true. cbn [fst]. rewrite bind_Ok.
  change (nrows (sample_table 380)) with 380.
  apply sample_feature_builder_returned.
Qed.

Lemma sample_climate_files : climate_files sample_listing = ["NYC.csv"].
Proof. reflexivity. Qed.

Lemma sample_listing_names : Forall (λ file, contains "/" file = false) sample_listing.
Proof. by repeat constructor. Qed.

Lemma sample_world_can_be_written :
  ∀ file, file ∈ climate_files sample_listing →
    (∃ df, engineered_file "" (files sample_world) file = Ok df) ∧
    ("" +:+ "processed_data" +:+ "/" +:+ file) ∉ dirs sample_world.
Proof.
  intros file Hfile. rewrite sample_climate_files in Hfile.
  apply list_elem_of_singleton in Hfile as ->. split.
  - eexists. apply sample_world_engineered.
  - cbn [sample_world dirs]. apply not_elem_of_empty.
Qed.

Lemma climate_files_app (l1 l2 : list string) :
  climate_files (l1 ++ l2) = climate_files l1 ++ climate_files l2.
Proof. apply filter_app. Qed.

Lemma for_files_keeps_files (here : string) (noaa_files : list string) (w : world) (p : string) :
  is_Some (files w !! p) → is_Some (files (for_files here noaa_files w).2 !! p).
Proof.
  revert w. induction noaa_files as [|file rest IH]; intros w Hp; [done|].
  cbn [for_files].
  assert (is_Some (files (process_file here file w).2 !! p)) as Hp1.
  { destruct (contains "stations" file) eqn:Es.
    - by rewrite process_file_skip.
    - rewrite process_file_eq by done. destruct (engineered_file _ _ _); [|done].
      unfold to_csv. destruct (_ && _); [|done]. cbn [snd files].
      apply lookup_insert_is_Some'. by right. }
  destruct (process_file here file w) as [[[]|e] w1]; cbn [snd] in *; [by apply IH|done].
Qed.

Lemma main_returns
    (here : string) (noaa_files : list string) (w : world) :
  Forall (λ file, contains "/" file = false) noaa_files →
  (out_path here ∈ dirs w ∨
   path_exists (out_path here) w = false ∧ parent_is_dir (out_path here) w = true) →
  (∀ file, file ∈ climate_files noaa_files →
     (∃ df, engineered_file here (files w) file = Ok df) ∧
     (out_path here +:+ "/" +:+ file) ∉ dirs w) →
  ∃ w', main here noaa_files w = (Returned (), w') ∧
    dirs w' = {[out_path here]} ∪ dirs w ∧
    (∀ file df, file ∈ climate_files noaa_files →
       engineered_file here (files w) file = Ok df →
       files w' !! (out_path here +:+ "/" +:+ file) = Some (columns df)) ∧
    (∀ p, (∀ file, file ∈ climate_files noaa_files → p ≠ out_path here +:+ "/" +:+ file) →
       files w' !! p = files w !! p).
Proof.
  intros Hl Hout Hall.
  assert (∃ w1, main here noaa_files w = for_files here noaa_files w1 ∧
            files w1 = files w ∧ dirs w1 = {[out_path here]} ∪ dirs w) as (w1 & -> & Hf & Hd).
  { unfold main. destruct Hout as [Hin|[Hex Hpar]].
    - unfold path_exists. rewrite (bool_decide_eq_true_2 _ Hin). cbn [orb negb].
      exists w. split_and!; [done..|]. apply set_eq. intros d.
      rewrite elem_of_union, elem_of_singleton. split; [auto|]. by intros [->|?].
    - rewrite Hex, makedirs_parent by done. cbn [negb]. unfold mkdir. rewrite Hex, Hpar.
      by eexists. }
  destruct (for_files_returns here noaa_files w1) as [w' Hrun]; [done|..].
  { rewrite Hd. apply elem_of_union_l. by apply elem_of_singleton. }
  { intros file Hfile. rewrite Hf, Hd. destruct (Hall file Hfile) as [? ?]. split; [done|].
    rewrite elem_of_union, elem_of_singleton.
    intros [?%output_is_not_out_path|?]; done. }
  exists w'. split; [done|]. split_and!.
  - rewrite <- Hd. replace w' with (for_files here noaa_files w1).2 by by rewrite Hrun.
    apply for_files_dirs.
  - intros file df Hfile E.
    destruct (for_files_Returned_inv here _ _ _ Hl Hrun file Hfile) as (df' & E' & ? & _).
    rewrite Hf, E in E'. by injection E' as <-.
  - intros p Hp. rewrite <- Hf. replace w' with (for_files here noaa_files w1).2 by by rewrite Hrun.
    by apply for_files_other_files.
Qed.

Lemma sample_world_returns :
  main "" sample_listing sample_world
  = (Returned (), (main "" sample_listing sample_world).2).
Proof.
  destruct (main_returns "" sample_listing sample_world) as (w' & -> & _); [..|done].
  - apply sample_listing_names.
  - right. split; reflexivity.
  - apply sample_world_can_be_written.
Qed.

(** * The script around the function *)

(** ** Which files are processed *)

(** X11. Line 77: a name with [stations] anywhere in it is skipped, wherever it
    stands in the listing; the run is the run on the listing without it. *)
Theorem stations_files_are_skipped
    (here : string) (l1 l2 : list string) (a b : string) (w : world) :
  main here (l1 ++ (a +:+ "stations" +:+ b) :: l2) w = main here (l1 ++ l2) w.
Proof.
  assert (contains "stations" (a +:+ "stations" +:+ b) = true) as Hs.
  { apply contains_spec. by exists a, b. }
  destruct (main_cases here w) as [(w1 & H & _)|(w1 & H & _)]; rewrite !H; [|done].
  rewrite (for_files_climate_files here (l1 ++ _ :: l2)), (for_files_climate_files here (l1 ++ l2)).
  rewrite !climate_files_app. by rewrite climate_files_cons_skip.
Qed.

(** ** What a run writes *)

(** X12. Lines 72-81: when the names of the listing hold no slash, the output
    directory is there or can be made, and the function returns for every
    file that is not skipped (no directory being in the way of its output),
    the run returns; the output directory then exists, every such file has
    its table under the same name there, and every other path is as it
    was. *)
Theorem main_writes_every_climate_file
    (here : string) (noaa_files : list string) (w : world) :
  Forall (λ file, contains "/" file = false) noaa_files →
  (out_path here ∈ dirs w ∨
   path_exists (out_path here) w = false ∧ parent_is_dir (out_path here) w = true) →
  (∀ file, file ∈ climate_files noaa_files →
     (∃ df, engineered_file here (files w) file = Ok df) ∧
     (out_path here +:+ "/" +:+ file) ∉ dirs w) →
  ∃ w', main here noaa_files w = (Returned (), w') ∧
    dirs w' = {[out_path here]} ∪ dirs w ∧
    (∀ file df, file ∈ climate_files noaa_files →
       engineered_file here (files w) file = Ok df →
       files w' !! (out_path here +:+ "/" +:+ file) = Some (columns df)) ∧
    (∀ p, (∀ file, file ∈ climate_files noaa_files → p ≠ out_path here +:+ "/" +:+ file) →
       files w' !! p = files w !! p).
Proof. apply main_returns. Qed.

Lemma main_writes_every_climate_file_witness :
  ∃ w', main "" sample_listing sample_world = (Returned (), w') ∧
    dirs w' = {[out_path ""]} ∪ dirs sample_world ∧
    (∀ file df, file ∈ climate_files sample_listing →
       engineered_file "" (files sample_world) file = Ok df →
       files w' !! (out_path "" +:+ "/" +:+ file) = Some (columns df)) ∧
    (∀ p, (∀ file, file ∈ climate_files sample_listing → p ≠ out_path "" +:+ "/" +:+ file) →
       files w' !! p = files sample_world !! p).
Proof.
  apply (main_writes_every_climate_file "" sample_listing sample_world).
  - apply sample_listing_names.
  - right. split; reflexivity.
  - apply sample_world_can_be_written.
Defined.

(** X13. Whatever the listing and whether the run returns or raises, no
    directory disappears, no file disappears, only paths
    [out_path/file] of files that are not skipped can change, and so no
    input of the function changes. *)
Theorem main_touches_only_its_outputs
    (here : string) (noaa_files : list string) (w : world) :
  let w' := (main here noaa_files w).2 in
  dirs w ⊆ dirs w' ∧
  (∀ p, is_Some (files w !! p) → is_Some (files w' !! p)) ∧
  (∀ p, (∀ file, file ∈ climate_files noaa_files → p ≠ out_path here +:+ "/" +:+ file) →
     files w' !! p = files w !! p) ∧
  (∀ file, contains "/" file = false →
     files w' !! path_join (noaa_data_path here) file
     = files w !! path_join (noaa_data_path here) file).
Proof.
  cbn zeta.
  assert (∀ p, (∀ file, file ∈ climate_files noaa_files → p ≠ out_path here +:+ "/" +:+ file) →
     files (main here noaa_files w).2 !! p = files w !! p) as Hother.
  { intros p Hp.
    destruct (main_cases here w) as [(w1 & H & Hf & _)|(w1 & H & Hf & _)]; rewrite H; cbn [snd].
    - rewrite <- Hf. by apply for_files_other_files.
    - by rewrite Hf. }
  split_and!; [..|done|].
  - destruct (main_cases here w) as [(w1 & H & _ & Hd & _)|(w1 & H & _ & Hd & _)];
      rewrite H; cbn [snd]; [|done]. by rewrite for_files_dirs.
  - intros p Hp.
    destruct (main_cases here w) as [(w1 & H & Hf & _)|(w1 & H & Hf & _)]; rewrite H; cbn [snd].
    + apply for_files_keeps_files. by rewrite Hf.
    + by rewrite Hf.
  - intros file Hfile. apply Hother. intros g _. by apply input_is_not_output.
Qed.

(** ** Exceptions *)

(** X14. Lines 75-81: the exception the function raises for a file ends the
    run; the files before it have been written as by a run on them alone,
    and the files after it are not looked at. *)
Theorem main_stops_at_first_exception
    (here : string) (l1 l2 : list string) (file : string) (e : exn) (w : world) :
  (main here l1 w).1 = Returned () →
  contains "/" file = false →
  contains "stations" file = false →
  engineered_file here (files w) file = Raise e →
  main here (l1 ++ file :: l2) w = (Raised (Pandas e), (main here l1 w).2).
Proof.
  intros Hrun Hfile Hs He.
  destruct (main_cases here w) as [(w1 & H & Hf & _)|(w1 & H & _)];
    rewrite !H in *; [|done].
  rewrite for_files_app. pose proof (for_files_engineered here l1 w1 file Hfile) as Heng.
  destruct (for_files here l1 w1) as [[[]|e'] w2]; cbn [fst snd] in *; [|done].
  cbn [for_files]. rewrite process_file_eq by done. by rewrite Heng, Hf, He.
Qed.

Lemma main_stops_at_first_exception_witness :
  main "" (sample_listing ++ "BOS.csv" :: ["LAX.csv"]) sample_world
  = (Raised (Pandas FileNotFoundError), (main "" sample_listing sample_world).2).
Proof.
  apply (main_stops_at_first_exception "" sample_listing ["LAX.csv"] "BOS.csv").
  - by rewrite sample_world_returns.
  - reflexivity.
  - reflexivity.
  - reflexivity.
Defined.

(** ** Running again *)

(** X16. A run that returned can be repeated: on the world it left, the run
    returns again and leaves that world as it is. *)
Theorem rerun_changes_nothing
    (here : string) (noaa_files : list string) (w w' : world) :
  Forall (λ file, contains "/" file = false) noaa_files →
  main here noaa_files w = (Returned (), w') →
  main here noaa_files w' = (Returned (), w').
Proof.
  intros Hl Hrun.
  destruct (main_cases here w) as [(w1 & H & Hf & _ & Hout)|(w1 & H & _)];
    rewrite H in Hrun; [|done].
  assert (path_exists (out_path here) w' = true) as Hex.
  { unfold path_exists. apply orb_true_iff.
    replace w' with (for_files here noaa_files w1).2 by by rewrite Hrun.
    destruct Hout as [Hd|[-> Hfile]].
    - left. apply bool_decide_eq_true. by rewrite for_files_dirs.
    - right. apply bool_decide_eq_true. by apply for_files_keeps_files. }
  unfold main. rewrite Hex. cbn [negb]. by apply (for_files_again here _ w1).
Qed.

Lemma rerun_changes_nothing_witness :
  main "" sample_listing (main "" sample_listing sample_world).2
  = (Returned (), (main "" sample_listing sample_world).2).
Proof.
  apply (rerun_changes_nothing "" sample_listing sample_world).
  - apply sample_listing_names.
  - apply sample_world_returns.
Defined.

(** X17. Lines 18, 63 and 81: a table the run wrote has no [DATE] column, so
    the function raises [ValueError] when it is given one of the files
    written. *)
Theorem written_file_cannot_be_read_back
    (here : string) (noaa_files : list string) (w w' : world) (file : string) :
  Forall (λ file, contains "/" file = false) noaa_files →
  main here noaa_files w = (Returned (), w') →
  file ∈ climate_files noaa_files →
  feature_engineering_noaa_climate_data (out_path here +:+ "/" +:+ file) (files w')
  = (Raise ValueError, files w').
Proof.
  intros Hl Hrun Hfile.
  destruct (main_cases here w) as [(w1 & H & _)|(w1 & H & _)]; rewrite H in Hrun; [|done].
  destruct (for_files_Returned_inv here _ _ _ Hl Hrun file Hfile) as (out & E & Hw' & _).
  apply engineered_file_Ok in E as [df Hdf].
  by apply (function_on_engineered df out).
Qed.

Lemma written_file_cannot_be_read_back_witness :
  feature_engineering_noaa_climate_data (out_path "" +:+ "/" +:+ "NYC.csv")
    (files (main "" sample_listing sample_world).2)
  = (Raise ValueError, files (main "" sample_listing sample_world).2).
Proof.
  apply (written_file_cannot_be_read_back "" sample_listing sample_world).
  - apply sample_listing_names.
  - apply sample_world_returns.
  - rewrite sample_climate_files. apply list_elem_of_here.
Defined.
